(** * uh-ring: metric normalisation and incremental forwarding

    A shallow embedding of [main.go]: the metric registry, the decoding of
    metric payloads, the high-water-mark forwarding of [pushMetrics], the
    two renderers [getMetricValue] and [displayMetric], and the server
    cycle [fetchAndPushMetrics].

    - [int64] values are integers of [Z]; the only arithmetic the program
      performs on them, the conversion of seconds to milliseconds, wraps
      around as Go's [int64] multiplication does ([mul64]).
    - [float64] values are Rocq's primitive binary64 floats.
    - The two package-level variables [lastPushedTimestamp] and
      [globalLatestTimestamp] are the two fields of an explicit [State],
      threaded through every function that touches them.
    - Library calls are kept at the library's interface: a payload is the
      JSON value its bytes denote, [fmt] calls are recorded with their
      format and arguments, the remote-write transport is the response the
      endpoint gives to a batch. *)

From Stdlib Require Import ZArith Floats Bool Ascii String List Permutation.
From stdpp Require Import gmap strings list fin_maps.
Import ListNotations.
Open Scope string_scope.
Open Scope list_scope.
Open Scope Z_scope.

(** ** 64-bit integers *)

Definition int64_min : Z := - 2 ^ 63.
Definition int64_max : Z := 2 ^ 63 - 1.

Definition in_int64 (z : Z) : bool := (int64_min <=? z) && (z <=? int64_max).

(** Two's complement wrap-around of a mathematical integer into [int64]. *)
Definition wrap64 (z : Z) : Z := (z + 2 ^ 63) mod 2 ^ 64 - 2 ^ 63.

(** Go's [a * b] on [int64]. *)
Definition mul64 (a b : Z) : Z := wrap64 (a * b).

(** ** JSON values

    A [json.RawMessage] holds the bytes of one JSON value.  The embedding
    keeps the value those bytes denote.  A number literal is kept as what
    [strconv.ParseFloat(lit, 64)] and [strconv.ParseInt(lit, 10, 64)] make of
    it: [asFloat] is [None] when the literal is out of the binary64 range,
    [asInt] is the literal's value when it is written as an integer (no
    fraction, no exponent) and [None] otherwise. *)

Record number := { asFloat : option float; asInt : option Z }.

#[local] Unset Elimination Schemes.
Inductive json :=
| JNull
| JBool (b : bool)
| JNumber (n : number)
| JString (s : string)
| JArray (elems : list json)
| JObject (members : list (string * json)).
#[local] Set Elimination Schemes.

(** [None] stands for bytes that are not a JSON text (the empty message of
    an envelope without an ["object"] member included): [json.Unmarshal]
    fails on them before it stores anything. *)
Definition RawMessage := option json.

(** ** Structs of the program *)

Module Metric.
Record t := mk { Type_ : string; Object : RawMessage }.
End Metric.

Module TimeValue.
Record t := mk { Value : float; Timestamp : Z }.
Definition zero : t := mk 0%float 0.
End TimeValue.

Module TimeSeriesMetric.
Record t := mk {
  DayStartTimestamp : Z;
  Title : string;
  Values : list TimeValue.t;
  LastReading : float;
  Unit : string;
  Subtitle : string;
  Avg : float;
  Total : float }.
Definition zero : t := mk 0 "" [] 0%float "" "" 0%float 0%float.
End TimeSeriesMetric.

Module SimpleMetric.
Record t := mk {
  Value : option float;
  Title : string;
  DayStartTimestamp : Z }.
Definition zero : t := mk None "" 0.
End SimpleMetric.

Module SleepMetric.
Record t := mk {
  DayStartTimestamp : Z;
  Score : option float;
  TotalSleep : option float;
  Efficiency : option float;
  TimeInBed : option float;
  DeepSleep : option float;
  LightSleep : option float;
  RemSleep : option float }.
Definition zero : t := mk 0 None None None None None None None.
End SleepMetric.

Module Data.
Record t := mk {
  Metrics : gmap string (list Metric.t);
  LatestTimeZone : string }.
End Data.

Module APIResponse.
Record t := mk {
  Data_ : Data.t;
  Error : option string;
  Status : Z }.
End APIResponse.

(** ** Decoding ([encoding/json])

    [json.Unmarshal] into a struct: [null] leaves the struct as it is, an
    object stores its members one after the other into the fields they
    name, anything else is an error.  A member's key selects the field
    whose tag it equals, or else the field whose tag it equals after case
    folding; unknown keys are skipped.  Every caller in [main.go] drops the
    struct when [Unmarshal] returns an error, so a failed decoding is
    [None]. *)

Definition is_lower (c : ascii) : bool :=
  (97 <=? nat_of_ascii c)%nat && (nat_of_ascii c <=? 122)%nat.

Definition to_upper (c : ascii) : ascii :=
  if is_lower c then ascii_of_nat (nat_of_ascii c - 32) else c.

(** [foldName]: ASCII letters fold to upper case; of the other runes only
    U+017F (long s, bytes C5 BF) and U+212A (Kelvin sign, bytes E2 84 AA)
    fold to an ASCII letter.  The remaining runes fold among themselves and
    are left as they are: they never meet a tag of this program, which are
    all ASCII. *)
Fixpoint foldName (s : string) : string :=
  match s with
  | EmptyString => EmptyString
  | String c rest =>
      match rest with
      | String c1 rest1 =>
          if Ascii.eqb c (ascii_of_nat 197) && Ascii.eqb c1 (ascii_of_nat 191)
          then String "S" (foldName rest1)
          else
            match rest1 with
            | String c2 rest2 =>
                if Ascii.eqb c (ascii_of_nat 226) && Ascii.eqb c1 (ascii_of_nat 132)
                   && Ascii.eqb c2 (ascii_of_nat 170)
                then String "K" (foldName rest2)
                else String (to_upper c) (foldName rest)
            | EmptyString => String (to_upper c) (foldName rest)
            end
      | EmptyString => String (to_upper c) EmptyString
      end
  end.

Definition names (key tag : string) : bool :=
  String.eqb key tag || String.eqb (foldName key) (foldName tag).

(** Storing a JSON value into a field of each type the structs use.  [old]
    is the field's value before the member is stored. *)
Definition storeFloat64 (j : json) (old : float) : option float :=
  match j with
  | JNull => Some old
  | JNumber n => asFloat n
  | _ => None
  end.

Definition storeInt64 (j : json) (old : Z) : option Z :=
  match j with
  | JNull => Some old
  | JNumber n =>
      match asInt n with
      | Some z => if in_int64 z then Some z else None
      | None => None
      end
  | _ => None
  end.

Definition storeString (j : json) (old : string) : option string :=
  match j with
  | JNull => Some old
  | JString s => Some s
  | _ => None
  end.

(** A [*float64] field: [null] sets the pointer to nil. *)
Definition storeFloat64Ptr (j : json) (old : option float) : option (option float) :=
  match j with
  | JNull => Some None
  | JNumber n => Some <$> asFloat n
  | _ => None
  end.

(** Members of an object are stored in order; the first error is what
    [Unmarshal] returns. *)
Definition storeMembers {T : Type} (store : string -> json -> T -> option T)
    (members : list (string * json)) (old : T) : option T :=
  foldl (fun acc kv => acc ≫= store kv.1 kv.2) (Some old) members.

Definition storeStruct {T : Type} (store : string -> json -> T -> option T)
    (j : json) (old : T) : option T :=
  match j with
  | JNull => Some old
  | JObject members => storeMembers store members old
  | _ => None
  end.

Definition storeTimeValueField (key : string) (j : json) (v : TimeValue.t)
    : option TimeValue.t :=
  if names key "value" then
    (fun x => TimeValue.mk x (TimeValue.Timestamp v)) <$> storeFloat64 j (TimeValue.Value v)
  else if names key "timestamp" then
    (fun x => TimeValue.mk (TimeValue.Value v) x) <$> storeInt64 j (TimeValue.Timestamp v)
  else Some v.

Definition storeTimeValue : json -> TimeValue.t -> option TimeValue.t :=
  storeStruct storeTimeValueField.

(** A [[]TimeValue] field.  The decoder stores element [i] of the array on
    top of what the slice's memory holds at index [i]: zero in fresh memory,
    and what an earlier ["values"] member of the same object left there
    otherwise.  [backing] is that memory; the slice is its first
    [length elems] cells.  An empty array and [null] give a fresh slice. *)
Fixpoint storeElems (elems : list json) (backing : list TimeValue.t)
    : option (list TimeValue.t) :=
  match elems with
  | [] => Some []
  | j :: elems' =>
      v ← storeTimeValue j (hd TimeValue.zero backing);
      vs ← storeElems elems' (tl backing);
      Some (v :: vs)
  end.

Record slice := { cells : list TimeValue.t; backing : list TimeValue.t }.

Definition storeSlice (j : json) (old : slice) : option slice :=
  match j with
  | JNull => Some {| cells := []; backing := [] |}
  | JArray [] => Some {| cells := []; backing := [] |}
  | JArray elems =>
      vs ← storeElems elems (backing old);
      Some {| cells := vs; backing := vs ++ drop (length elems) (backing old) |}
  | _ => None
  end.

(** The struct being filled, with the memory behind its [Values] slice. *)
Definition storeTimeSeriesField (key : string) (j : json)
    (a : TimeSeriesMetric.t * list TimeValue.t)
    : option (TimeSeriesMetric.t * list TimeValue.t) :=
  let '(TimeSeriesMetric.mk ds ti vs lr un su av to, mem) := a in
  if names key "day_start_timestamp" then
    (fun x => (TimeSeriesMetric.mk x ti vs lr un su av to, mem)) <$> storeInt64 j ds
  else if names key "title" then
    (fun x => (TimeSeriesMetric.mk ds x vs lr un su av to, mem)) <$> storeString j ti
  else if names key "values" then
    (fun s => (TimeSeriesMetric.mk ds ti (cells s) lr un su av to, backing s))
      <$> storeSlice j {| cells := vs; backing := mem |}
  else if names key "last_reading" then
    (fun x => (TimeSeriesMetric.mk ds ti vs x un su av to, mem)) <$> storeFloat64 j lr
  else if names key "unit" then
    (fun x => (TimeSeriesMetric.mk ds ti vs lr x su av to, mem)) <$> storeString j un
  else if names key "subtitle" then
    (fun x => (TimeSeriesMetric.mk ds ti vs lr un x av to, mem)) <$> storeString j su
  else if names key "avg" then
    (fun x => (TimeSeriesMetric.mk ds ti vs lr un su x to, mem)) <$> storeFloat64 j av
  else if names key "total" then
    (fun x => (TimeSeriesMetric.mk ds ti vs lr un su av x, mem)) <$> storeFloat64 j to
  else Some a.

Definition storeSimpleField (key : string) (j : json) (v : SimpleMetric.t)
    : option SimpleMetric.t :=
  let '(SimpleMetric.mk va ti ds) := v in
  if names key "value" then
    (fun x => SimpleMetric.mk x ti ds) <$> storeFloat64Ptr j va
  else if names key "title" then
    (fun x => SimpleMetric.mk va x ds) <$> storeString j ti
  else if names key "day_start_timestamp" then
    (fun x => SimpleMetric.mk va ti x) <$> storeInt64 j ds
  else Some v.

Definition storeSleepField (key : string) (j : json) (v : SleepMetric.t)
    : option SleepMetric.t :=
  let '(SleepMetric.mk ds sc ts ef tb de li re) := v in
  if names key "day_start_timestamp" then
    (fun x => SleepMetric.mk x sc ts ef tb de li re) <$> storeInt64 j ds
  else if names key "score" then
    (fun x => SleepMetric.mk ds x ts ef tb de li re) <$> storeFloat64Ptr j sc
  else if names key "total_sleep" then
    (fun x => SleepMetric.mk ds sc x ef tb de li re) <$> storeFloat64Ptr j ts
  else if names key "efficiency" then
    (fun x => SleepMetric.mk ds sc ts x tb de li re) <$> storeFloat64Ptr j ef
  else if names key "time_in_bed" then
    (fun x => SleepMetric.mk ds sc ts ef x de li re) <$> storeFloat64Ptr j tb
  else if names key "deep_sleep" then
    (fun x => SleepMetric.mk ds sc ts ef tb x li re) <$> storeFloat64Ptr j de
  else if names key "light_sleep" then
    (fun x => SleepMetric.mk ds sc ts ef tb de x re) <$> storeFloat64Ptr j li
  else if names key "rem_sleep" then
    (fun x => SleepMetric.mk ds sc ts ef tb de li x) <$> storeFloat64Ptr j re
  else Some v.

(** [json.Unmarshal(m.Object, &v)] with [v] a fresh variable of each struct
    type. *)
Definition unmarshalTimeSeries (raw : RawMessage) : option TimeSeriesMetric.t :=
  j ← raw;
  fst <$> storeStruct storeTimeSeriesField j (TimeSeriesMetric.zero, []).

Definition unmarshalSimple (raw : RawMessage) : option SimpleMetric.t :=
  j ← raw; storeStruct storeSimpleField j SimpleMetric.zero.

Definition unmarshalSleep (raw : RawMessage) : option SleepMetric.t :=
  j ← raw; storeStruct storeSleepField j SleepMetric.zero.

(** ** Remote write ([prompb] and the transport) *)

Module Label.
Record t := mk { Name : string; Value : string }.
End Label.

Module Sample.
Record t := mk { Value : float; Timestamp : Z }.
End Sample.

Module TimeSeries.
Record t := mk { Labels : list Label.t; Samples : list Sample.t }.
End TimeSeries.

(** [RemoteWriteClient.Write] marshals the batch, posts it to [url] and
    returns nil or an error.  What it returns is up to the endpoint:
    [respond] is the endpoint's answer to each batch ([None] for nil). *)
Module RemoteWriteClient.
Record t := mk {
  url : string;
  respond : list TimeSeries.t -> option string }.
End RemoteWriteClient.

Definition buildTimeSeries (metricName : string) (value : float) (timestampMs : Z)
    : TimeSeries.t :=
  TimeSeries.mk
    [Label.mk "__name__" metricName]
    [Sample.mk value timestampMs].

(** ** The metric registry *)

Module MetricConfig.
Record t := mk {
  MetricType : string;
  Field : string;
  DisplayName : string;
  Unit : string;
  IsDuration : bool;
  PrometheusName : string }.
End MetricConfig.

Definition timeseries_ (field display unit_ prom : string) : MetricConfig.t :=
  MetricConfig.mk "timeseries" field display unit_ false prom.

Definition simple_ (display unit_ : string) (isDuration : bool) (prom : string)
    : MetricConfig.t :=
  MetricConfig.mk "simple" "" display unit_ isDuration prom.

Definition metricRegistry : gmap string MetricConfig.t :=
  list_to_map [
    ("hr", timeseries_ "last" "HEART RATE" "BPM" "ultrahuman_heart_rate_bpm");
    ("hrv", timeseries_ "last" "HEART RATE VARIABILITY" "ms" "ultrahuman_hrv_ms");
    ("temp", timeseries_ "last" "SKIN TEMPERATURE" "°C" "ultrahuman_skin_temperature_celsius");
    ("spo2", timeseries_ "avg" "SPO2 (Blood Oxygen)" "%" "ultrahuman_spo2_percent");
    ("steps", timeseries_ "total" "STEPS" "" "ultrahuman_steps_total");
    ("movement_index", simple_ "MOVEMENT INDEX" "" false "ultrahuman_movement_index");
    ("active_minutes", simple_ "ACTIVE MINUTES" "min" false "ultrahuman_active_minutes");
    ("recovery_index", simple_ "RECOVERY INDEX" "" false "ultrahuman_recovery_index");
    ("recovery", simple_ "RECOVERY" "" false "ultrahuman_recovery");
    ("vo2_max", simple_ "VO2 MAX" "ml/kg/min" false "ultrahuman_vo2_max");
    ("temperature_deviation",
      simple_ "TEMPERATURE DEVIATION" "°C" false "ultrahuman_temperature_deviation_celsius");
    ("average_body_temperature",
      simple_ "AVG BODY TEMP" "°C" false "ultrahuman_avg_body_temperature_celsius");
    ("sleep_score", simple_ "SLEEP SCORE" "" false "ultrahuman_sleep_score");
    ("total_sleep", simple_ "TOTAL SLEEP" "" true "ultrahuman_total_sleep_minutes");
    ("sleep_efficiency", simple_ "SLEEP EFFICIENCY" "%" false "ultrahuman_sleep_efficiency_percent");
    ("deep_sleep", simple_ "DEEP SLEEP" "" true "ultrahuman_deep_sleep_minutes");
    ("light_sleep", simple_ "LIGHT SLEEP" "" true "ultrahuman_light_sleep_minutes");
    ("rem_sleep", simple_ "REM SLEEP" "" true "ultrahuman_rem_sleep_minutes");
    ("time_in_bed", simple_ "TIME IN BED" "" true "ultrahuman_time_in_bed_minutes");
    ("sleep_rhr", simple_ "SLEEP RESTING HR" "BPM" false "ultrahuman_sleep_rhr_bpm");
    ("night_rhr", simple_ "SLEEP RESTING HR" "BPM" false "ultrahuman_sleep_rhr_bpm");
    ("avg_sleep_hrv", simple_ "SLEEP HRV" "ms" false "ultrahuman_avg_sleep_hrv_ms");
    ("hr_drop", simple_ "HR DROP (Sleep)" "BPM" false "ultrahuman_hr_drop_bpm");
    ("restorative_sleep", simple_ "RESTORATIVE SLEEP" "" false "ultrahuman_restorative_sleep");
    ("morning_alertness", simple_ "MORNING ALERTNESS" "" false "ultrahuman_morning_alertness");
    ("full_sleep_cycles", simple_ "SLEEP CYCLES" "" false "ultrahuman_full_sleep_cycles");
    ("tosses_and_turns", simple_ "TOSSES & TURNS" "" false "ultrahuman_tosses_and_turns");
    ("movements", simple_ "MOVEMENTS (Sleep)" "" false "ultrahuman_sleep_movements");
    ("glucose", timeseries_ "last" "GLUCOSE" "mg/dL" "ultrahuman_glucose_mg_dl");
    ("average_glucose", simple_ "AVERAGE GLUCOSE" "mg/dL" false "ultrahuman_avg_glucose_mg_dl");
    ("glucose_variability",
      simple_ "GLUCOSE VARIABILITY" "%" false "ultrahuman_glucose_variability_percent");
    ("time_in_target", simple_ "TIME IN TARGET" "%" false "ultrahuman_time_in_target_percent");
    ("hba1c", simple_ "HbA1c (Estimated)" "%" false "ultrahuman_hba1c_percent");
    ("metabolic_score", simple_ "METABOLIC SCORE" "" false "ultrahuman_metabolic_score")
  ].

(** ** The forwarding state

    [lastPushedTimestamp] and [globalLatestTimestamp] are package-level
    variables, both zero-valued when the process starts.  [pushMetrics]
    holds [lastPushedMu] for its whole body, so calls do not interleave and
    each is a function from the state before to the state after. *)

Record State := mkState {
  lastPushedTimestamp : gmap string Z;
  globalLatestTimestamp : Z }.

Definition initialState : State := mkState ∅ 0.

(** Reading a Go map: the zero value when the key is absent. *)
Definition lastPushed (st : State) (key : string) : Z :=
  default 0 (lastPushedTimestamp st !! key).

Definition setLastPushed (key : string) (ts : Z) (st : State) : State :=
  mkState (<[key := ts]> (lastPushedTimestamp st)) (globalLatestTimestamp st).

Fixpoint getLatestTimestampFrom (latest : Z) (values : list TimeValue.t) : Z :=
  match values with
  | [] => latest
  | v :: values' =>
      getLatestTimestampFrom
        (if latest <? TimeValue.Timestamp v then TimeValue.Timestamp v else latest)
        values'
  end.

Definition getLatestTimestamp (values : list TimeValue.t) : Z :=
  getLatestTimestampFrom 0 values.

Definition updateGlobalTimestamp (ts : Z) (st : State) : State :=
  if globalLatestTimestamp st <? ts
  then mkState (lastPushedTimestamp st) ts
  else st.

(** ** pushMetrics *)

(** The body of the loop over [v.Values]; [lastTs] was read before the
    loop, [lastPushedTimestamp[m.Type]] is read again at every reading. *)
Definition pushReading (name type_ : string) (lastTs : Z)
    (acc : list TimeSeries.t * State) (reading : TimeValue.t)
    : list TimeSeries.t * State :=
  let '(timeseries, st) := acc in
  if TimeValue.Timestamp reading <=? lastTs then acc
  else
    let timestampMs := mul64 (TimeValue.Timestamp reading) 1000 in
    let timeseries :=
      timeseries ++ [buildTimeSeries name (TimeValue.Value reading) timestampMs] in
    let st :=
      if lastPushed st type_ <? TimeValue.Timestamp reading
      then setLastPushed type_ (TimeValue.Timestamp reading) st
      else st in
    (timeseries, updateGlobalTimestamp (TimeValue.Timestamp reading) st).

(** The body of the loop over [metrics]. *)
Definition pushMetric (acc : list TimeSeries.t * State) (m : Metric.t)
    : list TimeSeries.t * State :=
  let '(timeseries, st) := acc in
  match metricRegistry !! Metric.Type_ m with
  | None => acc
  | Some config =>
      if String.eqb (MetricConfig.PrometheusName config) ""
         || negb (String.eqb (MetricConfig.MetricType config) "timeseries")
      then acc
      else
        match unmarshalTimeSeries (Metric.Object m) with
        | None => acc
        | Some v =>
            let lastTs := lastPushed st (Metric.Type_ m) in
            if String.eqb (Metric.Type_ m) "steps" then
              if lastTs <? TimeSeriesMetric.DayStartTimestamp v then
                let timestampMs := mul64 (TimeSeriesMetric.DayStartTimestamp v) 1000 in
                let timeseries :=
                  timeseries ++
                  [buildTimeSeries (MetricConfig.PrometheusName config)
                     (TimeSeriesMetric.Total v) timestampMs] in
                let st :=
                  setLastPushed (Metric.Type_ m) (TimeSeriesMetric.DayStartTimestamp v) st in
                (timeseries, updateGlobalTimestamp (TimeSeriesMetric.DayStartTimestamp v) st)
              else acc
            else
              foldl (pushReading (MetricConfig.PrometheusName config) (Metric.Type_ m) lastTs)
                acc (TimeSeriesMetric.Values v)
        end
  end.

(** What a call did to the outside world, in order. *)
Inductive effect :=
| Logged (format : string) (count : Z)
| Wrote (url : string) (batch : list TimeSeries.t).

Record PushResult := mkPushResult {
  stateAfter : State;
  effects : list effect;
  returned : option string }.

Definition pushMetrics (metrics : list Metric.t) (rwClient : option RemoteWriteClient.t)
    (st : State) : PushResult :=
  match rwClient with
  | None => mkPushResult st [] None
  | Some client =>
      let '(timeseries, st) := foldl pushMetric ([], st) metrics in
      if (length timeseries =? 0)%nat then mkPushResult st [] None
      else
        mkPushResult st
          [Logged "Pushing %d data points via remote write" (Z.of_nat (length timeseries));
           Wrote (RemoteWriteClient.url client) timeseries]
          (RemoteWriteClient.respond client timeseries)
  end.

(** ** Rendering

    Text produced through [fmt] is kept as the call that produces it: the
    format, as it is written in the source (escapes included), and the
    arguments.  [time.Unix(ts, 0).Format(layout)] depends on the local time
    zone and is kept as a call too. *)

#[local] Unset Elimination Schemes.
Inductive text :=
| Lit (s : string)
| Sprintf (format : string) (args : list arg)
| TimeFormat (layout : string) (unixSeconds : Z)
with arg :=
| AFloat (f : float)
| AInt (z : Z)
| AText (t : text).
#[local] Set Elimination Schemes.

(** [int(x)] for a [float64]: truncation towards zero.  Go leaves the
    result for NaN, infinities and values outside [int] to the
    implementation; the embedding takes what amd64 gives, the least [int]. *)
Definition intOfFloat64 (x : float) : Z :=
  match Prim2SF x with
  | S754_zero _ => 0
  | S754_finite negative m e =>
      let magnitude := if 0 <=? e then Z.pos m * 2 ^ e else Z.pos m / 2 ^ (- e) in
      let z := if negative then - magnitude else magnitude in
      if in_int64 z then z else int64_min
  | _ => int64_min
  end.

Definition formatTimestamp (ts : Z) : text := TimeFormat "15:04" ts.

Definition formatDuration (minutes : float) : text :=
  let h := Z.quot (intOfFloat64 minutes) 60 in
  let m := Z.rem (intOfFloat64 minutes) 60 in
  if 0 <? h then Sprintf "%dh %dm" [AInt h; AInt m]
  else Sprintf "%dm" [AInt m].

Definition printSection (title : string) : text :=
  Sprintf "\n  %s\n" [AText (Lit title)].

Definition degreesCelsius : string := "°C".

Fixpoint getMetricValue (metrics : list Metric.t) (metricType : string) : text :=
  match metrics with
  | [] => Lit "not found"
  | m :: rest =>
      if negb (String.eqb (Metric.Type_ m) metricType) then getMetricValue rest metricType
      else if String.eqb metricType "sleep" then
        match unmarshalSleep (Metric.Object m) with
        | None => Lit "null"
        | Some v =>
            match SleepMetric.Score v with
            | Some score => Sprintf "%.0f" [AFloat score]
            | None => Lit "null"
            end
        end
      else if String.eqb metricType "motion" then
        match unmarshalTimeSeries (Metric.Object m) with
        | None => Lit "null"
        | Some v => Sprintf "%d" [AInt (Z.of_nat (length (TimeSeriesMetric.Values v)))]
        end
      else
        match metricRegistry !! metricType with
        | None => Lit "not found"
        | Some config =>
            if String.eqb (MetricConfig.MetricType config) "timeseries" then
              match unmarshalTimeSeries (Metric.Object m) with
              | None => Lit "null"
              | Some v =>
                  let value :=
                    if String.eqb (MetricConfig.Field config) "last"
                    then TimeSeriesMetric.LastReading v
                    else if String.eqb (MetricConfig.Field config) "avg"
                    then TimeSeriesMetric.Avg v
                    else if String.eqb (MetricConfig.Field config) "total"
                    then TimeSeriesMetric.Total v
                    else 0%float in
                  if String.eqb (MetricConfig.Unit config) degreesCelsius
                  then Sprintf "%.1f" [AFloat value]
                  else Sprintf "%.0f" [AFloat value]
              end
            else if String.eqb (MetricConfig.MetricType config) "simple" then
              match unmarshalSimple (Metric.Object m) with
              | None => Lit "null"
              | Some v =>
                  match SimpleMetric.Value v with
                  | None => Lit "null"
                  | Some value =>
                      if MetricConfig.IsDuration config then formatDuration value
                      else if String.eqb (MetricConfig.Unit config) degreesCelsius
                              || String.eqb metricType "hba1c"
                              || String.eqb metricType "glucose_variability"
                              || String.eqb metricType "vo2_max"
                      then Sprintf "%.1f" [AFloat value]
                      else Sprintf "%.0f" [AFloat value]
                  end
              end
            else getMetricValue rest metricType
        end
  end.

(** [displayMetric] prints; its result here is what it prints, one entry
    per [fmt.Printf] call, in order. *)
Definition displayReading (config : MetricConfig.t) (type_ unit_ : string)
    (r : TimeValue.t) : text :=
  if String.eqb (MetricConfig.Unit config) degreesCelsius then
    Sprintf "      - %.1f%s @ %s\n"
      [AFloat (TimeValue.Value r); AText (Lit unit_);
       AText (formatTimestamp (TimeValue.Timestamp r))]
  else if String.eqb (MetricConfig.Unit config) "%" || String.eqb type_ "spo2" then
    Sprintf "      - %.0f%% @ %s\n"
      [AFloat (TimeValue.Value r); AText (formatTimestamp (TimeValue.Timestamp r))]
  else
    Sprintf "      - %.0f %s @ %s\n"
      [AFloat (TimeValue.Value r); AText (Lit unit_);
       AText (formatTimestamp (TimeValue.Timestamp r))].

Definition displayMetric (m : Metric.t) : list text :=
  if String.eqb (Metric.Type_ m) "sleep" then
    match unmarshalSleep (Metric.Object m) with
    | None => []
    | Some v =>
        match SleepMetric.Score v, SleepMetric.TotalSleep v with
        | None, None => []
        | _, _ =>
            [printSection "SLEEP"]
            ++ match SleepMetric.Score v with
               | Some score => [Sprintf "      Score: %.0f\n" [AFloat score]]
               | None => []
               end
            ++ match SleepMetric.TotalSleep v with
               | Some total => [Sprintf "      Total: %s\n" [AText (formatDuration total)]]
               | None => []
               end
            ++ match SleepMetric.Efficiency v with
               | Some efficiency => [Sprintf "      Efficiency: %.0f%%\n" [AFloat efficiency]]
               | None => []
               end
        end
    end
  else if String.eqb (Metric.Type_ m) "motion" then
    match unmarshalTimeSeries (Metric.Object m) with
    | None => []
    | Some v =>
        if (length (TimeSeriesMetric.Values v) =? 0)%nat then []
        else
          [printSection "MOTION";
           Sprintf "      Readings: %d\n"
             [AInt (Z.of_nat (length (TimeSeriesMetric.Values v)))]]
    end
  else if String.eqb (Metric.Type_ m) "steps" then
    match unmarshalTimeSeries (Metric.Object m) with
    | None => []
    | Some v =>
        if PrimFloat.ltb 0 (TimeSeriesMetric.Total v)
           || PrimFloat.ltb 0 (TimeSeriesMetric.Avg v)
        then
          [printSection "STEPS";
           Sprintf "      Total: %.0f | Avg: %.0f\n"
             [AFloat (TimeSeriesMetric.Total v); AFloat (TimeSeriesMetric.Avg v)]]
        else []
    end
  else
    match metricRegistry !! Metric.Type_ m with
    | None => []
    | Some config =>
        if String.eqb (MetricConfig.MetricType config) "timeseries" then
          match unmarshalTimeSeries (Metric.Object m) with
          | None => []
          | Some v =>
              if String.eqb (TimeSeriesMetric.Title v) "" then []
              else
                let unit_ :=
                  if String.eqb (MetricConfig.Unit config) ""
                  then TimeSeriesMetric.Unit v
                  else MetricConfig.Unit config in
                [printSection (MetricConfig.DisplayName config)]
                ++ (if String.eqb (MetricConfig.Field config) "last" then
                      if String.eqb (MetricConfig.Unit config) degreesCelsius then
                        [Sprintf "      Last: %.1f%s\n"
                           [AFloat (TimeSeriesMetric.LastReading v); AText (Lit unit_)]]
                      else
                        [Sprintf "      Last: %.0f %s\n"
                           [AFloat (TimeSeriesMetric.LastReading v); AText (Lit unit_)]]
                    else if String.eqb (MetricConfig.Field config) "avg" then
                      [Sprintf "      Average: %.0f%s\n"
                         [AFloat (TimeSeriesMetric.Avg v); AText (Lit unit_)]]
                    else if String.eqb (MetricConfig.Field config) "total" then
                      [Sprintf "      Total: %.0f\n" [AFloat (TimeSeriesMetric.Total v)]]
                    else [])
                ++ map (displayReading config (Metric.Type_ m) unit_)
                     (TimeSeriesMetric.Values v)
          end
        else if String.eqb (MetricConfig.MetricType config) "simple" then
          match unmarshalSimple (Metric.Object m) with
          | None => []
          | Some v =>
              match SimpleMetric.Value v with
              | None => []
              | Some value =>
                  [printSection (MetricConfig.DisplayName config);
                   if MetricConfig.IsDuration config then
                     Sprintf "      Duration: %s\n" [AText (formatDuration value)]
                   else if String.eqb (MetricConfig.Unit config) degreesCelsius then
                     Sprintf "      Value: %.1f%s\n"
                       [AFloat value; AText (Lit (MetricConfig.Unit config))]
                   else if String.eqb (MetricConfig.Unit config) "%" then
                     Sprintf "      Value: %.0f%%\n" [AFloat value]
                   else if String.eqb (MetricConfig.Unit config) "ml/kg/min"
                           || String.eqb (Metric.Type_ m) "hba1c"
                           || String.eqb (Metric.Type_ m) "glucose_variability" then
                     Sprintf "      Value: %.1f %s\n"
                       [AFloat value; AText (Lit (MetricConfig.Unit config))]
                   else if negb (String.eqb (MetricConfig.Unit config) "") then
                     Sprintf "      Value: %.0f %s\n"
                       [AFloat value; AText (Lit (MetricConfig.Unit config))]
                   else
                     Sprintf "      Score: %.0f\n" [AFloat value]]
              end
          end
        else []
    end.

(** ** The server cycle

    [fetchAndPushMetrics] asks the API for today's metrics and pushes them.
    [fetched] is what [makeRequest] returned: an error, or the decoded
    response.  [range] over a Go map yields its entries in an order the
    runtime chooses anew at every loop: [order] is the order it chose, some
    arrangement of the map's entries ([rangeOrder]). *)

Definition rangeOrder {V : Type} (m : gmap string V) (order : list (string * V)) : Prop :=
  order ≡ₚ map_to_list m.

Record CycleResult := mkCycleResult {
  cycleState : State;
  cycleEffects : list effect;
  cycleReturned : option text }.

Definition fetchAndPushMetricsIn (order : list (string * list Metric.t))
    (fetched : text + APIResponse.t) (rwClient : option RemoteWriteClient.t)
    (st : State) : CycleResult :=
  match fetched with
  | inl err => mkCycleResult st [] (Some err)
  | inr resp =>
      match APIResponse.Error resp with
      | Some e => mkCycleResult st [] (Some (Sprintf "API error: %s" [AText (Lit e)]))
      | None =>
          match order with
          | [] => mkCycleResult st [] None
          | (_, metrics) :: _ =>
              let r := pushMetrics metrics rwClient st in
              match returned r with
              | Some err =>
                  mkCycleResult (stateAfter r) (effects r)
                    (Some (Sprintf "push metrics: %w" [AText (Lit err)]))
              | None => mkCycleResult (stateAfter r) (effects r) None
              end
          end
      end
  end.

(** The outcomes a cycle can have: one for each order [range] may choose. *)
Definition fetchAndPushMetrics (fetched : text + APIResponse.t)
    (rwClient : option RemoteWriteClient.t) (st : State) (r : CycleResult) : Prop :=
  exists order,
    match fetched with
    | inl _ => True
    | inr resp => rangeOrder (Data.Metrics (APIResponse.Data_ resp)) order
    end
    /\ r = fetchAndPushMetricsIn order fetched rwClient st.

(** ** The API response

    [json.Unmarshal(body, &apiResp)] in [makeRequest], with [body] the JSON
    value the response bytes denote.  An [int] is 64 bits wide on the
    platforms the program is built for.  A [json.RawMessage] field takes
    the bytes of the member's value as they are, [null] included.  Every key
    of the ["metrics"] object becomes a key of the map; its value is decoded
    into a fresh slice and replaces what an earlier member with the same key
    stored. *)

Definition storeStringPtr (j : json) (old : option string) : option (option string) :=
  match j with
  | JNull => Some None
  | JString s => Some (Some s)
  | _ => None
  end.

Definition zeroMetric : Metric.t := Metric.mk "" None.

Definition storeMetricField (key : string) (j : json) (m : Metric.t) : option Metric.t :=
  if names key "type" then
    (fun x => Metric.mk x (Metric.Object m)) <$> storeString j (Metric.Type_ m)
  else if names key "object" then Some (Metric.mk (Metric.Type_ m) (Some j))
  else Some m.

(** A [[]Metric] value of the map, always decoded into fresh memory. *)
Fixpoint storeMetricElems (elems : list json) : option (list Metric.t) :=
  match elems with
  | [] => Some []
  | j :: elems' =>
      m ← storeStruct storeMetricField j zeroMetric;
      ms ← storeMetricElems elems';
      Some (m :: ms)
  end.

Definition storeMetricSlice (j : json) : option (list Metric.t) :=
  match j with
  | JNull => Some []
  | JArray elems => storeMetricElems elems
  | _ => None
  end.

Definition storeMetricsMap (j : json) (old : gmap string (list Metric.t))
    : option (gmap string (list Metric.t)) :=
  match j with
  | JNull => Some ∅
  | JObject members =>
      foldl (fun acc kv => m ← acc; l ← storeMetricSlice kv.2; Some (<[kv.1 := l]> m))
        (Some old) members
  | _ => None
  end.

Definition storeDataField (key : string) (j : json) (d : Data.t) : option Data.t :=
  if names key "metrics" then
    (fun x => Data.mk x (Data.LatestTimeZone d)) <$> storeMetricsMap j (Data.Metrics d)
  else if names key "latest_time_zone" then
    (fun x => Data.mk (Data.Metrics d) x) <$> storeString j (Data.LatestTimeZone d)
  else Some d.

Definition storeAPIResponseField (key : string) (j : json) (r : APIResponse.t)
    : option APIResponse.t :=
  let '(APIResponse.mk da er st) := r in
  if names key "data" then
    (fun x => APIResponse.mk x er st) <$> storeStruct storeDataField j da
  else if names key "error" then
    (fun x => APIResponse.mk da x st) <$> storeStringPtr j er
  else if names key "status" then
    (fun x => APIResponse.mk da er x) <$> storeInt64 j st
  else Some r.

Definition zeroAPIResponse : APIResponse.t := APIResponse.mk (Data.mk ∅ "") None 0.

Definition unmarshalAPIResponse (body : RawMessage) : option APIResponse.t :=
  j ← body; storeStruct storeAPIResponseField j zeroAPIResponse.

(** ** The remote-write transport

    [RemoteWriteClient.Write], with the libraries it calls as the fields of
    a [Transport]: [Marshal] is [WriteRequest.Marshal] on the batch (an
    error or the bytes), [SnappyEncode] is [snappy.Encode], [NewRequestError]
    is the error of [http.NewRequest] for a method and a URL, [Do] is
    [http.Client.Do] (an error, or the status code and the body that
    [io.ReadAll] reads).  A header is kept as the list of the values set for
    each key. *)

Module HTTP.
Record Request := mkRequest {
  Method : string;
  URL : string;
  Header : gmap string (list string);
  Body : string }.
Record Response := mkResponse { StatusCode : Z; ResponseBody : string }.
End HTTP.

Record Transport := {
  Marshal : list TimeSeries.t -> string + string;
  SnappyEncode : string -> string;
  NewRequestError : string -> string -> option string;
  Do : HTTP.Request -> string + HTTP.Response }.

Record WriteResult := mkWriteResult {
  sent : list HTTP.Request;
  writeError : option text }.

Definition Write (net : Transport) (url : string) (timeseries : list TimeSeries.t)
    : WriteResult :=
  match Marshal net timeseries with
  | inl err =>
      mkWriteResult [] (Some (Sprintf "marshaling write request: %w" [AText (Lit err)]))
  | inr data =>
      let compressed := SnappyEncode net data in
      match NewRequestError net "POST" url with
      | Some err =>
          mkWriteResult [] (Some (Sprintf "creating request: %w" [AText (Lit err)]))
      | None =>
          let httpReq :=
            HTTP.mkRequest "POST" url
              (<["X-Prometheus-Remote-Write-Version" := ["0.1.0"] ]>
                 (<["Content-Encoding" := ["snappy"] ]>
                    (<["Content-Type" := ["application/x-protobuf"] ]> ∅)))
              compressed in
          match Do net httpReq with
          | inl err =>
              mkWriteResult [httpReq]
                (Some (Sprintf "sending request: %w" [AText (Lit err)]))
          | inr resp =>
              if negb (Z.quot (HTTP.StatusCode resp) 100 =? 2) then
                mkWriteResult [httpReq]
                  (Some (Sprintf "remote write failed with status %d: %s"
                           [AInt (HTTP.StatusCode resp);
                            AText (Lit (HTTP.ResponseBody resp))]))
              else mkWriteResult [httpReq] None
          end
      end
  end.

(** ** displayMetrics and main *)

(** [fmt.Println] of one string. *)
Definition println (s : string) : text := Sprintf "%v\n" [AText (Lit s)].

Definition doubleRule : string :=
  "══════════════════════════════════════════════════════════".

Definition closingRule : string :=
  "\n══════════════════════════════════════════════════════════".

Definition singleRule : string :=
  "──────────────────────────────────────────────────────────".

Definition displayDate (entry : string * list Metric.t) : list text :=
  [Sprintf "\n  Date: %s\n" [AText (Lit entry.1)]; println singleRule]
  ++ flat_map displayMetric entry.2.

(** [order] is the order in which [range] yields the dates of the
    response. *)
Definition displayMetricsIn (order : list (string * list Metric.t)) (resp : APIResponse.t)
    : list text :=
  [println doubleRule;
   Sprintf "  ULTRAHUMAN METRICS | Timezone: %s\n"
     [AText (Lit (Data.LatestTimeZone (APIResponse.Data_ resp)))];
   println doubleRule]
  ++ flat_map displayDate order
  ++ [println closingRule].

Definition displayMetrics (resp : APIResponse.t) (out : list text) : Prop :=
  exists order,
    rangeOrder (Data.Metrics (APIResponse.Data_ resp)) order
    /\ out = displayMetricsIn order resp.

Definition usage : string := "Usage: uh-ring [options] [command]

Options:
  --api-token <token>       API token (or set ULTRAHUMAN_API_TOKEN env var)
  --port <port>             Port for Prometheus server (default: 8080)
  --interval <seconds>      Metric refresh interval in seconds (default: 60)
  --remote-write-url <url>  Prometheus remote write URL for historical data
                            (e.g., http://localhost:9090/api/v1/write)

Commands:
  (no command)          Show all metrics
  serve                 Start Prometheus metrics server

  Heart & Activity:
    hr                  Heart rate (BPM)
    hrv                 Heart rate variability (ms)
    spo2                Blood oxygen (%)
    steps               Step count
    motion              Motion readings count
    movement_index      Movement index score
    active_minutes      Active minutes
    recovery_index      Recovery index score
    recovery            Recovery score
    vo2_max             VO2 max (ml/kg/min)

  Sleep:
    sleep               Sleep score
    sleep_score         Sleep score
    total_sleep         Total sleep duration
    sleep_efficiency    Sleep efficiency (%)
    deep_sleep          Deep sleep duration
    light_sleep         Light sleep duration
    rem_sleep           REM sleep duration
    time_in_bed         Time in bed
    sleep_rhr           Sleep resting HR (BPM)
    night_rhr           Night resting HR (BPM)
    avg_sleep_hrv       Sleep HRV average (ms)
    hr_drop             HR drop during sleep
    restorative_sleep   Restorative sleep score
    morning_alertness   Morning alertness score
    full_sleep_cycles   Sleep cycles count
    tosses_and_turns    Tosses and turns count
    movements           Sleep movements count

  Temperature:
    temp                Skin temperature (°C)
    temperature_deviation  Temp deviation (°C)
    average_body_temperature  Avg body temp (°C)

  Glucose:
    glucose             Glucose (mg/dL)
    average_glucose     Average glucose (mg/dL)
    glucose_variability Glucose variability (%)
    time_in_target      Time in target (%)
    hba1c               Estimated HbA1c (%)
    metabolic_score     Metabolic score".

Definition printUsage : text := println usage.

Module Flags.
Record t := mk {
  apiToken : string;
  port : Z;
  interval : Z;
  remoteWriteURL : string }.
End Flags.

Definition baseURL : string := "https://partner.ultrahuman.com/api/v1/partner/daily_metrics".

(** What the process does, in order: a line printed on the standard
    output, a call of [makeRequest] (its URL, the date parameter and the
    token of the [Authorization] header), [os.Exit], [log.Fatal] (the
    message is logged and the process exits with status 1), and the panic of
    [time.NewTicker], which ends the process from the background goroutine
    (the Go runtime exits with status 2).  Lines of [log.Printf] and the
    writes of [pushMetrics] are not repeated here: they are the effects of
    the calls of [fetchAndPushMetrics]. *)
Inductive action :=
| Print (t : text)
| Request (baseURL : string) (date : string) (token : string)
| Exit (code : Z)
| Fatal (message : text)
| Panic.

(** ** The server loop

    [startMetricsPusher] polls once, starts the background goroutine and
    then serves.  A poll is a call of [fetchAndPushMetrics]; what it meets is
    the order [range] yields, what [makeRequest] returns and what the
    endpoint answers to a batch at that time.  The loop logs an error and
    goes on.  The handlers of [/health] and [/status] that it registers
    answer the requests the listener receives; they change neither the
    tracker nor the way the server ends. *)

Record poll := mkPoll {
  pollOrder : list (string * list Metric.t);
  pollFetched : text + APIResponse.t;
  pollAnswers : list TimeSeries.t -> option string }.

Definition NewRemoteWriteClient (url : string)
    (answers : list TimeSeries.t -> option string) : RemoteWriteClient.t :=
  RemoteWriteClient.mk url answers.

Definition pollOnce (remoteWriteURL : string) (st : State) (p : poll) : State :=
  cycleState
    (fetchAndPushMetricsIn (pollOrder p) (pollFetched p)
       (Some (NewRemoteWriteClient remoteWriteURL (pollAnswers p))) st).

(** What a serving process meets.  [ListenAndServe] is
    [http.ListenAndServe] on an address: the error it returns, or [None]
    while it serves.  The goroutine of the ticker runs beside the main
    goroutine: [tickerStarted] tells whether it has reached
    [time.NewTicker] before the process ended (a listener that fails at once
    can end the process first).  [initialPoll] and [tickPolls] are the
    initial poll and the polls of the ticks that fired, each with the date
    [time.Now] gave it. *)
Record Host := mkHost {
  ListenAndServe : text -> option string;
  tickerStarted : bool;
  initialPoll : string * poll;
  tickPolls : list (string * poll) }.

(** What the server did and the tracker it leaves. *)
Record serving := mkServing {
  served : list action;
  tracker : State }.

(** [time.Duration(interval) * time.Second], a product in [int64];
    [time.NewTicker] panics when it is not positive. *)
Definition tickerPeriod (interval : Z) : Z := mul64 interval 1000000000.

Definition startMetricsPusher (token : string) (port interval : Z) (remoteWriteURL : string)
    (host : Host) (st : State) : serving :=
  if String.eqb remoteWriteURL "" then
    mkServing [Fatal (Lit "--remote-write-url is required for serve mode")] st
  else
    let initial := Request baseURL (initialPoll host).1 token in
    let st := pollOnce remoteWriteURL st (initialPoll host).2 in
    let addr := Sprintf ":%d" [AInt port] in
    let listened :=
      match ListenAndServe host addr with
      | Some err => [Fatal (Lit err)]
      | None => []
      end in
    if tickerStarted host then
      if tickerPeriod interval <=? 0 then mkServing [initial; Panic] st
      else
        mkServing
          (initial :: map (fun p => Request baseURL p.1 token) (tickPolls host) ++ listened)
          (foldl (pollOnce remoteWriteURL) st (tickPolls host).*2)
    else mkServing (initial :: listened) st.

(** ** main *)

(** [len(args) > 0 && args[0] == command]. *)
Definition firstArgIs (args : list string) (command : string) : bool :=
  match args with
  | [] => false
  | arg :: _ => String.eqb arg command
  end.

(** [main] after [flag.Parse] has returned: [flags] and [args] are the
    parsed flags and the remaining arguments, [env] is the value of
    [ULTRAHUMAN_API_TOKEN], [today] is [time.Now().Format] of the date
    layout, [fetched] is what [makeRequest] returns, [yielded] and
    [displayed] are the orders in which the [range] of [main] and the
    [range] of [displayMetrics] yield the dates, and [host] is what the
    server meets.  The server starts from the zero values of the package
    variables. *)
Definition main (flags : Flags.t) (args : list string) (env today : string)
    (fetched : text + APIResponse.t) (yielded displayed : list (string * list Metric.t))
    (host : Host) : list action :=
  if firstArgIs args "help" then [Print printUsage]
  else
    let token := if String.eqb (Flags.apiToken flags) "" then env else Flags.apiToken flags in
    if String.eqb token "" then
      [Print (println
                "Error: API token required. Use --api-token or set ULTRAHUMAN_API_TOKEN env var");
       Exit 1]
    else if firstArgIs args "serve" then
      served (startMetricsPusher token (Flags.port flags) (Flags.interval flags)
                (Flags.remoteWriteURL flags) host initialState)
    else
      Request baseURL today token ::
      match fetched with
      | inl err => [Print (Sprintf "Error: %v\n" [AText err]); Exit 1]
      | inr resp =>
          match APIResponse.Error resp with
          | Some e => [Print (Sprintf "API Error: %s\n" [AText (Lit e)]); Exit 1]
          | None =>
              let metrics := match yielded with [] => [] | (_, m) :: _ => m end in
              match args with
              | [] => Print <$> displayMetricsIn displayed resp
              | arg :: _ => [Print (Sprintf "%v\n" [AText (getMetricValue metrics arg)])]
              end
          end
      end.

(** * Specification

    The vocabulary the properties are stated in. *)

(** ** What an envelope offers, and what a batch forwards

    The rule the loop of [pushMetrics] implements, written as a function of
    the stored mark alone.  These definitions are the specification; the
    lemmas below relate the loop to them. *)

(** An envelope is considered at all only when the registry knows its type
    as a time series with an output name. *)
Definition forwardable (m : Metric.t) : bool :=
  match metricRegistry !! Metric.Type_ m with
  | None => false
  | Some config =>
      negb (String.eqb (MetricConfig.PrometheusName config) "")
      && String.eqb (MetricConfig.MetricType config) "timeseries"
  end.

Definition outputName (type_ : string) : string :=
  default "" (MetricConfig.PrometheusName <$> metricRegistry !! type_).

(** The readings (epoch seconds and value) of envelope [m] that are due when
    the stored mark of its type is [mark]: for ["steps"] the day's total at
    the day start, for the others every reading above the mark. *)
Definition offered (m : Metric.t) (mark : Z) : list TimeValue.t :=
  if forwardable m then
    match unmarshalTimeSeries (Metric.Object m) with
    | None => []
    | Some v =>
        if String.eqb (Metric.Type_ m) "steps" then
          if mark <? TimeSeriesMetric.DayStartTimestamp v
          then [TimeValue.mk (TimeSeriesMetric.Total v) (TimeSeriesMetric.DayStartTimestamp v)]
          else []
        else filter (fun r => mark < TimeValue.Timestamp r) (TimeSeriesMetric.Values v)
    end
  else [].

(** The wire sample of a reading: seconds become milliseconds in [int64]. *)
Definition wire (name : string) (r : TimeValue.t) : TimeSeries.t :=
  buildTimeSeries name (TimeValue.Value r) (mul64 (TimeValue.Timestamp r) 1000).

Definition wireOf (f : string * TimeValue.t) : TimeSeries.t :=
  wire (outputName f.1) f.2.

(** The loop of [pushMetrics] from state [st]: the batch and the state. *)
Definition collect (metrics : list Metric.t) (st : State) : list TimeSeries.t * State :=
  foldl pushMetric ([], st) metrics.

(** The state after one envelope. *)
Definition afterMetric (st : State) (m : Metric.t) : State := (pushMetric ([], st) m).2.

(** The readings a batch forwards, each with the wire type of its envelope,
    in the order the loop meets them. *)
Fixpoint forwardedBy (metrics : list Metric.t) (st : State) : list (string * TimeValue.t) :=
  match metrics with
  | [] => []
  | m :: metrics' =>
      (pair (Metric.Type_ m) <$> offered m (lastPushed st (Metric.Type_ m)))
      ++ forwardedBy metrics' (afterMetric st m)
  end.

Definition stamps (l : list TimeValue.t) : list Z := TimeValue.Timestamp <$> l.

Definition stampsOf (type_ : string) (l : list (string * TimeValue.t)) : list Z :=
  (fun f => TimeValue.Timestamp f.2) <$> filter (fun f => f.1 = type_) l.

(** The greatest of [base] and the elements of [l]. *)
Definition maxFrom (base : Z) (l : list Z) : Z := foldl Z.max base l.

(** Sequences of calls. *)
Definition cycle : Type := list Metric.t * option RemoteWriteClient.t.

Definition runCycles (cycles : list cycle) (st : State) : State :=
  foldl (fun st c => stateAfter (pushMetrics c.1 c.2 st)) st cycles.

Fixpoint forwardedAll (cycles : list cycle) (st : State) : list (string * TimeValue.t) :=
  match cycles with
  | [] => []
  | c :: cycles' =>
      match c.2 with
      | None => []
      | Some _ => forwardedBy c.1 st
      end ++ forwardedAll cycles' (stateAfter (pushMetrics c.1 c.2 st))
  end.

(** The state after a batch. *)
Definition afterBatch (st : State) (metrics : list Metric.t) : State :=
  foldl afterMetric st metrics.

Definition stampsAll (l : list (string * TimeValue.t)) : list Z :=
  (fun f => TimeValue.Timestamp f.2) <$> l.

(** The samples a call handed to the transport. *)
Definition written (r : PushResult) : list TimeSeries.t :=
  flat_map (fun e => match e with Wrote _ batch => batch | Logged _ _ => [] end) (effects r).

(** What a cycle makes of the one call of [pushMetrics] it performs. *)
Definition cycleOf (r : PushResult) : CycleResult :=
  mkCycleResult (stateAfter r) (effects r)
    match returned r with
    | Some err => Some (Sprintf "push metrics: %w" [AText (Lit err)])
    | None => None
    end.

Definition writes (effs : list effect) : nat :=
  length (List.filter (fun e => match e with Wrote _ _ => true | Logged _ _ => false end) effs).

(** ** Polls of the server *)




(** ** The JSON form of a response

    The response body the API sends for given metrics: an envelope is an
    object with its ["type"] and, when it has one, its ["object"]; the
    envelopes of a date are an array; the dates are the members of
    ["metrics"]. *)

Definition encodeMetric (m : Metric.t) : json :=
  JObject (("type", JString (Metric.Type_ m))
           :: match Metric.Object m with
              | Some j => [("object", j)]
              | None => []
              end).

Definition encodeDate (entry : string * list Metric.t) : string * json :=
  (entry.1, JArray (encodeMetric <$> entry.2)).

Definition encodeResponse (dates : list (string * list Metric.t)) (timeZone : string)
    (error : option string) (status : number) : json :=
  JObject
    [("data", JObject [("metrics", JObject (encodeDate <$> dates));
                       ("latest_time_zone", JString timeZone)]);
     ("error", match error with Some e => JString e | None => JNull end);
     ("status", JNumber status)].

(** The map a sequence of dates fills, later entries replacing earlier
    ones of the same date. *)
Definition datesMap (dates : list (string * list Metric.t)) : gmap string (list Metric.t) :=
  foldl (fun m entry => <[entry.1 := entry.2]> m) ∅ dates.

(** ** Sample data *)

Module Samples.
(** An integer literal [z] of a payload. *)
Definition integer (z : Z) : json :=
  JNumber {| asFloat := Some (SF2Prim (binary_normalize 53 1024 z 0 false));
             asInt := Some z |}.

Definition reading (value timestamp : Z) : json :=
  JObject [("value", integer value); ("timestamp", integer timestamp)].

Definition series (type_ : string) (readings : list json) : Metric.t :=
  Metric.mk type_ (Some (JObject [("title", JString "HR"); ("values", JArray readings)])).

Definition steps (dayStart total : Z) : Metric.t :=
  Metric.mk "steps"
    (Some (JObject [("day_start_timestamp", integer dayStart); ("total", integer total)])).

Definition scalar (type_ : string) (value : json) : Metric.t :=
  Metric.mk type_ (Some (JObject [("value", value); ("title", JString "T")])).

(** An endpoint that accepts every batch, and one that rejects every batch. *)
Definition accepting : RemoteWriteClient.t :=
  RemoteWriteClient.mk "http://localhost:9090/api/v1/write" (fun _ => None).

Definition rejecting : RemoteWriteClient.t :=
  RemoteWriteClient.mk "http://localhost:9090/api/v1/write"
    (fun _ => Some "remote write failed with status 500: ").

Definition hr_config : MetricConfig.t :=
  timeseries_ "last" "HEART RATE" "BPM" "ultrahuman_heart_rate_bpm".
End Samples.

(** A response that carries two dates. *)
Module TwoDates.
Definition yesterday : list Metric.t := [Samples.series "hr" [Samples.reading 64 500]].
Definition today : list Metric.t := [Samples.series "hr" [Samples.reading 70 1000]].

Definition resp : APIResponse.t :=
  APIResponse.mk
    (Data.mk (<["2024-05-01" := yesterday]> (<["2024-05-02" := today]> ∅)) "UTC")
    None 200.
End TwoDates.

(** ** Where the marks come from

    [t] is the epoch seconds that the payload of an envelope of [type_] in
    one of the batches decodes to: the timestamp of one of its readings, or
    for ["steps"] its day start. *)
Definition decodedStamp (cycles : list cycle) (type_ : string) (t : Z) : Prop :=
  exists c m v,
    c ∈ cycles /\ m ∈ c.1 /\ Metric.Type_ m = type_
    /\ unmarshalTimeSeries (Metric.Object m) = Some v
    /\ if String.eqb type_ "steps" then t = TimeSeriesMetric.DayStartTimestamp v
       else exists r, r ∈ TimeSeriesMetric.Values v /\ t = TimeValue.Timestamp r.

(** ** A host for the examples *)
Module Hosts.
Definition down : poll := mkPoll [] (inl (Lit "connection refused")) (fun _ => None).

Definition ok : poll :=
  mkPoll [("2024-05-02", TwoDates.today)] (inr TwoDates.resp) (fun _ => None).

(** A host whose listener serves, with one tick after the initial poll. *)
Definition listening : Host :=
  mkHost (fun _ => None) true ("2024-05-02", ok) [("2024-05-02", down)].

(** A host on which the port is taken, found before the ticker started. *)
Definition taken : Host :=
  mkHost (fun _ => Some "listen tcp :8080: bind: address already in use") false
    ("2024-05-02", ok) [].
End Hosts.

(** * Properties *)

(** ** Arithmetic *)

Lemma maxFrom_nil base : maxFrom base [] = base.
Proof. reflexivity. Qed.

Lemma maxFrom_cons base x l : maxFrom base (x :: l) = maxFrom (Z.max base x) l.
Proof. reflexivity. Qed.

Lemma maxFrom_app base l k : maxFrom base (l ++ k) = maxFrom (maxFrom base l) k.
Proof. unfold maxFrom. apply foldl_app. Qed.

Lemma maxFrom_ge_base base l : base <= maxFrom base l.
Proof.
  revert base. induction l as [|x l IH]; intros base; [simpl; lia|].
  rewrite maxFrom_cons. specialize (IH (Z.max base x)). lia.
Qed.

Lemma maxFrom_mono base base' l : base <= base' -> maxFrom base l <= maxFrom base' l.
Proof.
  revert base base'. induction l as [|x l IH]; intros base base' Hle; [done|].
  rewrite !maxFrom_cons. apply IH. lia.
Qed.

Lemma maxFrom_ge_elem base l x : x ∈ l -> x <= maxFrom base l.
Proof.
  revert base. induction l as [|y l IH]; intros base Hin.
  - by apply elem_of_nil in Hin.
  - rewrite maxFrom_cons. apply elem_of_cons in Hin as [->|Hin].
    + pose proof (maxFrom_ge_base (Z.max base y) l). lia.
    + by apply IH.
Qed.

Lemma maxFrom_attained base l : maxFrom base l = base \/ maxFrom base l ∈ l.
Proof.
  revert base. induction l as [|y l IH]; intros base.
  - by left.
  - rewrite maxFrom_cons. destruct (IH (Z.max base y)) as [Heq|Hin].
    + rewrite Heq. destruct (Z.max_spec base y) as [[_ ->]|[_ ->]].
      * right. apply elem_of_cons. by left.
      * by left.
    + right. apply elem_of_cons. by right.
Qed.

Lemma maxFrom_above base l :
  l <> [] -> (forall x, x ∈ l -> base < x) -> maxFrom base l ∈ l.
Proof.
  intros Hne Habove. destruct (maxFrom_attained base l) as [Heq|Hin]; [|done].
  destruct l as [|y l]; [done|].
  assert (base < y) by (apply Habove, elem_of_cons; by left).
  assert (y <= maxFrom base (y :: l)) by (apply maxFrom_ge_elem, elem_of_cons; by left).
  lia.
Qed.

Lemma maxFrom_max base l x : maxFrom (Z.max base x) l = Z.max (maxFrom base l) x.
Proof.
  revert base. induction l as [|y l IH]; intros base; [done|].
  rewrite !maxFrom_cons, <- IH. f_equal. lia.
Qed.

Lemma mul64_exact ts :
  - 9223372036854775 <= ts <= 9223372036854775 -> mul64 ts 1000 = ts * 1000.
Proof.
  intros Hrange. unfold mul64, wrap64.
  rewrite Z.mod_small; lia.
Qed.

(** ** The state *)

Lemma lastPushed_set key ts st k :
  lastPushed (setLastPushed key ts st) k = if decide (k = key) then ts else lastPushed st k.
Proof.
  unfold lastPushed, setLastPushed; simpl. case_decide as Hk.
  - subst. by rewrite lookup_insert_eq.
  - by rewrite lookup_insert_ne.
Qed.

Lemma lastPushed_updateGlobal ts st k :
  lastPushed (updateGlobalTimestamp ts st) k = lastPushed st k.
Proof. unfold updateGlobalTimestamp. by destruct (_ <? _). Qed.

Lemma global_updateGlobal ts st :
  globalLatestTimestamp (updateGlobalTimestamp ts st)
  = Z.max (globalLatestTimestamp st) ts.
Proof.
  unfold updateGlobalTimestamp.
  destruct (Z.ltb_spec (globalLatestTimestamp st) ts); simpl; lia.
Qed.

Lemma global_set key ts st :
  globalLatestTimestamp (setLastPushed key ts st) = globalLatestTimestamp st.
Proof. reflexivity. Qed.

Lemma lastPushed_initial k : lastPushed initialState k = 0.
Proof. unfold lastPushed, initialState; simpl. by rewrite lookup_empty. Qed.

(** ** Decoded integers are [int64] values

    The embedding keeps timestamps in [Z].  What the decoder stores into an
    [int64] field is in the range of [int64], so the comparisons of the
    program are comparisons of the numbers themselves. *)

Lemma storeInt64_range j old z :
  in_int64 old = true -> storeInt64 j old = Some z -> in_int64 z = true.
Proof.
  intros Hold. destruct j as [| |n| | |]; simpl; try discriminate.
  - by intros [= <-].
  - destruct (asInt n) as [i|]; [|discriminate].
    destruct (in_int64 i) eqn:Hi; [|discriminate]. by intros [= <-].
Qed.

Lemma storeMembers_none {T : Type} (store : string -> json -> T -> option T) members :
  foldl (fun acc kv => acc ≫= store kv.1 kv.2) None members = None.
Proof. induction members as [|kv members IH]; [done|apply IH]. Qed.

Lemma storeMembers_cons {T : Type} (store : string -> json -> T -> option T) kv members old :
  storeMembers store (kv :: members) old
  = store kv.1 kv.2 old ≫= storeMembers store members.
Proof.
  unfold storeMembers. cbn [foldl]. simpl.
  destruct (store kv.1 kv.2 old); [done|apply storeMembers_none].
Qed.

Lemma storeMembers_app {T : Type} (store : string -> json -> T -> option T) l1 l2 old :
  storeMembers store (l1 ++ l2) old
  = storeMembers store l1 old ≫= storeMembers store l2.
Proof.
  revert old. induction l1 as [|kv l1 IH]; intros old; [done|].
  rewrite <- app_comm_cons, !storeMembers_cons.
  destruct (store kv.1 kv.2 old) as [mid|]; [apply IH|done].
Qed.

Lemma storeMembers_preserves {T : Type} (P : T -> Prop)
    (store : string -> json -> T -> option T) :
  (forall key j v v', P v -> store key j v = Some v' -> P v') ->
  forall members v v', P v -> storeMembers store members v = Some v' -> P v'.
Proof.
  intros Hstore members.
  induction members as [|kv members IH]; intros v v' Hv.
  - by intros [= <-].
  - rewrite storeMembers_cons.
    destruct (store kv.1 kv.2 v) as [mid|] eqn:Hmid; [|discriminate].
    simpl. apply IH. by eapply Hstore.
Qed.

Lemma storeStruct_preserves {T : Type} (P : T -> Prop)
    (store : string -> json -> T -> option T) :
  (forall key j v v', P v -> store key j v = Some v' -> P v') ->
  forall j v v', P v -> storeStruct store j v = Some v' -> P v'.
Proof.
  intros Hstore j v v' Hv. destruct j as [| | | | |members]; simpl; try discriminate.
  - by intros [= <-].
  - by apply storeMembers_preserves.
Qed.

Lemma storeTimeValue_range j v v' :
  in_int64 (TimeValue.Timestamp v) = true ->
  storeTimeValue j v = Some v' ->
  in_int64 (TimeValue.Timestamp v') = true.
Proof.
  apply (storeStruct_preserves (fun v => in_int64 (TimeValue.Timestamp v) = true)).
  clear. intros key j v v' Hv. unfold storeTimeValueField.
  destruct (names key "value").
  { destruct (storeFloat64 j (TimeValue.Value v)); [|discriminate]. by intros [= <-]. }
  destruct (names key "timestamp"); [|by intros [= <-]].
  destruct (storeInt64 j (TimeValue.Timestamp v)) as [z|] eqn:Hz; [|discriminate].
  intros [= <-]. simpl. by eapply storeInt64_range.
Qed.

Lemma storeElems_range elems backing vs :
  Forall (fun v => in_int64 (TimeValue.Timestamp v) = true) backing ->
  storeElems elems backing = Some vs ->
  Forall (fun v => in_int64 (TimeValue.Timestamp v) = true) vs.
Proof.
  revert backing vs. induction elems as [|j elems IH]; intros backing vs Hbacking; simpl.
  - intros [= <-]. constructor.
  - destruct (storeTimeValue j (hd TimeValue.zero backing)) as [v|] eqn:Hv; [|discriminate].
    simpl. destruct (storeElems elems (tl backing)) as [vs'|] eqn:Hvs; [|discriminate].
    intros [= <-]. constructor.
    + eapply storeTimeValue_range; [|exact Hv]. by destruct Hbacking.
    + eapply IH; [|exact Hvs]. destruct Hbacking; [constructor|done].
Qed.

Lemma storeSlice_range j old s :
  Forall (fun v => in_int64 (TimeValue.Timestamp v) = true) (backing old) ->
  storeSlice j old = Some s ->
  Forall (fun v => in_int64 (TimeValue.Timestamp v) = true) (cells s)
  /\ Forall (fun v => in_int64 (TimeValue.Timestamp v) = true) (backing s).
Proof.
  intros Hold. destruct j as [| | | |elems|]; simpl; try discriminate.
  - intros [= <-]. split; constructor.
  - destruct elems as [|j elems]; [intros [= <-]; split; constructor|].
    destruct (storeElems (j :: elems) (backing old)) as [vs|] eqn:Hvs; [|discriminate].
    intros [= <-]. simpl.
    assert (Forall (fun v => in_int64 (TimeValue.Timestamp v) = true) vs) as Hcells
      by (by eapply storeElems_range).
    split; [done|]. apply Forall_app. split; [done|]. by apply Forall_drop.
Qed.

(** A decoded time series carries [int64] timestamps throughout. *)
Lemma unmarshalTimeSeries_range raw v :
  unmarshalTimeSeries raw = Some v ->
  in_int64 (TimeSeriesMetric.DayStartTimestamp v) = true
  /\ Forall (fun r => in_int64 (TimeValue.Timestamp r) = true) (TimeSeriesMetric.Values v).
Proof.
  unfold unmarshalTimeSeries. destruct raw as [j|]; [|discriminate]. simpl.
  destruct (storeStruct storeTimeSeriesField j (TimeSeriesMetric.zero, []))
    as [[v' mem]|] eqn:Hstore; [|discriminate].
  intros [= <-].
  pose (P := fun a : TimeSeriesMetric.t * list TimeValue.t =>
               in_int64 (TimeSeriesMetric.DayStartTimestamp a.1) = true
               /\ Forall (fun r => in_int64 (TimeValue.Timestamp r) = true)
                    (TimeSeriesMetric.Values a.1)
               /\ Forall (fun r => in_int64 (TimeValue.Timestamp r) = true) a.2).
  assert (P (v', mem)) as (Hday & Hvalues & _); [|done].
  apply (storeStruct_preserves P storeTimeSeriesField) with (j := j)
    (v := (TimeSeriesMetric.zero, [])); [|by repeat split; constructor|exact Hstore].
  clear. intros key j [[ds ti vs lr un su av to] mem] a' (Hday & Hvalues & Hmem).
  simpl in Hday, Hvalues, Hmem. unfold storeTimeSeriesField.
  destruct (names key "day_start_timestamp").
  { destruct (storeInt64 j ds) as [z|] eqn:Hz; [|discriminate].
    intros [= <-]. split; [by eapply storeInt64_range|done]. }
  destruct (names key "title").
  { destruct (storeString j ti); [|discriminate]. by intros [= <-]. }
  destruct (names key "values").
  { destruct (storeSlice j {| cells := vs; backing := mem |}) as [s|] eqn:Hs; [|discriminate].
    intros [= <-].
    destruct (storeSlice_range j {| cells := vs; backing := mem |} s Hmem Hs). by split. }
  destruct (names key "last_reading").
  { destruct (storeFloat64 j lr); [|discriminate]. by intros [= <-]. }
  destruct (names key "unit").
  { destruct (storeString j un); [|discriminate]. by intros [= <-]. }
  destruct (names key "subtitle").
  { destruct (storeString j su); [|discriminate]. by intros [= <-]. }
  destruct (names key "avg").
  { destruct (storeFloat64 j av); [|discriminate]. by intros [= <-]. }
  destruct (names key "total").
  { destruct (storeFloat64 j to); [|discriminate]. by intros [= <-]. }
  by intros [= <-].
Qed.

(** ** The loop over the readings of one envelope *)

Section Readings.
Variables (name type_ : string) (lastTs : Z).

Lemma pushReading_skip ts st r :
  TimeValue.Timestamp r <= lastTs ->
  pushReading name type_ lastTs (ts, st) r = (ts, st).
Proof.
  intros Hle. unfold pushReading.
  destruct (Z.leb_spec (TimeValue.Timestamp r) lastTs); [done|lia].
Qed.

Lemma pushReading_take ts st r :
  lastTs < TimeValue.Timestamp r ->
  exists st',
    pushReading name type_ lastTs (ts, st) r = (ts ++ [wire name r], st')
    /\ (forall k, lastPushed st' k =
                  if decide (k = type_)
                  then Z.max (lastPushed st k) (TimeValue.Timestamp r)
                  else lastPushed st k)
    /\ globalLatestTimestamp st'
       = Z.max (globalLatestTimestamp st) (TimeValue.Timestamp r).
Proof.
  intros Hlt. unfold pushReading.
  destruct (Z.leb_spec (TimeValue.Timestamp r) lastTs); [lia|].
  eexists; split; [reflexivity|]. split.
  - intros k. rewrite lastPushed_updateGlobal.
    destruct (Z.ltb_spec (lastPushed st type_) (TimeValue.Timestamp r)).
    + rewrite lastPushed_set. case_decide; [subst; lia|done].
    + case_decide; [subst; lia|done].
  - rewrite global_updateGlobal.
    by destruct (_ <? _).
Qed.

Lemma pushReadings_spec readings ts st :
  exists st',
    foldl (pushReading name type_ lastTs) (ts, st) readings
    = (ts ++ (wire name <$> filter (fun r => lastTs < TimeValue.Timestamp r) readings), st')
    /\ (forall k, lastPushed st' k =
                  if decide (k = type_)
                  then maxFrom (lastPushed st k) (stamps (filter (fun r => lastTs < TimeValue.Timestamp r) readings))
                  else lastPushed st k)
    /\ globalLatestTimestamp st'
       = maxFrom (globalLatestTimestamp st) (stamps (filter (fun r => lastTs < TimeValue.Timestamp r) readings)).
Proof.
  revert ts st. induction readings as [|r readings IH]; intros ts st.
  - exists st. simpl. rewrite app_nil_r. repeat split.
    intros k. by case_decide.
  - change (foldl ?f ?a (r :: readings)) with (foldl f (f a r) readings).
    destruct (Z.le_gt_cases (TimeValue.Timestamp r) lastTs) as [Hle|Hgt].
    + rewrite pushReading_skip by done.
      rewrite filter_cons_False by lia. apply IH.
    + destruct (pushReading_take ts st r Hgt) as (st1 & -> & Hmark & Hglobal).
      destruct (IH (ts ++ [wire name r]) st1) as (st' & -> & Hmark' & Hglobal').
      exists st'. rewrite filter_cons_True by lia.
      unfold stamps in *. rewrite !fmap_cons, !maxFrom_cons.
      split; [by rewrite <- app_assoc|]. split.
      * intros k. rewrite Hmark', Hmark. by case_decide.
      * by rewrite Hglobal', Hglobal.
Qed.

(** The state the loop leaves does not depend on the batch built so far. *)
Lemma pushReadings_state readings ts ts' st :
  (foldl (pushReading name type_ lastTs) (ts, st) readings).2
  = (foldl (pushReading name type_ lastTs) (ts', st) readings).2.
Proof.
  revert ts ts' st. induction readings as [|r readings IH]; intros ts ts' st; [done|].
  change (foldl ?f ?a (r :: readings)) with (foldl f (f a r) readings).
  unfold pushReading at 2 4.
  destruct (_ <=? _); apply IH.
Qed.
End Readings.

(** ** One envelope *)

Lemma forwardable_lookup m :
  forwardable m = true ->
  exists config,
    metricRegistry !! Metric.Type_ m = Some config
    /\ MetricConfig.PrometheusName config <> ""
    /\ MetricConfig.MetricType config = "timeseries"
    /\ outputName (Metric.Type_ m) = MetricConfig.PrometheusName config.
Proof.
  unfold forwardable, outputName.
  destruct (metricRegistry !! Metric.Type_ m) as [config|]; [|done].
  intros [Hname Htype]%andb_true_iff. exists config.
  apply negb_true_iff, String.eqb_neq in Hname. apply String.eqb_eq in Htype.
  done.
Qed.

Lemma pushMetric_skip acc m : forwardable m = false -> pushMetric acc m = acc.
Proof.
  destruct acc as [ts st]. unfold forwardable, pushMetric.
  destruct (metricRegistry !! Metric.Type_ m) as [config|]; [|done].
  intros Hf. apply andb_false_iff in Hf as [Hf|Hf].
  - apply negb_false_iff in Hf. by rewrite Hf.
  - rewrite Hf. simpl. by rewrite orb_true_r.
Qed.

Lemma pushMetric_spec m ts st :
  let due := offered m (lastPushed st (Metric.Type_ m)) in
  exists st',
    pushMetric (ts, st) m = (ts ++ (wire (outputName (Metric.Type_ m)) <$> due), st')
    /\ (forall k, lastPushed st' k =
                  if decide (k = Metric.Type_ m)
                  then maxFrom (lastPushed st k) (stamps due)
                  else lastPushed st k)
    /\ globalLatestTimestamp st' = maxFrom (globalLatestTimestamp st) (stamps due).
Proof.
  intros due. subst due. unfold offered.
  destruct (forwardable m) eqn:Hf.
  2:{ rewrite pushMetric_skip by done. exists st. rewrite app_nil_r.
      repeat split. intros k. by case_decide. }
  destruct (forwardable_lookup m Hf) as (config & Hreg & Hname & Htype & ->).
  unfold pushMetric. rewrite Hreg.
  apply String.eqb_neq in Hname. rewrite Hname, Htype. simpl.
  destruct (unmarshalTimeSeries (Metric.Object m)) as [v|].
  2:{ exists st. rewrite app_nil_r. repeat split. intros k. by case_decide. }
  destruct (String.eqb (Metric.Type_ m) "steps").
  - destruct (Z.ltb_spec (lastPushed st (Metric.Type_ m))
                (TimeSeriesMetric.DayStartTimestamp v)) as [Hlt|Hge].
    + eexists; split; [reflexivity|]. split.
      * intros k. rewrite lastPushed_updateGlobal, lastPushed_set.
        unfold stamps, maxFrom. simpl.
        case_decide; [subst; lia|done].
      * rewrite global_updateGlobal, global_set. reflexivity.
    + exists st. rewrite app_nil_r. repeat split. intros k. by case_decide.
  - apply pushReadings_spec.
Qed.

Lemma pushMetric_state m ts st : (pushMetric (ts, st) m).2 = afterMetric st m.
Proof.
  unfold afterMetric, pushMetric.
  destruct (metricRegistry !! Metric.Type_ m) as [config|]; [|done].
  destruct (_ || _); [done|].
  destruct (unmarshalTimeSeries (Metric.Object m)) as [v|]; [|done].
  destruct (String.eqb (Metric.Type_ m) "steps").
  - by destruct (_ <? _).
  - apply pushReadings_state.
Qed.

Lemma pushMetric_batch m ts st :
  (pushMetric (ts, st) m).1
  = ts ++ (wire (outputName (Metric.Type_ m)) <$> offered m (lastPushed st (Metric.Type_ m))).
Proof. by destruct (pushMetric_spec m ts st) as (st' & -> & _). Qed.

Lemma afterMetric_mark m st k :
  lastPushed (afterMetric st m) k
  = if decide (k = Metric.Type_ m)
    then maxFrom (lastPushed st k) (stamps (offered m (lastPushed st (Metric.Type_ m))))
    else lastPushed st k.
Proof.
  unfold afterMetric.
  destruct (pushMetric_spec m [] st) as (st' & -> & Hmark & _). apply Hmark.
Qed.

Lemma afterMetric_global m st :
  globalLatestTimestamp (afterMetric st m)
  = maxFrom (globalLatestTimestamp st)
      (stamps (offered m (lastPushed st (Metric.Type_ m)))).
Proof.
  unfold afterMetric.
  by destruct (pushMetric_spec m [] st) as (st' & -> & _ & Hglobal).
Qed.

Lemma afterMetric_skip m st : forwardable m = false -> afterMetric st m = st.
Proof. intros Hf. unfold afterMetric. by rewrite pushMetric_skip. Qed.

(** ** One batch *)

#[local] Opaque metricRegistry unmarshalTimeSeries.

Lemma pushMetrics_loop metrics ts st :
  foldl pushMetric (ts, st) metrics
  = (ts ++ (wireOf <$> forwardedBy metrics st), afterBatch st metrics).
Proof.
  revert ts st. induction metrics as [|m metrics IH]; intros ts st.
  - simpl. by rewrite app_nil_r.
  - change (foldl ?f ?a (m :: metrics)) with (foldl f (f a m) metrics).
    rewrite (surjective_pairing (pushMetric (ts, st) m)).
    rewrite pushMetric_state, pushMetric_batch, IH.
    simpl forwardedBy. rewrite fmap_app, <- list_fmap_compose, app_assoc.
    reflexivity.
Qed.

Lemma collect_spec metrics st :
  collect metrics st = (wireOf <$> forwardedBy metrics st, afterBatch st metrics).
Proof. unfold collect. by rewrite pushMetrics_loop. Qed.

Lemma pushMetrics_spec metrics client st :
  pushMetrics metrics (Some client) st
  = match wireOf <$> forwardedBy metrics st with
    | [] => mkPushResult (afterBatch st metrics) [] None
    | batch =>
        mkPushResult (afterBatch st metrics)
          [Logged "Pushing %d data points via remote write" (Z.of_nat (length batch));
           Wrote (RemoteWriteClient.url client) batch]
          (RemoteWriteClient.respond client batch)
    end.
Proof.
  unfold pushMetrics. rewrite pushMetrics_loop. simpl.
  by destruct (wireOf <$> forwardedBy metrics st).
Qed.

Lemma pushMetrics_state metrics client st :
  stateAfter (pushMetrics metrics (Some client) st) = afterBatch st metrics.
Proof. rewrite pushMetrics_spec. by destruct (wireOf <$> _). Qed.

Lemma stampsOf_app k l1 l2 : stampsOf k (l1 ++ l2) = stampsOf k l1 ++ stampsOf k l2.
Proof. unfold stampsOf. by rewrite filter_app, fmap_app. Qed.

Lemma stampsOf_pair k type_ (l : list TimeValue.t) :
  stampsOf k (pair type_ <$> l) = if decide (k = type_) then stamps l else [].
Proof.
  unfold stampsOf, stamps. induction l as [|r l IH].
  - by case_decide.
  - rewrite fmap_cons. case_decide as Hk.
    + rewrite filter_cons_True by done. rewrite !fmap_cons, IH. done.
    + rewrite filter_cons_False by (simpl; congruence). done.
Qed.

Lemma stampsAll_pair type_ (l : list TimeValue.t) :
  stampsAll (pair type_ <$> l) = stamps l.
Proof. unfold stampsAll, stamps. by rewrite <- list_fmap_compose. Qed.

Lemma afterBatch_mark metrics st k :
  lastPushed (afterBatch st metrics) k
  = maxFrom (lastPushed st k) (stampsOf k (forwardedBy metrics st)).
Proof.
  revert st. induction metrics as [|m metrics IH]; intros st; [done|].
  change (afterBatch st (m :: metrics)) with (afterBatch (afterMetric st m) metrics).
  rewrite IH, afterMetric_mark. simpl forwardedBy.
  rewrite stampsOf_app, maxFrom_app, stampsOf_pair.
  by case_decide.
Qed.

Lemma afterBatch_global metrics st :
  globalLatestTimestamp (afterBatch st metrics)
  = maxFrom (globalLatestTimestamp st) (stampsAll (forwardedBy metrics st)).
Proof.
  revert st. induction metrics as [|m metrics IH]; intros st; [done|].
  change (afterBatch st (m :: metrics)) with (afterBatch (afterMetric st m) metrics).
  rewrite IH, afterMetric_global. simpl forwardedBy.
  unfold stampsAll at 2. rewrite fmap_app. fold (stampsAll (forwardedBy metrics (afterMetric st m))).
  rewrite maxFrom_app. f_equal. f_equal. symmetry. apply stampsAll_pair.
Qed.

Lemma afterBatch_app st l1 l2 :
  afterBatch st (l1 ++ l2) = afterBatch (afterBatch st l1) l2.
Proof. unfold afterBatch. apply foldl_app. Qed.

Lemma forwardedBy_app l1 l2 st :
  forwardedBy (l1 ++ l2) st = forwardedBy l1 st ++ forwardedBy l2 (afterBatch st l1).
Proof.
  revert st. induction l1 as [|m l1 IH]; intros st; [done|].
  cbn [forwardedBy app]. change (afterBatch st (m :: l1)) with (afterBatch (afterMetric st m) l1).
  rewrite IH, app_assoc. reflexivity.
Qed.

Lemma afterBatch_mark_mono metrics st k :
  lastPushed st k <= lastPushed (afterBatch st metrics) k.
Proof. rewrite afterBatch_mark. apply maxFrom_ge_base. Qed.

Lemma elem_of_stampsOf type_ r l :
  (type_, r) ∈ l -> TimeValue.Timestamp r ∈ stampsOf type_ l.
Proof.
  intros Hin. unfold stampsOf. apply list_elem_of_fmap.
  exists (type_, r). split; [done|]. by apply list_elem_of_filter.
Qed.

Lemma offered_above m mark r : r ∈ offered m mark -> mark < TimeValue.Timestamp r.
Proof.
  unfold offered. destruct (forwardable m); [|by intros ?%elem_of_nil].
  destruct (unmarshalTimeSeries _) as [v|]; [|by intros ?%elem_of_nil].
  destruct (String.eqb _ _).
  - destruct (Z.ltb_spec mark (TimeSeriesMetric.DayStartTimestamp v));
      [|by intros ?%elem_of_nil].
    intros ->%list_elem_of_singleton. done.
  - by intros [? _]%list_elem_of_filter.
Qed.

(** Whatever a batch forwards lies above the mark its type had when the
    batch began, ... *)
Lemma forwarded_above metrics st type_ r :
  (type_, r) ∈ forwardedBy metrics st -> lastPushed st type_ < TimeValue.Timestamp r.
Proof.
  revert st. induction metrics as [|m metrics IH]; intros st Hin.
  - by apply elem_of_nil in Hin.
  - cbn [forwardedBy] in Hin. apply elem_of_app in Hin as [Hin|Hin].
    + apply list_elem_of_fmap in Hin as (r' & [= -> ->] & Hin).
      by apply offered_above in Hin.
    + apply IH in Hin.
      pose proof (afterBatch_mark_mono [m] st type_) as Hmono.
      change (afterBatch st [m]) with (afterMetric st m) in Hmono. lia.
Qed.

(** ... and at or below the mark the batch leaves. *)
Lemma forwarded_below metrics st type_ r :
  (type_, r) ∈ forwardedBy metrics st ->
  TimeValue.Timestamp r <= lastPushed (afterBatch st metrics) type_.
Proof.
  intros Hin. rewrite afterBatch_mark. by apply maxFrom_ge_elem, elem_of_stampsOf.
Qed.

(** Where a forwarded reading comes from. *)
Lemma forwarded_origin metrics st type_ r :
  (type_, r) ∈ forwardedBy metrics st ->
  exists m config v,
    m ∈ metrics /\ Metric.Type_ m = type_
    /\ metricRegistry !! type_ = Some config
    /\ MetricConfig.PrometheusName config <> ""
    /\ MetricConfig.MetricType config = "timeseries"
    /\ outputName type_ = MetricConfig.PrometheusName config
    /\ unmarshalTimeSeries (Metric.Object m) = Some v
    /\ (if String.eqb type_ "steps"
        then r = TimeValue.mk (TimeSeriesMetric.Total v) (TimeSeriesMetric.DayStartTimestamp v)
        else r ∈ TimeSeriesMetric.Values v).
Proof.
  revert st. induction metrics as [|m metrics IH]; intros st Hin.
  - by apply elem_of_nil in Hin.
  - cbn [forwardedBy] in Hin. apply elem_of_app in Hin as [Hin|Hin].
    + apply list_elem_of_fmap in Hin as (r' & Heq & Hin). simplify_eq.
      unfold offered in Hin. destruct (forwardable m) eqn:Hf; [|inversion Hin].
      destruct (forwardable_lookup m Hf) as (config & Hreg & Hname & Htype & Hout).
      destruct (unmarshalTimeSeries (Metric.Object m)) as [v|] eqn:Hv; [|inversion Hin].
      exists m, config, v. split; [apply elem_of_cons; by left|].
      split; [reflexivity|]. split; [exact Hreg|]. split; [exact Hname|].
      split; [exact Htype|]. split; [exact Hout|]. split; [exact Hv|].
      destruct (String.eqb (Metric.Type_ m) "steps").
      * destruct (lastPushed st (Metric.Type_ m) <? TimeSeriesMetric.DayStartTimestamp v);
          [|inversion Hin].
        apply list_elem_of_singleton in Hin. exact Hin.
      * apply list_elem_of_filter in Hin as [_ Hin]. exact Hin.
    + destruct (IH _ Hin) as (m' & config & v & Hm' & Hrest).
      exists m', config, v. split; [apply elem_of_cons; by right|exact Hrest].
Qed.

Lemma written_pushMetrics metrics client st :
  written (pushMetrics metrics (Some client) st) = wireOf <$> forwardedBy metrics st.
Proof.
  rewrite pushMetrics_spec. unfold written.
  destruct (wireOf <$> forwardedBy metrics st); [done|].
  simpl. by rewrite app_nil_r.
Qed.

Lemma written_no_client metrics st : written (pushMetrics metrics None st) = [].
Proof. reflexivity. Qed.

Lemma offered_readings m config v mark :
  metricRegistry !! Metric.Type_ m = Some config ->
  MetricConfig.MetricType config = "timeseries" ->
  MetricConfig.PrometheusName config <> "" ->
  Metric.Type_ m <> "steps" ->
  unmarshalTimeSeries (Metric.Object m) = Some v ->
  offered m mark = filter (fun r => mark < TimeValue.Timestamp r) (TimeSeriesMetric.Values v)
  /\ outputName (Metric.Type_ m) = MetricConfig.PrometheusName config.
Proof.
  intros Hreg Htype Hname Hsteps Hv. unfold offered, forwardable, outputName.
  rewrite Hreg, Htype, Hv. simpl.
  apply String.eqb_neq in Hname, Hsteps. rewrite Hname, Hsteps. split; reflexivity.
Qed.

Lemma elem_of_stampsOf_inv type_ t l :
  t ∈ stampsOf type_ l -> exists r, (type_, r) ∈ l /\ TimeValue.Timestamp r = t.
Proof.
  unfold stampsOf. intros ([k r] & -> & [Hk Hin]%list_elem_of_filter)%list_elem_of_fmap.
  simpl in *. subst. by exists r.
Qed.

Lemma afterBatch_mark_other metrics st k :
  (forall m, m ∈ metrics -> Metric.Type_ m <> k) ->
  lastPushed (afterBatch st metrics) k = lastPushed st k.
Proof.
  intros Hother. rewrite afterBatch_mark.
  destruct (stampsOf k (forwardedBy metrics st)) as [|t l] eqn:Hstamps; [done|].
  assert (t ∈ stampsOf k (forwardedBy metrics st)) as Hin
    by (rewrite Hstamps; apply elem_of_cons; by left).
  apply elem_of_stampsOf_inv in Hin as (r & Hin & _).
  apply forwarded_origin in Hin as (m & _ & _ & Hm & Hk & _).
  by destruct (Hother m Hm).
Qed.

(** The mark a batch leaves for a type it forwarded readings of is the
    greatest timestamp it forwarded for that type. *)
Lemma afterBatch_mark_greatest metrics st k :
  stampsOf k (forwardedBy metrics st) <> [] ->
  lastPushed (afterBatch st metrics) k ∈ stampsOf k (forwardedBy metrics st)
  /\ forall t, t ∈ stampsOf k (forwardedBy metrics st) ->
               t <= lastPushed (afterBatch st metrics) k.
Proof.
  intros Hne. rewrite afterBatch_mark. split.
  - apply maxFrom_above; [done|].
    intros t (r & Hin & <-)%elem_of_stampsOf_inv. by eapply forwarded_above.
  - intros t Hin. by apply maxFrom_ge_elem.
Qed.

Example end_to_end_hr :
  let hr := Samples.series "hr" [Samples.reading 70 1000; Samples.reading 72 1005] in
  let first := pushMetrics [hr] (Some Samples.accepting) initialState in
  written first
  = [buildTimeSeries "ultrahuman_heart_rate_bpm" 70 1000000;
     buildTimeSeries "ultrahuman_heart_rate_bpm" 72 1005000]
  /\ effects (pushMetrics [hr] (Some Samples.accepting) (stateAfter first)) = [].
Proof. vm_compute. done. Qed.

Example end_to_end_steps :
  let first := pushMetrics [Samples.steps 86400 500] (Some Samples.accepting) initialState in
  written first = [buildTimeSeries "ultrahuman_steps_total" 500 86400000]
  /\ effects (pushMetrics [Samples.steps 86400 620] (Some Samples.accepting) (stateAfter first))
     = [].
Proof. vm_compute. done. Qed.

(** Marks and the latest timestamp are [int64] values as long as the
    program runs: they start at zero and are only ever set to decoded
    timestamps. *)
Lemma forwarded_in_int64 metrics st type_ r :
  (type_, r) ∈ forwardedBy metrics st -> in_int64 (TimeValue.Timestamp r) = true.
Proof.
  intros (m & config & v & _ & _ & _ & _ & _ & _ & Hv & Hr)%forwarded_origin.
  apply unmarshalTimeSeries_range in Hv as [Hday Hvalues].
  destruct (String.eqb type_ "steps").
  - by subst r.
  - rewrite Forall_forall in Hvalues. by apply Hvalues.
Qed.

Lemma maxFrom_in_int64 base l :
  in_int64 base = true ->
  (forall x, x ∈ l -> in_int64 x = true) ->
  in_int64 (maxFrom base l) = true.
Proof.
  intros Hbase Hl. destruct (maxFrom_attained base l) as [->|Hin]; [done|by apply Hl].
Qed.

Lemma afterBatch_in_int64 metrics st :
  (forall k, in_int64 (lastPushed st k) = true) ->
  in_int64 (globalLatestTimestamp st) = true ->
  (forall k, in_int64 (lastPushed (afterBatch st metrics) k) = true)
  /\ in_int64 (globalLatestTimestamp (afterBatch st metrics)) = true.
Proof.
  intros Hmarks Hglobal. split.
  - intros k. rewrite afterBatch_mark. apply maxFrom_in_int64; [apply Hmarks|].
    intros t (r & Hin & <-)%elem_of_stampsOf_inv. by eapply forwarded_in_int64.
  - rewrite afterBatch_global. apply maxFrom_in_int64; [done|].
    intros t ([type_ r] & -> & Hin)%list_elem_of_fmap. by eapply forwarded_in_int64.
Qed.

(** ** The high-water mark of a time series (C1, C9) *)

Lemma written_envelope client before m after config v st :
  metricRegistry !! Metric.Type_ m = Some config ->
  MetricConfig.MetricType config = "timeseries" ->
  MetricConfig.PrometheusName config <> "" ->
  Metric.Type_ m <> "steps" ->
  unmarshalTimeSeries (Metric.Object m) = Some v ->
  written (pushMetrics (before ++ m :: after) (Some client) st)
  = written (pushMetrics before (Some client) st)
    ++ (wire (MetricConfig.PrometheusName config)
          <$> filter (fun r => lastPushed (stateAfter (pushMetrics before (Some client) st))
                                 (Metric.Type_ m) < TimeValue.Timestamp r)
                (TimeSeriesMetric.Values v))
    ++ written (pushMetrics after (Some client)
                  (stateAfter (pushMetrics (before ++ [m]) (Some client) st))).
Proof.
  intros Hreg Htype Hname Hsteps Hv.
  rewrite !written_pushMetrics, !pushMetrics_state.
  rewrite forwardedBy_app, fmap_app. f_equal.
  cbn [forwardedBy]. rewrite fmap_app. f_equal.
  - destruct (offered_readings m config v
                (lastPushed (afterBatch st before) (Metric.Type_ m))
                Hreg Htype Hname Hsteps Hv) as [-> <-].
    rewrite <- list_fmap_compose. reflexivity.
  - by rewrite afterBatch_app.
Qed.

(** C1, as amended.  Cycle 1 is any batch [first]; cycle 2 is a batch with an
    envelope [m] of a time series other than ["steps"] in it.  (1) Of the
    readings of [m], cycle 2 hands to the transport exactly those whose
    timestamp is strictly greater than the mark stored for the wire type when
    the loop reaches [m]; a reading at the mark is not among them.  (2) That
    mark is the mark at the start of the batch when no earlier envelope of
    the batch has the wire type of [m].  (3) What cycle 1 handed over is the
    wire form of [forwardedBy first st0], and when it forwarded readings of
    the type, the mark it leaves is the greatest timestamp among them.
    (4) Every reading of [m] that cycle 2 forwards is strictly later than
    every reading of the type that cycle 1 forwarded: none is forwarded
    twice. *)
Theorem high_water_mark_rule
    (client : RemoteWriteClient.t) (first before after : list Metric.t) (m : Metric.t)
    (config : MetricConfig.t) (v : TimeSeriesMetric.t) (st0 : State) :
  metricRegistry !! Metric.Type_ m = Some config ->
  MetricConfig.MetricType config = "timeseries" ->
  MetricConfig.PrometheusName config <> "" ->
  Metric.Type_ m <> "steps" ->
  unmarshalTimeSeries (Metric.Object m) = Some v ->
  let type_ := Metric.Type_ m in
  let push metrics st := pushMetrics metrics (Some client) st in
  let st1 := stateAfter (push first st0) in
  let mark := lastPushed (stateAfter (push before st1)) type_ in
  let due := filter (fun r => mark < TimeValue.Timestamp r) (TimeSeriesMetric.Values v) in
  written (push (before ++ m :: after) st1)
  = written (push before st1)
    ++ (wire (MetricConfig.PrometheusName config) <$> due)
    ++ written (push after (stateAfter (push (before ++ [m]) st1)))
  /\ (forall r, r ∈ due <-> r ∈ TimeSeriesMetric.Values v /\ mark < TimeValue.Timestamp r)
  /\ ((forall m', m' ∈ before -> Metric.Type_ m' <> type_) -> mark = lastPushed st1 type_)
  /\ written (push first st0) = wireOf <$> forwardedBy first st0
  /\ (stampsOf type_ (forwardedBy first st0) <> [] ->
      lastPushed st1 type_ ∈ stampsOf type_ (forwardedBy first st0)
      /\ forall t, t ∈ stampsOf type_ (forwardedBy first st0) -> t <= lastPushed st1 type_)
  /\ (forall r r',
        (type_, r) ∈ forwardedBy first st0 -> r' ∈ due ->
        TimeValue.Timestamp r < TimeValue.Timestamp r').
Proof.
  intros Hreg Htype Hname Hsteps Hv type_ push st1 mark due.
  split; [by apply written_envelope|].
  split; [intros r; subst due; rewrite list_elem_of_filter; tauto|].
  subst mark st1 push type_. cbn beta in *. rewrite !pushMetrics_state in *.
  split; [apply afterBatch_mark_other|].
  split; [apply written_pushMetrics|].
  split; [apply afterBatch_mark_greatest|].
  intros r r' Hfirst [Hr' _]%list_elem_of_filter.
  apply forwarded_below in Hfirst.
  rewrite !pushMetrics_state in Hr'.
  pose proof (afterBatch_mark_mono before (afterBatch st0 first) (Metric.Type_ m)). lia.
Qed.

(** The rule at work on two overlapping polls of heart-rate readings. *)
Lemma high_water_mark_rule_witness :
  let m1 := Samples.series "hr" [Samples.reading 70 1000; Samples.reading 72 1005] in
  let m2 := Samples.series "hr"
              [Samples.reading 70 1000; Samples.reading 72 1005; Samples.reading 75 1010] in
  let v2 := TimeSeriesMetric.mk 0 "HR"
              [TimeValue.mk 70 1000; TimeValue.mk 72 1005; TimeValue.mk 75 1010]
              0 "" "" 0 0 in
  let st1 := stateAfter (pushMetrics [m1] (Some Samples.accepting) initialState) in
  (metricRegistry !! "hr" = Some Samples.hr_config
   /\ MetricConfig.MetricType Samples.hr_config = "timeseries"
   /\ MetricConfig.PrometheusName Samples.hr_config <> ""
   /\ "hr" <> "steps"
   /\ unmarshalTimeSeries (Metric.Object m2) = Some v2)
  /\ written (pushMetrics [m2] (Some Samples.accepting) st1)
     = [buildTimeSeries "ultrahuman_heart_rate_bpm" 75 1010000].
Proof.
  intros m1 m2 v2 st1.
  assert (metricRegistry !! "hr" = Some Samples.hr_config) as Hreg
    by (vm_compute; reflexivity).
  assert (unmarshalTimeSeries (Metric.Object m2) = Some v2) as Hv
    by (vm_compute; reflexivity).
  assert ("hr" <> "steps") as Hsteps by discriminate.
  assert (MetricConfig.PrometheusName Samples.hr_config <> "") as Hname by discriminate.
  split; [repeat split; assumption|].
  pose proof (proj1 (high_water_mark_rule Samples.accepting [m1] [] [] m2 Samples.hr_config v2
                initialState Hreg eq_refl Hname Hsteps Hv)) as Heq.
  etrans; [exact Heq|].
  vm_compute. reflexivity.
Defined.

(** C1 as stated fails when a wire type occurs twice in a batch: the second
    envelope is filtered against the mark the first one left, not against
    the mark at the start of the batch.  Here the mark of ["hr"] is 0 when
    the batch starts, the reading at 5 is above it, and is not forwarded. *)
Lemma high_water_mark_batch_start_counterexample :
  let a := Samples.series "hr" [Samples.reading 70 10] in
  let b := Samples.series "hr" [Samples.reading 60 5] in
  let reading := TimeValue.mk 60 5 in
  let cycle := pushMetrics [a; b] (Some Samples.accepting) initialState in
  lastPushed initialState "hr" = 0
  /\ (TimeSeriesMetric.Values <$> unmarshalTimeSeries (Metric.Object b)) = Some [reading]
  /\ lastPushed initialState "hr" < TimeValue.Timestamp reading
  /\ written cycle = [buildTimeSeries "ultrahuman_heart_rate_bpm" 70 10000]
  /\ wire "ultrahuman_heart_rate_bpm" reading ∉ written cycle.
Proof.
  intros a b reading cycle.
  assert (written cycle = [buildTimeSeries "ultrahuman_heart_rate_bpm" 70 10000]) as Hwritten
    by (vm_compute; reflexivity).
  split; [vm_compute; reflexivity|]. split; [vm_compute; reflexivity|].
  split; [vm_compute; reflexivity|]. split; [exact Hwritten|].
  rewrite Hwritten. intros Hin%list_elem_of_singleton. vm_compute in Hin. discriminate Hin.
Qed.

(** C9.  While the loop runs over the readings of an envelope [m] of a time
    series other than ["steps"], the mark it compares with is the one read
    before the loop: the envelope adds to the batch every reading strictly
    above that mark, in order, so of two readings with one timestamp above
    the mark both are added.  The mark the envelope leaves is the greatest of
    the mark before and the timestamps it forwarded, in whatever order the
    readings come; and so is the mark a whole batch leaves. *)
Theorem mark_read_once_per_envelope
    (m : Metric.t) (config : MetricConfig.t) (v : TimeSeriesMetric.t)
    (ts : list TimeSeries.t) (st : State) :
  metricRegistry !! Metric.Type_ m = Some config ->
  MetricConfig.MetricType config = "timeseries" ->
  MetricConfig.PrometheusName config <> "" ->
  Metric.Type_ m <> "steps" ->
  unmarshalTimeSeries (Metric.Object m) = Some v ->
  let type_ := Metric.Type_ m in
  let mark := lastPushed st type_ in
  let above := fun r => mark < TimeValue.Timestamp r in
  let due := filter above (TimeSeriesMetric.Values v) in
  let markAfter := lastPushed (pushMetric (ts, st) m).2 type_ in
  (pushMetric (ts, st) m).1 = ts ++ (wire (MetricConfig.PrometheusName config) <$> due)
  /\ (forall l1 r1 l2 r2 l3,
        TimeSeriesMetric.Values v = l1 ++ r1 :: l2 ++ r2 :: l3 ->
        mark < TimeValue.Timestamp r1 ->
        TimeValue.Timestamp r2 = TimeValue.Timestamp r1 ->
        due = filter above l1 ++ r1 :: filter above l2 ++ r2 :: filter above l3)
  /\ markAfter = maxFrom mark (stamps due)
  /\ mark <= markAfter
  /\ (forall r, r ∈ due -> TimeValue.Timestamp r <= markAfter)
  /\ (markAfter = mark \/ markAfter ∈ stamps due)
  /\ (forall client metrics k,
        lastPushed (stateAfter (pushMetrics metrics (Some client) st)) k
        = maxFrom (lastPushed st k) (stampsOf k (forwardedBy metrics st))).
Proof.
  intros Hreg Htype Hname Hsteps Hv type_ mark above due markAfter.
  destruct (offered_readings m config v mark Hreg Htype Hname Hsteps Hv) as [Hdue Hout].
  assert (markAfter = maxFrom mark (stamps due)) as Hafter.
  { subst markAfter. rewrite pushMetric_state, afterMetric_mark.
    rewrite decide_True by done. fold type_ mark. by rewrite Hdue. }
  split.
  { rewrite pushMetric_batch, Hout.
    change (lastPushed st (Metric.Type_ m)) with mark. by rewrite Hdue. }
  split.
  { intros l1 r1 l2 r2 l3 Hvalues Hr1 Hr2. subst due. rewrite Hvalues.
    rewrite filter_app, filter_cons_True by done.
    rewrite filter_app, filter_cons_True by (unfold above; lia). done. }
  split; [done|]. rewrite Hafter.
  split; [apply maxFrom_ge_base|].
  split; [intros r Hr; apply maxFrom_ge_elem; unfold stamps; by apply list_elem_of_fmap_2|].
  split; [apply maxFrom_attained|].
  intros client metrics k. rewrite pushMetrics_state. apply afterBatch_mark.
Qed.

(** Unsorted readings with a repeated timestamp, all above the mark 0. *)
Lemma mark_read_once_per_envelope_witness :
  let m := Samples.series "hr"
             [Samples.reading 70 1005; Samples.reading 71 1000; Samples.reading 72 1005] in
  let v := TimeSeriesMetric.mk 0 "HR"
             [TimeValue.mk 70 1005; TimeValue.mk 71 1000; TimeValue.mk 72 1005]
             0 "" "" 0 0 in
  (metricRegistry !! "hr" = Some Samples.hr_config
   /\ MetricConfig.MetricType Samples.hr_config = "timeseries"
   /\ MetricConfig.PrometheusName Samples.hr_config <> ""
   /\ "hr" <> "steps"
   /\ unmarshalTimeSeries (Metric.Object m) = Some v)
  /\ (pushMetric ([], initialState) m).1
     = [buildTimeSeries "ultrahuman_heart_rate_bpm" 70 1005000;
        buildTimeSeries "ultrahuman_heart_rate_bpm" 71 1000000;
        buildTimeSeries "ultrahuman_heart_rate_bpm" 72 1005000].
Proof.
  intros m v.
  assert (metricRegistry !! "hr" = Some Samples.hr_config) as Hreg
    by (vm_compute; reflexivity).
  assert (unmarshalTimeSeries (Metric.Object m) = Some v) as Hv
    by (vm_compute; reflexivity).
  assert ("hr" <> "steps") as Hsteps by discriminate.
  assert (MetricConfig.PrometheusName Samples.hr_config <> "") as Hname by discriminate.
  split; [repeat split; assumption|].
  pose proof (proj1 (mark_read_once_per_envelope m Samples.hr_config v [] initialState
                       Hreg eq_refl Hname Hsteps Hv)) as Heq.
  etrans; [exact Heq|].
  vm_compute. reflexivity.
Defined.

(** ** The cumulative counter (C2) *)

Lemma registry_steps :
  metricRegistry !! "steps" = Some (timeseries_ "total" "STEPS" "" "ultrahuman_steps_total").
Proof. vm_compute. reflexivity. Qed.

Lemma pushMetric_steps m v ts st :
  Metric.Type_ m = "steps" ->
  unmarshalTimeSeries (Metric.Object m) = Some v ->
  pushMetric (ts, st) m
  = if lastPushed st "steps" <? TimeSeriesMetric.DayStartTimestamp v
    then (ts ++ [buildTimeSeries "ultrahuman_steps_total" (TimeSeriesMetric.Total v)
                   (mul64 (TimeSeriesMetric.DayStartTimestamp v) 1000)],
          updateGlobalTimestamp (TimeSeriesMetric.DayStartTimestamp v)
            (setLastPushed "steps" (TimeSeriesMetric.DayStartTimestamp v) st))
    else (ts, st).
Proof.
  intros Htype Hv. unfold pushMetric. rewrite Htype, registry_steps, Hv. reflexivity.
Qed.

Lemma pushMetrics_steps m v client st :
  Metric.Type_ m = "steps" ->
  unmarshalTimeSeries (Metric.Object m) = Some v ->
  pushMetrics [m] (Some client) st
  = if lastPushed st "steps" <? TimeSeriesMetric.DayStartTimestamp v
    then
      let batch := [buildTimeSeries "ultrahuman_steps_total" (TimeSeriesMetric.Total v)
                      (mul64 (TimeSeriesMetric.DayStartTimestamp v) 1000)] in
      mkPushResult
        (updateGlobalTimestamp (TimeSeriesMetric.DayStartTimestamp v)
           (setLastPushed "steps" (TimeSeriesMetric.DayStartTimestamp v) st))
        [Logged "Pushing %d data points via remote write" 1;
         Wrote (RemoteWriteClient.url client) batch]
        (RemoteWriteClient.respond client batch)
    else mkPushResult st [] None.
Proof.
  intros Htype Hv. unfold pushMetrics.
  change (foldl pushMetric ([], st) [m]) with (pushMetric ([], st) m).
  rewrite (pushMetric_steps m v) by done.
  by destruct (_ <? _).
Qed.

(** C2, as amended.  An envelope of ["steps"] is judged by its day start
    alone.  When the day start is strictly above the stored mark of
    ["steps"], the envelope adds one series to the batch: the label
    [__name__] with the value [ultrahuman_steps_total] and one sample, whose
    value is the day's total and whose timestamp is the day start times 1000
    computed in [int64]; the mark becomes the day start, and a call on this
    envelope alone logs one data point and writes that one series.  The
    timestamp is the exact product for a day start between -9223372036854775
    and 9223372036854775 and the product wrapped around otherwise.  When the
    day start is not above the mark the envelope adds nothing and changes
    nothing.  So after a first submission, a second one whose day start has
    not advanced forwards nothing and leaves the state alone, whatever its
    total, and one whose day start has advanced forwards exactly one
    sample. *)
Theorem steps_day_total_rule
    (client : RemoteWriteClient.t) (m m' : Metric.t) (v v' : TimeSeriesMetric.t)
    (ts : list TimeSeries.t) (st : State) :
  Metric.Type_ m = "steps" ->
  unmarshalTimeSeries (Metric.Object m) = Some v ->
  Metric.Type_ m' = "steps" ->
  unmarshalTimeSeries (Metric.Object m') = Some v' ->
  let mark := lastPushed st "steps" in
  let day := TimeSeriesMetric.DayStartTimestamp v in
  let day' := TimeSeriesMetric.DayStartTimestamp v' in
  let stamp (seconds : Z) := (seconds * 1000 + 2 ^ 63) mod 2 ^ 64 - 2 ^ 63 in
  let sample (total : float) (seconds : Z) :=
    TimeSeries.mk [Label.mk "__name__" "ultrahuman_steps_total"]
      [Sample.mk total (stamp seconds)] in
  let one (batch : list TimeSeries.t) :=
    [Logged "Pushing %d data points via remote write" 1;
     Wrote (RemoteWriteClient.url client) batch] in
  let first := pushMetrics [m] (Some client) st in
  let second := pushMetrics [m'] (Some client) (stateAfter first) in
  (mark < day ->
     (pushMetric (ts, st) m).1 = ts ++ [sample (TimeSeriesMetric.Total v) day]
     /\ lastPushed (pushMetric (ts, st) m).2 "steps" = day
     /\ effects first = one [sample (TimeSeriesMetric.Total v) day]
     /\ returned first
        = RemoteWriteClient.respond client [sample (TimeSeriesMetric.Total v) day])
  /\ (mark < day -> - 9223372036854775 <= day <= 9223372036854775 ->
      effects first
      = one [TimeSeries.mk [Label.mk "__name__" "ultrahuman_steps_total"]
               [Sample.mk (TimeSeriesMetric.Total v) (day * 1000)]])
  /\ (day <= mark ->
      pushMetric (ts, st) m = (ts, st) /\ first = mkPushResult st [] None)
  /\ lastPushed (stateAfter first) "steps" = Z.max mark day
  /\ (day' <= Z.max mark day -> second = mkPushResult (stateAfter first) [] None)
  /\ (Z.max mark day < day' ->
        effects second = one [sample (TimeSeriesMetric.Total v') day']
        /\ lastPushed (stateAfter second) "steps" = day').
Proof.
  intros Htype Hv Htype' Hv' mark day day' stamp sample one first second.
  assert (forall total seconds,
            buildTimeSeries "ultrahuman_steps_total" total (mul64 seconds 1000)
            = sample total seconds) as Hsample by reflexivity.
  assert (lastPushed (stateAfter first) "steps" = Z.max mark day) as Hfirst.
  { subst first. rewrite (pushMetrics_steps m v) by done. fold mark day.
    destruct (Z.ltb_spec mark day); simpl.
    - rewrite lastPushed_updateGlobal, lastPushed_set, decide_True by done. lia.
    - fold mark. lia. }
  assert (mark < day -> effects first = one [sample (TimeSeriesMetric.Total v) day]
                        /\ returned first
                           = RemoteWriteClient.respond client
                               [sample (TimeSeriesMetric.Total v) day]) as Hemit.
  { intros Hlt. subst first. rewrite (pushMetrics_steps m v) by done. fold mark day.
    destruct (Z.ltb_spec mark day); [|lia]. cbn [effects returned].
    rewrite Hsample. split; reflexivity. }
  split.
  { intros Hlt. rewrite (pushMetric_steps m v) by done. fold mark day.
    destruct (Z.ltb_spec mark day); [|lia]. cbn [fst snd]. rewrite Hsample.
    split; [reflexivity|]. split; [|exact (Hemit Hlt)].
    by rewrite lastPushed_updateGlobal, lastPushed_set, decide_True. }
  split.
  { intros Hlt Hrange. rewrite (proj1 (Hemit Hlt)). subst sample stamp. cbn beta.
    rewrite Z.mod_small by lia. do 5 f_equal. lia. }
  split.
  { intros Hle. split.
    - rewrite (pushMetric_steps m v) by done. fold mark day.
      destruct (Z.ltb_spec mark day); [lia|done].
    - subst first. rewrite (pushMetrics_steps m v) by done. fold mark day.
      destruct (Z.ltb_spec mark day); [lia|done]. }
  split; [done|].
  subst second. rewrite (pushMetrics_steps m' v') by done. rewrite Hfirst. fold day'.
  split.
  - intros Hle. destruct (Z.ltb_spec (Z.max mark day) day'); [lia|done].
  - intros Hlt. destruct (Z.ltb_spec (Z.max mark day) day'); [|lia].
    cbn [effects stateAfter]. rewrite Hsample. split; [reflexivity|].
    by rewrite lastPushed_updateGlobal, lastPushed_set, decide_True.
Qed.

(** A day's total of 500 steps is sent once, stamped with the day start in
    milliseconds; the same day submitted again, with a greater total, sends
    nothing. *)
Lemma steps_day_total_rule_witness :
  let m := Samples.steps 86400 500 in
  let m' := Samples.steps 86400 620 in
  let v := TimeSeriesMetric.mk 86400 "" [] 0 "" "" 0 500 in
  let v' := TimeSeriesMetric.mk 86400 "" [] 0 "" "" 0 620 in
  let first := pushMetrics [m] (Some Samples.accepting) initialState in
  (Metric.Type_ m = "steps" /\ unmarshalTimeSeries (Metric.Object m) = Some v
   /\ Metric.Type_ m' = "steps" /\ unmarshalTimeSeries (Metric.Object m') = Some v'
   /\ lastPushed initialState "steps" < 86400
   /\ 86400 <= Z.max (lastPushed initialState "steps") 86400)
  /\ effects first
     = [Logged "Pushing %d data points via remote write" 1;
        Wrote "http://localhost:9090/api/v1/write"
          [TimeSeries.mk [Label.mk "__name__" "ultrahuman_steps_total"]
             [Sample.mk 500 86400000]]]
  /\ lastPushed (stateAfter first) "steps" = 86400
  /\ pushMetrics [m'] (Some Samples.accepting) (stateAfter first)
     = mkPushResult (stateAfter first) [] None.
Proof.
  intros m m' v v' first.
  assert (unmarshalTimeSeries (Metric.Object m) = Some v) as Hv
    by (vm_compute; reflexivity).
  assert (unmarshalTimeSeries (Metric.Object m') = Some v') as Hv'
    by (vm_compute; reflexivity).
  assert (lastPushed initialState "steps" < 86400) as Hlt by (vm_compute; reflexivity).
  assert (86400 <= Z.max (lastPushed initialState "steps") 86400) as Hle by lia.
  assert (- 9223372036854775 <= 86400 <= 9223372036854775) as Hrange by lia.
  destruct (steps_day_total_rule Samples.accepting m m' v v' [] initialState
              eq_refl Hv eq_refl Hv') as (Hemit & Hexact & _ & _ & Hsame & _).
  split; [repeat split; assumption || reflexivity|].
  split; [exact (Hexact Hlt Hrange)|].
  split; [exact (proj1 (proj2 (Hemit Hlt)))|].
  exact (Hsame Hle).
Defined.

(** C2 as stated fails beyond the range: a day's total whose day start is
    9223372036854776 seconds is sent with the timestamp
    -9223372036854775616, which is 9223372036854776000 wrapped into
    [int64], not the day start; the mark is the day start itself. *)
Lemma steps_timestamp_overflow_counterexample :
  let m := Samples.steps 9223372036854776 500 in
  let first := pushMetrics [m] (Some Samples.accepting) initialState in
  (TimeSeriesMetric.DayStartTimestamp <$> unmarshalTimeSeries (Metric.Object m))
  = Some 9223372036854776
  /\ effects first
     = [Logged "Pushing %d data points via remote write" 1;
        Wrote "http://localhost:9090/api/v1/write"
          [TimeSeries.mk [Label.mk "__name__" "ultrahuman_steps_total"]
             [Sample.mk 500 (- 9223372036854775616)]]]
  /\ lastPushed (stateAfter first) "steps" = 9223372036854776
  /\ - 9223372036854775616 <> 9223372036854776 * 1000.
Proof. vm_compute. done. Qed.

(** ** Timestamps on the wire (C3) *)

(** C3, as amended.  Every sample handed to the transport is the sample of
    one reading of one envelope of the batch (for ["steps"], of the day's
    total at the day start): it carries the output name of the envelope's
    type, the reading's value, and the reading's epoch seconds times 1000
    computed in [int64].  That product is the exact one whenever it fits
    [int64], that is for seconds between -9223372036854775 and
    9223372036854775.  Nothing but the envelopes and the marks enters the
    sample: no clock is read. *)
Theorem sample_timestamp_is_sensor_time
    (client : RemoteWriteClient.t) (metrics : list Metric.t) (st : State)
    (series : TimeSeries.t) :
  series ∈ written (pushMetrics metrics (Some client) st) ->
  exists m config v r,
    m ∈ metrics
    /\ metricRegistry !! Metric.Type_ m = Some config
    /\ unmarshalTimeSeries (Metric.Object m) = Some v
    /\ (if String.eqb (Metric.Type_ m) "steps"
        then r = TimeValue.mk (TimeSeriesMetric.Total v) (TimeSeriesMetric.DayStartTimestamp v)
        else r ∈ TimeSeriesMetric.Values v)
    /\ series
       = TimeSeries.mk
           [Label.mk "__name__" (MetricConfig.PrometheusName config)]
           [Sample.mk (TimeValue.Value r) (mul64 (TimeValue.Timestamp r) 1000)]
    /\ (- 9223372036854775 <= TimeValue.Timestamp r <= 9223372036854775 ->
        mul64 (TimeValue.Timestamp r) 1000 = TimeValue.Timestamp r * 1000).
Proof.
  rewrite written_pushMetrics.
  intros ([type_ r] & -> & Hin)%list_elem_of_fmap.
  apply forwarded_origin in Hin as (m & config & v & Hm & <- & Hreg & _ & _ & Hout & Hv & Hr).
  exists m, config, v, r. unfold wireOf, wire, buildTimeSeries. simpl.
  rewrite Hout. do 4 (split; [assumption|]). split; [reflexivity|]. apply mul64_exact.
Qed.

Lemma sample_timestamp_is_sensor_time_witness :
  let m := Samples.series "hr" [Samples.reading 70 1000] in
  let series := buildTimeSeries "ultrahuman_heart_rate_bpm" 70 1000000 in
  series ∈ written (pushMetrics [m] (Some Samples.accepting) initialState)
  /\ exists r, Sample.mk (TimeValue.Value r) (mul64 (TimeValue.Timestamp r) 1000)
               = Sample.mk 70 1000000.
Proof.
  intros m series.
  assert (series ∈ written (pushMetrics [m] (Some Samples.accepting) initialState)) as Hin
    by (vm_compute; apply elem_of_cons; by left).
  split; [exact Hin|].
  destruct (sample_timestamp_is_sensor_time Samples.accepting [m] initialState series Hin)
    as (m0 & config & v & r & _ & _ & _ & _ & Hseries & _).
  exists r. unfold series, buildTimeSeries in Hseries. congruence.
Defined.

(** C3 as stated fails beyond the range: a reading stamped
    9223372036854776 seconds goes out stamped -9223372036854775616
    milliseconds, which is 9223372036854776000 wrapped into [int64]. *)
Lemma sample_timestamp_overflow_counterexample :
  let m := Samples.series "hr" [Samples.reading 70 9223372036854776] in
  (TimeSeriesMetric.Values <$> unmarshalTimeSeries (Metric.Object m))
  = Some [TimeValue.mk 70 9223372036854776]
  /\ written (pushMetrics [m] (Some Samples.accepting) initialState)
     = [buildTimeSeries "ultrahuman_heart_rate_bpm" 70 (- 9223372036854775616)]
  /\ - 9223372036854775616 <> 9223372036854776 * 1000.
Proof. vm_compute. done. Qed.

(** ** What is forwarded at all (C4) *)

Lemma forwardedBy_skip m metrics st :
  forwardable m = false -> forwardedBy (m :: metrics) st = forwardedBy metrics st.
Proof.
  intros Hf. cbn [forwardedBy]. unfold offered. rewrite Hf, afterMetric_skip by done.
  reflexivity.
Qed.

Lemma foldl_pushMetric_filter metrics acc :
  foldl pushMetric acc metrics = foldl pushMetric acc (List.filter forwardable metrics).
Proof.
  revert acc. induction metrics as [|m metrics IH]; intros acc; [done|].
  cbn [List.filter]. destruct (forwardable m) eqn:Hf.
  - change (foldl ?f ?a (m :: ?l)) with (foldl f (f a m) l). apply IH.
  - change (foldl ?f ?a (m :: ?l)) with (foldl f (f a m) l).
    rewrite pushMetric_skip by done. apply IH.
Qed.

(** C4.  [pushMetrics] behaves as if the envelopes that are not time series
    with an output name in the registry were not in the batch: such an
    envelope adds no sample and changes no state.  Every sample handed over
    comes from an envelope whose type the registry knows as a time series
    with a non-empty output name.  When no sample was collected the call
    has no effect on the outside, neither a log line nor a write, and
    returns nil; and when a write is made it is made once, with a non-empty
    batch. *)
Theorem only_named_time_series_are_forwarded
    (client : RemoteWriteClient.t) (metrics : list Metric.t) (st : State) :
  pushMetrics metrics (Some client) st
  = pushMetrics (List.filter forwardable metrics) (Some client) st
  /\ (forall m acc, forwardable m = false -> pushMetric acc m = acc)
  /\ (forall series,
        series ∈ written (pushMetrics metrics (Some client) st) ->
        exists m config,
          m ∈ metrics
          /\ metricRegistry !! Metric.Type_ m = Some config
          /\ MetricConfig.MetricType config = "timeseries"
          /\ MetricConfig.PrometheusName config <> ""
          /\ TimeSeries.Labels series
             = [Label.mk "__name__" (MetricConfig.PrometheusName config)])
  /\ ((collect metrics st).1 = [] ->
      effects (pushMetrics metrics (Some client) st) = []
      /\ returned (pushMetrics metrics (Some client) st) = None)
  /\ ((forall m, m ∈ metrics -> forwardable m = false) ->
      pushMetrics metrics (Some client) st = mkPushResult st [] None)
  /\ (effects (pushMetrics metrics (Some client) st) = []
      \/ exists batch,
           batch <> []
           /\ batch = (collect metrics st).1
           /\ effects (pushMetrics metrics (Some client) st)
              = [Logged "Pushing %d data points via remote write" (Z.of_nat (length batch));
                 Wrote (RemoteWriteClient.url client) batch]).
Proof.
  split; [unfold pushMetrics; by rewrite foldl_pushMetric_filter|].
  split; [intros m acc; apply pushMetric_skip|].
  split.
  { rewrite written_pushMetrics.
    intros series ([type_ r] & -> & Hin)%list_elem_of_fmap.
    apply forwarded_origin in Hin
      as (m & config & v & Hm & <- & Hreg & Hname & Htype & Hout & _).
    exists m, config. unfold wireOf, wire, buildTimeSeries. simpl. rewrite Hout.
    do 4 (split; [assumption|]). reflexivity. }
  split.
  { rewrite collect_spec, pushMetrics_spec. simpl. by intros ->. }
  split.
  { intros Hnone. unfold pushMetrics. rewrite foldl_pushMetric_filter.
    replace (List.filter forwardable metrics) with (@nil Metric.t); [done|].
    symmetry. induction metrics as [|m metrics IH]; [done|].
    cbn [List.filter]. rewrite (Hnone m) by (apply elem_of_cons; by left).
    apply IH. intros m' Hm'. apply Hnone, elem_of_cons. by right. }
  rewrite collect_spec, pushMetrics_spec. simpl.
  destruct (wireOf <$> forwardedBy metrics st) as [|s batch]; [by left|].
  right. by exists (s :: batch).
Qed.

(** A scalar, a composite, an unknown type and a malformed time series:
    nothing is collected, nothing is sent. *)
Lemma only_named_time_series_are_forwarded_witness :
  let metrics :=
    [Samples.scalar "recovery" (Samples.integer 80);
     Metric.mk "sleep" (Some (JObject [("score", Samples.integer 90)]));
     Metric.mk "motion" (Some (JObject [("values", JArray [Samples.reading 1 1000])]));
     Metric.mk "hr" (Some (JString "unavailable"))] in
  (collect metrics initialState).1 = []
  /\ effects (pushMetrics metrics (Some Samples.accepting) initialState) = []
  /\ returned (pushMetrics metrics (Some Samples.accepting) initialState) = None.
Proof.
  intros metrics.
  assert ((collect metrics initialState).1 = []) as Hempty by (vm_compute; reflexivity).
  split; [exact Hempty|].
  exact (proj1 (proj2 (proj2 (proj2
           (only_named_time_series_are_forwarded Samples.accepting metrics initialState))))
           Hempty).
Defined.

(** ** Sequences of calls *)

Lemma pushMetrics_mark_mono metrics client st k :
  lastPushed st k <= lastPushed (stateAfter (pushMetrics metrics client st)) k.
Proof.
  destruct client as [client|]; [|simpl; lia].
  rewrite pushMetrics_state. apply afterBatch_mark_mono.
Qed.

Lemma runCycles_cons c cycles st :
  runCycles (c :: cycles) st = runCycles cycles (stateAfter (pushMetrics c.1 c.2 st)).
Proof. reflexivity. Qed.

Lemma runCycles_mark_mono cycles st k :
  lastPushed st k <= lastPushed (runCycles cycles st) k.
Proof.
  revert st. induction cycles as [|c cycles IH]; intros st; [simpl; lia|].
  rewrite runCycles_cons. etrans; [|apply IH]. apply pushMetrics_mark_mono.
Qed.

Lemma pushMetrics_global metrics client st :
  globalLatestTimestamp (stateAfter (pushMetrics metrics client st))
  = maxFrom (globalLatestTimestamp st)
      (stampsAll match client with None => [] | Some _ => forwardedBy metrics st end).
Proof.
  destruct client as [client|]; [|done].
  rewrite pushMetrics_state. apply afterBatch_global.
Qed.

Lemma runCycles_global cycles st :
  globalLatestTimestamp (runCycles cycles st)
  = maxFrom (globalLatestTimestamp st) (stampsAll (forwardedAll cycles st)).
Proof.
  revert st. induction cycles as [|c cycles IH]; intros st; [done|].
  rewrite runCycles_cons, IH, pushMetrics_global. cbn [forwardedAll].
  unfold stampsAll. rewrite fmap_app, maxFrom_app. reflexivity.
Qed.

Lemma forwardedAll_above floor cycles st t :
  (forall k, floor <= lastPushed st k) ->
  t ∈ stampsAll (forwardedAll cycles st) -> floor < t.
Proof.
  revert st. induction cycles as [|c cycles IH]; intros st Hfloor Hin.
  - inversion Hin.
  - cbn [forwardedAll] in Hin. unfold stampsAll in Hin. rewrite fmap_app in Hin.
    apply elem_of_app in Hin as [Hin|Hin].
    + destruct (c.2); [|inversion Hin].
      apply list_elem_of_fmap in Hin as ([type_ r] & -> & Hin).
      apply forwarded_above in Hin. specialize (Hfloor type_). simpl. lia.
    + apply (IH (stateAfter (pushMetrics c.1 c.2 st))); [|exact Hin].
      intros k. etrans; [apply Hfloor|]. apply pushMetrics_mark_mono.
Qed.

(** ** A failed write (C6) *)

(** C6.  When the endpoint rejects the batch of a cycle, [pushMetrics]
    returns the error and leaves the state as the loop made it: the state is
    the one the same call leaves when the write succeeds, every mark is the
    greatest of its value before and the timestamps forwarded for its type,
    and every forwarded reading is at or below the mark of its type.  From
    there on, through any further calls, a reading that is forwarded for a
    type is strictly later than every reading of that type in the rejected
    batch: none of them is sent again. *)
Theorem failed_write_keeps_marks
    (client : RemoteWriteClient.t) (metrics : list Metric.t) (st : State) (err : string) :
  (collect metrics st).1 <> [] ->
  RemoteWriteClient.respond client (collect metrics st).1 = Some err ->
  let failed := pushMetrics metrics (Some client) st in
  returned failed = Some err
  /\ written failed = (collect metrics st).1
  /\ written failed = wireOf <$> forwardedBy metrics st
  /\ stateAfter failed = (collect metrics st).2
  /\ (forall client', stateAfter (pushMetrics metrics (Some client') st) = stateAfter failed)
  /\ (forall k, lastPushed (stateAfter failed) k
                = maxFrom (lastPushed st k) (stampsOf k (forwardedBy metrics st)))
  /\ (forall type_ r, (type_, r) ∈ forwardedBy metrics st ->
                      TimeValue.Timestamp r <= lastPushed (stateAfter failed) type_)
  /\ (forall cycles later type_ r r',
        (type_, r) ∈ forwardedBy metrics st ->
        (type_, r') ∈ forwardedBy later (runCycles cycles (stateAfter failed)) ->
        TimeValue.Timestamp r < TimeValue.Timestamp r').
Proof.
  intros Hbatch Hrespond failed. subst failed.
  rewrite written_pushMetrics, pushMetrics_state.
  rewrite collect_spec in *. cbn [fst snd] in *.
  split.
  { rewrite pushMetrics_spec.
    destruct (wireOf <$> forwardedBy metrics st) as [|s batch]; [done|exact Hrespond]. }
  do 3 (split; [reflexivity|]).
  split; [intros client'; apply pushMetrics_state|].
  split; [intros k; apply afterBatch_mark|].
  split; [intros type_ r; apply forwarded_below|].
  intros cycles later type_ r r' Hr Hr'.
  apply forwarded_below in Hr. apply forwarded_above in Hr'.
  pose proof (runCycles_mark_mono cycles (afterBatch st metrics) type_). lia.
Qed.

(** A rejected batch of two heart-rate readings: the error comes back, and
    the same envelope polled again forwards nothing. *)
Lemma failed_write_keeps_marks_witness :
  let m := Samples.series "hr" [Samples.reading 70 1000; Samples.reading 72 1005] in
  let failed := pushMetrics [m] (Some Samples.rejecting) initialState in
  ((collect [m] initialState).1 <> []
   /\ RemoteWriteClient.respond Samples.rejecting (collect [m] initialState).1
      = Some "remote write failed with status 500: ")
  /\ returned failed = Some "remote write failed with status 500: "
  /\ effects (pushMetrics [m] (Some Samples.accepting) (stateAfter failed)) = [].
Proof.
  intros m failed.
  assert ((collect [m] initialState).1 <> []) as Hbatch by (vm_compute; discriminate).
  assert (RemoteWriteClient.respond Samples.rejecting (collect [m] initialState).1
          = Some "remote write failed with status 500: ") as Hrespond by reflexivity.
  split; [split; assumption|].
  split.
  - exact (proj1 (failed_write_keeps_marks Samples.rejecting [m] initialState _
                    Hbatch Hrespond)).
  - vm_compute. reflexivity.
Defined.

(** ** The latest timestamp (C8) *)

(** C8.  [updateGlobalTimestamp] sets the scalar to the greater of its value
    and the timestamp it is given.  Through any sequence of calls of
    [pushMetrics] the scalar does not decrease, and ends as the greatest of
    its value before and the epoch seconds of all readings forwarded on the
    way.  Counted from the start of the process, where it is 0 and every
    mark is 0, it bounds every forwarded timestamp and is one of them as
    soon as one reading was forwarded. *)
Theorem global_latest_timestamp_is_running_maximum
    (cycles : list cycle) (st : State) (ts : Z) :
  globalLatestTimestamp (updateGlobalTimestamp ts st) = Z.max (globalLatestTimestamp st) ts
  /\ globalLatestTimestamp st <= globalLatestTimestamp (runCycles cycles st)
  /\ globalLatestTimestamp (runCycles cycles st)
     = maxFrom (globalLatestTimestamp st) (stampsAll (forwardedAll cycles st))
  /\ (forall t, t ∈ stampsAll (forwardedAll cycles initialState) ->
                t <= globalLatestTimestamp (runCycles cycles initialState))
  /\ (stampsAll (forwardedAll cycles initialState) <> [] ->
      globalLatestTimestamp (runCycles cycles initialState)
      ∈ stampsAll (forwardedAll cycles initialState))
  /\ (stampsAll (forwardedAll cycles initialState) = [] ->
      globalLatestTimestamp (runCycles cycles initialState) = 0).
Proof.
  split; [apply global_updateGlobal|].
  split; [rewrite runCycles_global; apply maxFrom_ge_base|].
  split; [apply runCycles_global|].
  rewrite runCycles_global.
  split; [intros t Hin; by apply maxFrom_ge_elem|].
  split.
  - intros Hne. apply maxFrom_above; [exact Hne|].
    intros t Hin. apply (forwardedAll_above 0 cycles initialState); [|exact Hin].
    intros k. rewrite lastPushed_initial. simpl. lia.
  - intros ->. reflexivity.
Qed.

(** Three polls: heart rate, then an older overlapping window, then steps. *)
Lemma global_latest_timestamp_is_running_maximum_witness :
  let cycles : list cycle :=
    [([Samples.series "hr" [Samples.reading 70 1000; Samples.reading 72 1005]],
      Some Samples.accepting);
     ([Samples.series "hr" [Samples.reading 72 1005; Samples.reading 69 990]],
      Some Samples.rejecting);
     ([Samples.steps 900 500], Some Samples.accepting)] in
  stampsAll (forwardedAll cycles initialState) = [1000; 1005; 900]
  /\ globalLatestTimestamp (runCycles cycles initialState)
     ∈ stampsAll (forwardedAll cycles initialState)
  /\ globalLatestTimestamp (runCycles cycles initialState) = 1005.
Proof.
  intros cycles.
  assert (stampsAll (forwardedAll cycles initialState) = [1000; 1005; 900]) as Hstamps
    by (vm_compute; reflexivity).
  assert (stampsAll (forwardedAll cycles initialState) <> []) as Hne
    by (rewrite Hstamps; discriminate).
  split; [exact Hstamps|]. split.
  - exact (proj1 (proj2 (proj2 (proj2 (proj2
             (global_latest_timestamp_is_running_maximum cycles initialState 0))))) Hne).
  - vm_compute. reflexivity.
Defined.

(** ** Scalars without a value (C5) *)

#[local] Opaque unmarshalSimple unmarshalSleep.

Lemma registry_sleep : metricRegistry !! "sleep" = None.
Proof. vm_compute. reflexivity. Qed.

Lemma registry_motion : metricRegistry !! "motion" = None.
Proof. vm_compute. reflexivity. Qed.

Lemma simple_type_is_plain type_ config :
  metricRegistry !! type_ = Some config ->
  MetricConfig.MetricType config = "simple" ->
  String.eqb type_ "sleep" = false
  /\ String.eqb type_ "motion" = false
  /\ String.eqb type_ "steps" = false.
Proof.
  intros Hreg Htype. repeat split; apply String.eqb_neq; intros ->.
  - rewrite registry_sleep in Hreg. discriminate.
  - rewrite registry_motion in Hreg. discriminate.
  - rewrite registry_steps in Hreg. injection Hreg as <-. discriminate.
Qed.

(** Members that do not name ["value"] leave the [Value] field alone. *)
Lemma storeSimpleField_other key j v v' :
  names key "value" = false ->
  storeSimpleField key j v = Some v' ->
  SimpleMetric.Value v' = SimpleMetric.Value v.
Proof.
  intros Hkey. unfold storeSimpleField. destruct v as [va ti ds]. rewrite Hkey.
  destruct (names key "title").
  { destruct (storeString j ti); [|discriminate]. by intros [= <-]. }
  destruct (names key "day_start_timestamp").
  { destruct (storeInt64 j ds); [|discriminate]. by intros [= <-]. }
  by intros [= <-].
Qed.

Lemma storeSimple_others members v v' :
  Forall (fun kv => names kv.1 "value" = false) members ->
  storeMembers storeSimpleField members v = Some v' ->
  SimpleMetric.Value v' = SimpleMetric.Value v.
Proof.
  intros Hall. revert v. induction Hall as [|kv members Hkv _ IH]; intros v.
  - by intros [= <-].
  - rewrite storeMembers_cons.
    destruct (storeSimpleField kv.1 kv.2 v) as [mid|] eqn:Hmid; [|discriminate].
    simpl. intros Hrest. rewrite (IH _ Hrest).
    by eapply storeSimpleField_other.
Qed.

#[local] Transparent unmarshalSimple.

(** A payload whose last member naming ["value"] is [null] decodes, when it
    decodes, to a record without a value. *)
Lemma unmarshalSimple_null before key after v :
  names key "value" = true ->
  Forall (fun kv => names kv.1 "value" = false) after ->
  unmarshalSimple (Some (JObject (before ++ (key, JNull) :: after))) = Some v ->
  SimpleMetric.Value v = None.
Proof.
  intros Hkey Hafter. unfold unmarshalSimple, storeStruct. simpl.
  rewrite storeMembers_app.
  destruct (storeMembers storeSimpleField before SimpleMetric.zero) as [mid|];
    [|discriminate].
  simpl. rewrite storeMembers_cons.
  destruct (storeSimpleField (key, JNull).1 (key, JNull).2 mid) as [mid'|] eqn:Hmid;
    [|discriminate].
  simpl. intros Hrest. rewrite (storeSimple_others _ _ _ Hafter Hrest).
  revert Hmid. unfold storeSimpleField. destruct mid as [va ti ds]. simpl. rewrite Hkey.
  simpl. by intros [= <-].
Qed.

#[local] Opaque unmarshalSimple.

(** C5, as amended.  A scalar payload whose value member is [null] decodes
    without error to a record that has no value, which the decoder tells
    apart from a failure.  The two renderers do not tell them apart: for a
    scalar envelope that failed to decode and for one that decoded to no
    value alike, [getMetricValue] answers "null" and [displayMetric] prints
    nothing.  Neither is shown as a number, so neither as zero, and
    [pushMetrics] passes over scalar envelopes altogether. *)
Theorem null_scalar_is_no_data
    (type_ : string) (config : MetricConfig.t) (raw : RawMessage)
    (rest : list Metric.t) (acc : list TimeSeries.t * State) :
  metricRegistry !! type_ = Some config ->
  MetricConfig.MetricType config = "simple" ->
  (unmarshalSimple raw = None
   \/ exists v, unmarshalSimple raw = Some v /\ SimpleMetric.Value v = None) ->
  getMetricValue (Metric.mk type_ raw :: rest) type_ = Lit "null"
  /\ displayMetric (Metric.mk type_ raw) = []
  /\ pushMetric acc (Metric.mk type_ raw) = acc
  /\ (forall before key after v,
        raw = Some (JObject (before ++ (key, JNull) :: after)) ->
        names key "value" = true ->
        Forall (fun kv => names kv.1 "value" = false) after ->
        unmarshalSimple raw = Some v ->
        SimpleMetric.Value v = None)
  /\ unmarshalSimple (Some (JObject [("value", JNull)])) = Some SimpleMetric.zero.
Proof.
  intros Hreg Htype Hraw.
  destruct (simple_type_is_plain type_ config Hreg Htype) as (Hsleep & Hmotion & Hsteps).
  split; [|split; [|split; [|split; [|vm_compute; reflexivity]]]].
  - cbn [getMetricValue Metric.Type_ Metric.Object].
    rewrite String.eqb_refl, Hsleep, Hmotion, Hreg, Htype. cbn [negb].
    change (String.eqb "simple" "timeseries") with false.
    change (String.eqb "simple" "simple") with true. cbv iota.
    destruct Hraw as [->|(v & -> & ->)]; reflexivity.
  - unfold displayMetric. cbn [Metric.Type_ Metric.Object].
    rewrite Hsleep, Hmotion, Hsteps, Hreg, Htype.
    change (String.eqb "simple" "timeseries") with false.
    change (String.eqb "simple" "simple") with true. cbv iota.
    destruct Hraw as [->|(v & -> & ->)]; reflexivity.
  - apply pushMetric_skip. unfold forwardable. cbn [Metric.Type_].
    rewrite Hreg, Htype. apply andb_false_r.
  - intros before key after v -> Hkey Hafter Hv.
    by eapply unmarshalSimple_null.
Qed.

#[local] Transparent unmarshalSimple unmarshalSleep.

(** A recovery score whose value is [null]. *)
Lemma null_scalar_is_no_data_witness :
  let raw := Some (JObject [("value", JNull); ("title", JString "Recovery")]) in
  let config := simple_ "RECOVERY" "" false "ultrahuman_recovery" in
  (metricRegistry !! "recovery" = Some config
   /\ MetricConfig.MetricType config = "simple"
   /\ unmarshalSimple raw = Some (SimpleMetric.mk None "Recovery" 0))
  /\ getMetricValue [Metric.mk "recovery" raw] "recovery" = Lit "null"
  /\ displayMetric (Metric.mk "recovery" raw) = [].
Proof.
  intros raw config.
  assert (metricRegistry !! "recovery" = Some config) as Hreg by (vm_compute; reflexivity).
  assert (unmarshalSimple raw = Some (SimpleMetric.mk None "Recovery" 0)) as Hv
    by (vm_compute; reflexivity).
  split; [repeat split; assumption || reflexivity|].
  destruct (null_scalar_is_no_data "recovery" config raw [] ([], initialState)
              Hreg eq_refl (or_intror (ex_intro _ _ (conj Hv eq_refl))))
    as (Hget & Hdisplay & _).
  split; assumption.
Defined.

(** C5 as stated fails on the renderers: a [null] value and a value of the
    wrong type decode differently, the first to a record without a value,
    the second to an error, and are rendered the same. *)
Lemma null_and_malformed_scalars_render_alike_counterexample :
  let absent := Metric.mk "recovery" (Some (JObject [("value", JNull)])) in
  let malformed := Metric.mk "recovery" (Some (JObject [("value", JString "n/a")])) in
  unmarshalSimple (Metric.Object absent) = Some (SimpleMetric.mk None "" 0)
  /\ unmarshalSimple (Metric.Object malformed) = None
  /\ getMetricValue [absent] "recovery" = Lit "null"
  /\ getMetricValue [malformed] "recovery" = Lit "null"
  /\ displayMetric absent = []
  /\ displayMetric malformed = [].
Proof. vm_compute. done. Qed.

(** ** The empty sleep record (C7) *)

(** C7.  For an envelope of type ["sleep"] that decodes to a record in
    which the score and the total sleep are both absent, [displayMetric]
    prints nothing: neither the section header nor any field, whatever the
    other fields hold. *)
Theorem empty_sleep_is_suppressed (m : Metric.t) (v : SleepMetric.t) :
  Metric.Type_ m = "sleep" ->
  unmarshalSleep (Metric.Object m) = Some v ->
  SleepMetric.Score v = None ->
  SleepMetric.TotalSleep v = None ->
  displayMetric m = [].
Proof.
  intros Htype Hv Hscore Htotal. unfold displayMetric.
  rewrite Htype, Hv, Hscore, Htotal. reflexivity.
Qed.

(** A sleep record that has an efficiency and a time in bed only. *)
Lemma empty_sleep_is_suppressed_witness :
  let m := Metric.mk "sleep"
             (Some (JObject [("efficiency", Samples.integer 90);
                             ("time_in_bed", Samples.integer 480);
                             ("score", JNull)])) in
  let v := SleepMetric.mk 0 None None (Some 90%float) (Some 480%float) None None None in
  (Metric.Type_ m = "sleep" /\ unmarshalSleep (Metric.Object m) = Some v
   /\ SleepMetric.Score v = None /\ SleepMetric.TotalSleep v = None)
  /\ displayMetric m = [].
Proof.
  intros m v.
  assert (unmarshalSleep (Metric.Object m) = Some v) as Hv by (vm_compute; reflexivity).
  split; [repeat split; assumption || reflexivity|].
  exact (empty_sleep_is_suppressed m v eq_refl Hv eq_refl eq_refl).
Defined.

(** ** One date per cycle (C10) *)

Lemma fetchAndPushMetricsIn_cons date metrics order resp rwClient st :
  APIResponse.Error resp = None ->
  fetchAndPushMetricsIn ((date, metrics) :: order) (inr resp) rwClient st
  = cycleOf (pushMetrics metrics rwClient st).
Proof.
  intros Herr. unfold fetchAndPushMetricsIn, cycleOf. rewrite Herr.
  by destruct (returned (pushMetrics metrics rwClient st)).
Qed.

Lemma pushMetrics_writes metrics rwClient st :
  (writes (effects (pushMetrics metrics rwClient st)) <= 1)%nat.
Proof.
  destruct rwClient as [client|]; [|unfold writes; simpl; lia].
  rewrite pushMetrics_spec.
  destruct (wireOf <$> forwardedBy metrics st); unfold writes; simpl; lia.
Qed.

(** C10.  A cycle whose response carries no API error calls [pushMetrics]
    at most once: with no date in the response it does nothing, and
    otherwise its outcome is that of pushing the metrics of one date of the
    response, the first that [range] yields, and nothing of the other dates
    enters it.  Which date that is lies with the runtime: for every date of
    the response, pushing that date's metrics alone is an outcome the cycle
    can have.  At most one write reaches the transport. *)
Theorem cycle_pushes_one_date
    (resp : APIResponse.t) (rwClient : option RemoteWriteClient.t) (st : State) :
  APIResponse.Error resp = None ->
  let dates := Data.Metrics (APIResponse.Data_ resp) in
  (forall r,
     fetchAndPushMetrics (inr resp) rwClient st r ->
     (dates = ∅ /\ r = mkCycleResult st [] None)
     \/ exists date metrics,
          dates !! date = Some metrics
          /\ r = cycleOf (pushMetrics metrics rwClient st))
  /\ (forall date metrics,
        dates !! date = Some metrics ->
        fetchAndPushMetrics (inr resp) rwClient st
          (cycleOf (pushMetrics metrics rwClient st)))
  /\ (forall order date metrics,
        fetchAndPushMetricsIn ((date, metrics) :: order) (inr resp) rwClient st
        = cycleOf (pushMetrics metrics rwClient st))
  /\ (forall r,
        fetchAndPushMetrics (inr resp) rwClient st r -> (writes (cycleEffects r) <= 1)%nat).
Proof.
  intros Herr dates.
  assert (forall r,
            fetchAndPushMetrics (inr resp) rwClient st r ->
            (dates = ∅ /\ r = mkCycleResult st [] None)
            \/ exists date metrics,
                 dates !! date = Some metrics
                 /\ r = cycleOf (pushMetrics metrics rwClient st)) as Hone.
  { intros r (order & Horder & ->). unfold rangeOrder in Horder. fold dates in Horder.
    destruct order as [|[date metrics] order].
    - left. split.
      + apply map_to_list_empty_iff. by apply Permutation_nil.
      + unfold fetchAndPushMetricsIn. by rewrite Herr.
    - right. exists date, metrics. split.
      + apply elem_of_map_to_list. rewrite <- Horder. apply elem_of_cons. by left.
      + by apply fetchAndPushMetricsIn_cons. }
  split; [exact Hone|]. split; [|split].
  - intros date metrics Hdate.
    apply elem_of_map_to_list, elem_of_Permutation in Hdate as [order Horder].
    exists ((date, metrics) :: order). split.
    + unfold rangeOrder. by symmetry.
    + symmetry. by apply fetchAndPushMetricsIn_cons.
  - intros order date metrics. by apply fetchAndPushMetricsIn_cons.
  - intros r Hr. destruct (Hone r Hr) as [[_ ->]|(date & metrics & _ & ->)].
    + unfold writes. simpl. lia.
    + apply pushMetrics_writes.
Qed.

(** A response with two dates: either date may be the one pushed, the two
    outcomes differ, and each leaves the other date's reading unsent. *)
Lemma cycle_pushes_one_date_witness :
  let client := Some Samples.accepting in
  let pushed metrics := cycleOf (pushMetrics metrics client initialState) in
  APIResponse.Error TwoDates.resp = None
  /\ fetchAndPushMetrics (inr TwoDates.resp) client initialState (pushed TwoDates.yesterday)
  /\ fetchAndPushMetrics (inr TwoDates.resp) client initialState (pushed TwoDates.today)
  /\ cycleEffects (pushed TwoDates.yesterday)
     = [Logged "Pushing %d data points via remote write" 1;
        Wrote "http://localhost:9090/api/v1/write"
          [buildTimeSeries "ultrahuman_heart_rate_bpm" 64 500000]]
  /\ cycleEffects (pushed TwoDates.today)
     = [Logged "Pushing %d data points via remote write" 1;
        Wrote "http://localhost:9090/api/v1/write"
          [buildTimeSeries "ultrahuman_heart_rate_bpm" 70 1000000]].
Proof.
  intros client pushed.
  pose proof (cycle_pushes_one_date TwoDates.resp client initialState eq_refl)
    as (_ & Hany & _).
  split; [reflexivity|].
  split; [apply (Hany "2024-05-01"); vm_compute; reflexivity|].
  split; [apply (Hany "2024-05-02"); vm_compute; reflexivity|].
  split; vm_compute; reflexivity.
Defined.

(** * Further properties of the forwarding path *)

(** ** An envelope with nothing due *)

Lemma pushReadings_none_due name type_ lastTs readings acc :
  filter (fun r => lastTs < TimeValue.Timestamp r) readings = [] ->
  foldl (pushReading name type_ lastTs) acc readings = acc.
Proof.
  destruct acc as [ts st]. induction readings as [|r readings IH]; [done|].
  intros Hnone. change (foldl ?f ?a (r :: readings)) with (foldl f (f a r) readings).
  destruct (Z.le_gt_cases (TimeValue.Timestamp r) lastTs) as [Hle|Hgt].
  - rewrite pushReading_skip by exact Hle. apply IH.
    rewrite filter_cons_False in Hnone by lia. exact Hnone.
  - rewrite filter_cons_True in Hnone by lia. discriminate Hnone.
Qed.

Lemma pushMetric_nothing_due m acc :
  offered m (lastPushed acc.2 (Metric.Type_ m)) = [] -> pushMetric acc m = acc.
Proof.
  destruct acc as [ts st]. cbn [snd]. unfold offered.
  destruct (forwardable m) eqn:Hf; [|intros _; by apply pushMetric_skip].
  destruct (forwardable_lookup m Hf) as (config & Hreg & Hname & Htype & _).
  unfold pushMetric. rewrite Hreg.
  apply String.eqb_neq in Hname. rewrite Hname, Htype. cbn [orb negb].
  change (String.eqb "timeseries" "timeseries") with true. cbn [negb].
  destruct (unmarshalTimeSeries (Metric.Object m)) as [v|]; [|reflexivity].
  destruct (String.eqb (Metric.Type_ m) "steps").
  - destruct (lastPushed st (Metric.Type_ m) <? TimeSeriesMetric.DayStartTimestamp v);
      [discriminate|reflexivity].
  - apply pushReadings_none_due.
Qed.

Lemma afterMetric_nothing_due m st :
  offered m (lastPushed st (Metric.Type_ m)) = [] -> afterMetric st m = st.
Proof.
  intros Hnone. unfold afterMetric.
  by rewrite (pushMetric_nothing_due m ([], st)).
Qed.

(** Raising the mark to or above everything an envelope offers leaves it
    with nothing to offer. *)
Lemma offered_exhausted m mark mark' :
  mark <= mark' ->
  (forall r, r ∈ offered m mark -> TimeValue.Timestamp r <= mark') ->
  offered m mark' = [].
Proof.
  intros Hle. unfold offered.
  destruct (forwardable m); [|reflexivity].
  destruct (unmarshalTimeSeries (Metric.Object m)) as [v|]; [|reflexivity].
  destruct (String.eqb (Metric.Type_ m) "steps").
  - intros Hall.
    destruct (Z.ltb_spec mark' (TimeSeriesMetric.DayStartTimestamp v)) as [Hlt|]; [|reflexivity].
    destruct (Z.ltb_spec mark (TimeSeriesMetric.DayStartTimestamp v)) as [|Hge]; [|lia].
    specialize (Hall _ (proj2 (list_elem_of_singleton _ _) eq_refl)). simpl in Hall. lia.
  - intros Hall. induction (TimeSeriesMetric.Values v) as [|r l IH]; [reflexivity|].
    assert (TimeValue.Timestamp r <= mark') as Hr.
    { destruct (Z.le_gt_cases (TimeValue.Timestamp r) mark) as [|Hgt]; [lia|].
      apply Hall. rewrite filter_cons_True by lia. apply elem_of_cons. by left. }
    rewrite filter_cons_False by lia. apply IH.
    intros r' Hr'. apply Hall.
    destruct (Z.le_gt_cases (TimeValue.Timestamp r) mark).
    + rewrite filter_cons_False by lia. exact Hr'.
    + rewrite filter_cons_True by lia. apply elem_of_cons. by right.
Qed.

Lemma batch_exhausted metrics st st2 :
  (forall k, lastPushed (afterBatch st metrics) k <= lastPushed st2 k) ->
  forwardedBy metrics st2 = [] /\ afterBatch st2 metrics = st2.
Proof.
  revert st. induction metrics as [|m metrics IH]; intros st Hmarks; [done|].
  assert (offered m (lastPushed st2 (Metric.Type_ m)) = []) as Hnone.
  { apply (offered_exhausted m (lastPushed st (Metric.Type_ m))).
    - etrans; [apply (afterBatch_mark_mono (m :: metrics))|apply Hmarks].
    - intros r Hr. etrans; [|apply Hmarks].
      apply forwarded_below. cbn [forwardedBy]. apply elem_of_app. left.
      by apply list_elem_of_fmap_2. }
  change (afterBatch st2 (m :: metrics)) with (afterBatch (afterMetric st2 m) metrics).
  cbn [forwardedBy]. rewrite Hnone, afterMetric_nothing_due by exact Hnone.
  apply (IH (afterMetric st m)). exact Hmarks.
Qed.

(** X1.  Polling the same batch again forwards nothing: after a call of
    [pushMetrics] on a batch, with whatever calls in between, a call on the
    same batch has no effect on the outside, returns nil and leaves the
    state as it found it.  The first call's write may have failed or
    succeeded. *)
Theorem same_batch_again_forwards_nothing
    (client client' : RemoteWriteClient.t) (metrics : list Metric.t)
    (between : list cycle) (st : State) :
  let st' := runCycles between (stateAfter (pushMetrics metrics (Some client) st)) in
  pushMetrics metrics (Some client') st' = mkPushResult st' [] None.
Proof.
  intros st'.
  destruct (batch_exhausted metrics st st') as [Hnone Hsame].
  { intros k. subst st'. rewrite pushMetrics_state. apply runCycles_mark_mono. }
  rewrite pushMetrics_spec, Hnone, Hsame. reflexivity.
Qed.

(** ** Batches in parts *)

(** X2.  A batch pushed in one call forwards the same samples, in the same
    order, and leaves the same state as its two halves pushed in two
    consecutive calls; and an envelope whose payload does not decode as a
    time series can be dropped from the batch without changing the call. *)
Theorem batch_splits_and_skips_undecodable
    (client : RemoteWriteClient.t) (before after : list Metric.t) (m : Metric.t)
    (st : State) :
  let push metrics st := pushMetrics metrics (Some client) st in
  written (push (before ++ after) st)
  = written (push before st) ++ written (push after (stateAfter (push before st)))
  /\ stateAfter (push (before ++ after) st)
     = stateAfter (push after (stateAfter (push before st)))
  /\ (unmarshalTimeSeries (Metric.Object m) = None ->
      push (before ++ m :: after) st = push (before ++ after) st).
Proof.
  intros push. subst push. cbn beta.
  rewrite !written_pushMetrics, !pushMetrics_state.
  split; [by rewrite forwardedBy_app, fmap_app|].
  split; [apply afterBatch_app|].
  intros Hv. unfold pushMetrics. rewrite !foldl_app.
  change (foldl pushMetric ?a (m :: after)) with (foldl pushMetric (pushMetric a m) after).
  rewrite (pushMetric_nothing_due m); [reflexivity|].
  unfold offered. rewrite Hv. by destruct (forwardable m).
Qed.

Lemma batch_splits_and_skips_undecodable_witness :
  let bad := Metric.mk "hr" (Some (JObject [("values", JString "none")])) in
  let good := Samples.series "hr" [Samples.reading 70 1000] in
  unmarshalTimeSeries (Metric.Object bad) = None
  /\ pushMetrics [bad; good] (Some Samples.accepting) initialState
     = pushMetrics [good] (Some Samples.accepting) initialState.
Proof.
  intros bad good.
  assert (unmarshalTimeSeries (Metric.Object bad) = None) as Hv by (vm_compute; reflexivity).
  split; [exact Hv|].
  exact (proj2 (proj2 (batch_splits_and_skips_undecodable Samples.accepting [] [good] bad
                         initialState)) Hv).
Defined.

(** ** Any number of calls *)


Lemma pushMetrics_mark metrics rwClient st k :
  lastPushed (stateAfter (pushMetrics metrics rwClient st)) k
  = maxFrom (lastPushed st k)
      (stampsOf k match rwClient with None => [] | Some _ => forwardedBy metrics st end).
Proof.
  destruct rwClient as [client|]; [|done].
  rewrite pushMetrics_state. apply afterBatch_mark.
Qed.

Lemma runCycles_mark cycles st k :
  lastPushed (runCycles cycles st) k
  = maxFrom (lastPushed st k) (stampsOf k (forwardedAll cycles st)).
Proof.
  revert st. induction cycles as [|c cycles IH]; intros st; [done|].
  rewrite runCycles_cons, IH, pushMetrics_mark. cbn [forwardedAll].
  by rewrite stampsOf_app, maxFrom_app.
Qed.


Lemma forwardedAll_below cycles st type_ r :
  (type_, r) ∈ forwardedAll cycles st ->
  TimeValue.Timestamp r <= lastPushed (runCycles cycles st) type_.
Proof.
  intros Hin. rewrite runCycles_mark. by apply maxFrom_ge_elem, elem_of_stampsOf.
Qed.

Lemma forwardedAll_origin cycles st type_ r :
  (type_, r) ∈ forwardedAll cycles st ->
  exists c m, c ∈ cycles /\ m ∈ c.1 /\ Metric.Type_ m = type_.
Proof.
  revert st. induction cycles as [|c cycles IH]; intros st Hin; [inversion Hin|].
  cbn [forwardedAll] in Hin. apply elem_of_app in Hin as [Hin|Hin].
  - destruct (c.2); [|inversion Hin].
    apply forwarded_origin in Hin as (m & _ & _ & Hm & Htype & _).
    exists c, m. split; [apply elem_of_cons; by left|by split].
  - destruct (IH _ Hin) as (c' & m & Hc' & Hm).
    exists c', m. split; [apply elem_of_cons; by right|exact Hm].
Qed.

Lemma forwardedAll_in_int64 cycles st type_ r :
  (type_, r) ∈ forwardedAll cycles st -> in_int64 (TimeValue.Timestamp r) = true.
Proof.
  revert st. induction cycles as [|c cycles IH]; intros st Hin; [inversion Hin|].
  cbn [forwardedAll] in Hin. apply elem_of_app in Hin as [Hin|Hin].
  - destruct (c.2); [|inversion Hin]. by eapply forwarded_in_int64.
  - by eapply IH.
Qed.

(** X3.  Through any sequence of calls no mark decreases, and the mark of a
    wire type that no envelope of the batches carries stays what it was. *)
Theorem marks_only_grow (cycles : list cycle) (st : State) (k : string) :
  lastPushed st k <= lastPushed (runCycles cycles st) k
  /\ ((forall c m, c ∈ cycles -> m ∈ c.1 -> Metric.Type_ m <> k) ->
      lastPushed (runCycles cycles st) k = lastPushed st k).
Proof.
  split; [apply runCycles_mark_mono|].
  intros Hother. rewrite runCycles_mark.
  destruct (stampsOf k (forwardedAll cycles st)) as [|t l] eqn:Hstamps; [done|].
  assert (t ∈ stampsOf k (forwardedAll cycles st)) as Hin
    by (rewrite Hstamps; apply elem_of_cons; by left).
  apply elem_of_stampsOf_inv in Hin as (r & Hin & _).
  apply forwardedAll_origin in Hin as (c & m & Hc & Hm & Htype).
  by destruct (Hother c m Hc Hm).
Qed.

Lemma marks_only_grow_witness :
  let cycles : list cycle :=
    [([Samples.series "hr" [Samples.reading 70 1000]], Some Samples.accepting);
     ([Samples.series "hr" [Samples.reading 60 900]], Some Samples.rejecting)] in
  lastPushed (runCycles cycles initialState) "temp" = lastPushed initialState "temp"
  /\ lastPushed (runCycles cycles initialState) "hr" = 1000.
Proof.
  intros cycles. split; [|vm_compute; reflexivity].
  apply (proj2 (marks_only_grow cycles initialState "temp")).
  intros c m Hc Hm Htype.
  apply elem_of_cons in Hc as [->|Hc].
  - apply list_elem_of_singleton in Hm as ->. discriminate Htype.
  - apply list_elem_of_singleton in Hc as ->.
    apply list_elem_of_singleton in Hm as ->. discriminate Htype.
Defined.





Lemma forwardedAll_decoded cycles st type_ r :
  (type_, r) ∈ forwardedAll cycles st -> decodedStamp cycles type_ (TimeValue.Timestamp r).
Proof.
  revert st. induction cycles as [|c cycles IH]; intros st Hin; [inversion Hin|].
  cbn [forwardedAll] in Hin. apply elem_of_app in Hin as [Hin|Hin].
  - destruct (c.2); [|inversion Hin].
    apply forwarded_origin in Hin as (m & config & v & Hm & Htype & _ & _ & _ & _ & Hv & Hr).
    exists c, m, v. split; [apply elem_of_cons; by left|]. do 3 (split; [assumption|]).
    destruct (String.eqb type_ "steps"); [by subst r|by exists r].
  - destruct (IH _ Hin) as (c' & m & v & Hc' & Hrest).
    exists c', m, v. split; [apply elem_of_cons; by right|exact Hrest].
Qed.

Lemma decodedStamp_in_int64 cycles type_ t : decodedStamp cycles type_ t -> in_int64 t = true.
Proof.
  intros (c & m & v & _ & _ & _ & Hv & Ht).
  apply unmarshalTimeSeries_range in Hv as [Hday Hvalues].
  destruct (String.eqb type_ "steps"); [by subst t|].
  destruct Ht as (r & Hr & ->). rewrite Forall_forall in Hvalues. by apply Hvalues.
Qed.

(** X6.  Marks are set to decoded timestamps and to nothing else.  After
    any sequence of calls the mark of a wire type is what it was before, or
    the epoch seconds that the payload of an envelope of that type in one of
    the batches decodes to (a reading's timestamp; for ["steps"] the day
    start); the latest timestamp is what it was before, or such a decoded
    timestamp of some type.  It is the seconds that are kept, never the
    milliseconds put on the wire, so a mark that was set is an [int64] value
    also where the product by 1000 wraps around. *)
Theorem marks_are_decoded_timestamps (cycles : list cycle) (st : State) (k : string) :
  let st' := runCycles cycles st in
  (lastPushed st' k = lastPushed st k \/ decodedStamp cycles k (lastPushed st' k))
  /\ (globalLatestTimestamp st' = globalLatestTimestamp st
      \/ exists type_, decodedStamp cycles type_ (globalLatestTimestamp st'))
  /\ (forall type_ t, decodedStamp cycles type_ t -> in_int64 t = true).
Proof.
  intros st'. subst st'. split; [|split].
  - rewrite runCycles_mark.
    destruct (maxFrom_attained (lastPushed st k) (stampsOf k (forwardedAll cycles st)))
      as [Heq|Hin]; [by left|right].
    apply elem_of_stampsOf_inv in Hin as (r & Hin & <-). by eapply forwardedAll_decoded.
  - rewrite runCycles_global.
    destruct (maxFrom_attained (globalLatestTimestamp st)
                (stampsAll (forwardedAll cycles st))) as [Heq|Hin]; [by left|right].
    apply list_elem_of_fmap in Hin as ([type_ r] & -> & Hin).
    exists type_. by eapply forwardedAll_decoded.
  - intros type_ t. apply decodedStamp_in_int64.
Qed.

(** A reading stamped with the greatest [int64] second goes out with a
    wrapped timestamp, and the mark is the second as decoded. *)
Lemma marks_are_decoded_timestamps_witness :
  let m := Samples.series "hr" [Samples.reading 70 9223372036854775807] in
  let cycles : list cycle := [([m], Some Samples.accepting)] in
  lastPushed (runCycles cycles initialState) "hr" = 9223372036854775807
  /\ decodedStamp cycles "hr" 9223372036854775807
  /\ written (pushMetrics [m] (Some Samples.accepting) initialState)
     = [TimeSeries.mk [Label.mk "__name__" "ultrahuman_heart_rate_bpm"]
          [Sample.mk 70 (- 1000)]].
Proof.
  intros m cycles.
  assert (lastPushed (runCycles cycles initialState) "hr" = 9223372036854775807) as Hmark
    by (vm_compute; reflexivity).
  split; [exact Hmark|]. split; [|vm_compute; reflexivity].
  destruct (proj1 (marks_are_decoded_timestamps cycles initialState "hr")) as [Hsame|Hset].
  - rewrite Hmark in Hsame. vm_compute in Hsame. discriminate Hsame.
  - rewrite Hmark in Hset. exact Hset.
Defined.

(** X7.  Counted from the start of the process, the latest timestamp is at
    least every mark, and it is zero or the mark of some wire type: it is
    the greatest of the marks. *)
Theorem latest_timestamp_is_the_greatest_mark (cycles : list cycle) :
  let st := runCycles cycles initialState in
  (forall k, lastPushed st k <= globalLatestTimestamp st)
  /\ (globalLatestTimestamp st = 0 \/ exists k, globalLatestTimestamp st = lastPushed st k).
Proof.
  intros st. subst st.
  assert (forall k, lastPushed (runCycles cycles initialState) k
                    <= globalLatestTimestamp (runCycles cycles initialState)) as Hle.
  { intros k. rewrite runCycles_mark, runCycles_global, lastPushed_initial.
    change (globalLatestTimestamp initialState) with 0.
    destruct (maxFrom_attained 0 (stampsOf k (forwardedAll cycles initialState)))
      as [->|Hin]; [apply maxFrom_ge_base|].
    apply elem_of_stampsOf_inv in Hin as (r & Hin & <-).
    apply maxFrom_ge_elem. unfold stampsAll.
    by apply (list_elem_of_fmap_2 (fun f : string * TimeValue.t => TimeValue.Timestamp f.2)
                _ (k, r)). }
  split; [exact Hle|].
  destruct (maxFrom_attained 0 (stampsAll (forwardedAll cycles initialState)))
    as [Hzero|Hin].
  - left. rewrite runCycles_global. exact Hzero.
  - right. pose proof (runCycles_global cycles initialState) as Hglobal.
    change (globalLatestTimestamp initialState) with 0 in Hglobal.
    rewrite <- Hglobal in Hin.
    apply list_elem_of_fmap in Hin as ([k r] & Hts & Hin). exists k.
    apply forwardedAll_below in Hin. simpl in Hts. specialize (Hle k). lia.
Qed.

(** ** getLatestTimestamp *)

Lemma getLatestTimestampFrom_maxFrom latest values :
  getLatestTimestampFrom latest values = maxFrom latest (stamps values).
Proof.
  revert latest. induction values as [|v values IH]; intros latest; [done|].
  cbn [getLatestTimestampFrom]. rewrite IH. unfold stamps. rewrite fmap_cons, maxFrom_cons.
  f_equal. destruct (Z.ltb_spec latest (TimeValue.Timestamp v)); lia.
Qed.

(** X8.  [getLatestTimestamp] returns the greatest of zero and the
    timestamps of the values: it is never negative, it is at least every
    timestamp, and it is zero or the timestamp of one of the values.  For no
    values, and for values none of which is stamped after the epoch, it is
    zero. *)
Theorem getLatestTimestamp_is_greatest (values : list TimeValue.t) :
  0 <= getLatestTimestamp values
  /\ (forall v, v ∈ values -> TimeValue.Timestamp v <= getLatestTimestamp values)
  /\ (getLatestTimestamp values = 0
      \/ exists v, v ∈ values /\ TimeValue.Timestamp v = getLatestTimestamp values)
  /\ ((forall v, v ∈ values -> TimeValue.Timestamp v <= 0) -> getLatestTimestamp values = 0).
Proof.
  unfold getLatestTimestamp. rewrite getLatestTimestampFrom_maxFrom.
  split; [apply maxFrom_ge_base|].
  split; [intros v Hv; apply maxFrom_ge_elem; unfold stamps; by apply list_elem_of_fmap_2|].
  split.
  - destruct (maxFrom_attained 0 (stamps values)) as [Hzero|Hin]; [by left|right].
    apply list_elem_of_fmap in Hin as (v & Hts & Hv). by exists v.
  - intros Hall. destruct (maxFrom_attained 0 (stamps values)) as [Hzero|Hin]; [done|].
    apply list_elem_of_fmap in Hin as (v & Hts & Hv).
    pose proof (maxFrom_ge_base 0 (stamps values)). specialize (Hall v Hv). lia.
Qed.

Lemma getLatestTimestamp_is_greatest_witness :
  getLatestTimestamp [TimeValue.mk 1 (-20); TimeValue.mk 2 (-3)] = 0.
Proof.
  apply (proj2 (proj2 (proj2 (getLatestTimestamp_is_greatest
                                [TimeValue.mk 1 (-20); TimeValue.mk 2 (-3)])))).
  intros v Hv. apply elem_of_cons in Hv as [->|Hv]; [simpl; lia|].
  apply list_elem_of_singleton in Hv as ->. simpl. lia.
Defined.

Lemma maxFrom_filter_above base floor (l : list TimeValue.t) :
  floor <= base ->
  maxFrom base (stamps (filter (fun r => floor < TimeValue.Timestamp r) l))
  = maxFrom base (stamps l).
Proof.
  revert base. induction l as [|r l IH]; intros base Hle; [done|].
  unfold stamps in *. rewrite fmap_cons, maxFrom_cons.
  destruct (Z.le_gt_cases (TimeValue.Timestamp r) floor).
  - rewrite filter_cons_False by lia. rewrite IH by exact Hle.
    replace (Z.max base (TimeValue.Timestamp r)) with base by lia. reflexivity.
  - rewrite filter_cons_True by lia. rewrite fmap_cons, maxFrom_cons. apply IH. lia.
Qed.

(** X9.  The first push of a time series other than ["steps"] in a fresh
    process leaves both the mark of its wire type and the latest timestamp
    at [getLatestTimestamp] of its readings. *)
Theorem first_push_leaves_latest_reading
    (client : RemoteWriteClient.t) (m : Metric.t) (config : MetricConfig.t)
    (v : TimeSeriesMetric.t) :
  metricRegistry !! Metric.Type_ m = Some config ->
  MetricConfig.MetricType config = "timeseries" ->
  MetricConfig.PrometheusName config <> "" ->
  Metric.Type_ m <> "steps" ->
  unmarshalTimeSeries (Metric.Object m) = Some v ->
  let after := stateAfter (pushMetrics [m] (Some client) initialState) in
  lastPushed after (Metric.Type_ m) = getLatestTimestamp (TimeSeriesMetric.Values v)
  /\ globalLatestTimestamp after = getLatestTimestamp (TimeSeriesMetric.Values v).
Proof.
  intros Hreg Htype Hname Hsteps Hv after. subst after.
  rewrite pushMetrics_state.
  change (afterBatch initialState [m]) with (afterMetric initialState m).
  rewrite afterMetric_mark, afterMetric_global, decide_True by done.
  destruct (offered_readings m config v (lastPushed initialState (Metric.Type_ m))
              Hreg Htype Hname Hsteps Hv) as [-> _].
  rewrite lastPushed_initial. change (globalLatestTimestamp initialState) with 0.
  unfold getLatestTimestamp. rewrite getLatestTimestampFrom_maxFrom.
  split; apply maxFrom_filter_above; lia.
Qed.

Lemma first_push_leaves_latest_reading_witness :
  let m := Samples.series "hr" [Samples.reading 70 1005; Samples.reading 72 1000] in
  let v := TimeSeriesMetric.mk 0 "HR" [TimeValue.mk 70 1005; TimeValue.mk 72 1000]
             0 "" "" 0 0 in
  unmarshalTimeSeries (Metric.Object m) = Some v
  /\ globalLatestTimestamp (stateAfter (pushMetrics [m] (Some Samples.accepting) initialState))
     = getLatestTimestamp (TimeSeriesMetric.Values v).
Proof.
  intros m v.
  assert (metricRegistry !! "hr" = Some Samples.hr_config) as Hreg
    by (vm_compute; reflexivity).
  assert (unmarshalTimeSeries (Metric.Object m) = Some v) as Hv
    by (vm_compute; reflexivity).
  assert ("hr" <> "steps") as Hsteps by discriminate.
  assert (MetricConfig.PrometheusName Samples.hr_config <> "") as Hname by discriminate.
  split; [exact Hv|].
  exact (proj2 (first_push_leaves_latest_reading Samples.accepting m Samples.hr_config v
                  Hreg eq_refl Hname Hsteps Hv)).
Defined.

(** ** Failed and empty cycles *)

(** The error paths of a cycle.  A cycle whose request fails, or whose
    response carries an API error, returns that error, makes no call to [pushMetrics], and leaves
    the marks and the latest timestamp untouched, whatever the response
    holds; so does, returning nil, a cycle whose response has no date.  When
    the write of the pushed batch fails, the cycle returns the error wrapped
    as "push metrics" and the state is the one [pushMetrics] left. *)
Theorem failed_cycle_leaves_state
    (order : list (string * list Metric.t)) (resp : APIResponse.t)
    (rwClient : option RemoteWriteClient.t) (st : State) (err : text) (e : string) :
  fetchAndPushMetricsIn order (inl err) rwClient st = mkCycleResult st [] (Some err)
  /\ (APIResponse.Error resp = Some e ->
      fetchAndPushMetricsIn order (inr resp) rwClient st
      = mkCycleResult st [] (Some (Sprintf "API error: %s" [AText (Lit e)])))
  /\ (APIResponse.Error resp = None ->
      fetchAndPushMetricsIn [] (inr resp) rwClient st = mkCycleResult st [] None)
  /\ (forall date metrics,
        APIResponse.Error resp = None ->
        returned (pushMetrics metrics rwClient st) = Some e ->
        fetchAndPushMetricsIn ((date, metrics) :: order) (inr resp) rwClient st
        = mkCycleResult (stateAfter (pushMetrics metrics rwClient st))
            (effects (pushMetrics metrics rwClient st))
            (Some (Sprintf "push metrics: %w" [AText (Lit e)]))).
Proof.
  split; [reflexivity|].
  split; [intros Herr; unfold fetchAndPushMetricsIn; by rewrite Herr|].
  split; [intros Herr; unfold fetchAndPushMetricsIn; by rewrite Herr|].
  intros date metrics Herr Hret. unfold fetchAndPushMetricsIn. by rewrite Herr, Hret.
Qed.

Lemma failed_cycle_leaves_state_witness :
  let resp := APIResponse.mk (Data.mk ∅ "") (Some "invalid token") 401 in
  fetchAndPushMetricsIn [("2024-05-01", TwoDates.yesterday)] (inr resp)
    (Some Samples.accepting) initialState
  = mkCycleResult initialState []
      (Some (Sprintf "API error: %s" [AText (Lit "invalid token")])).
Proof.
  intros resp.
  exact (proj1 (proj2 (failed_cycle_leaves_state [("2024-05-01", TwoDates.yesterday)] resp
                         (Some Samples.accepting) initialState (Lit "") "invalid token"))
           eq_refl).
Defined.

(** * Properties of the renderers *)

(** ** The registry *)

(** Every entry of the registry is a time series summarised by its last
    reading, its average or its total, or a scalar; ["sleep"] and
    ["motion"] have no entry. *)
Lemma registry_kinds type_ config :
  metricRegistry !! type_ = Some config ->
  (MetricConfig.MetricType config = "timeseries"
   /\ (MetricConfig.Field config = "last" \/ MetricConfig.Field config = "avg"
       \/ MetricConfig.Field config = "total"))
  \/ MetricConfig.MetricType config = "simple".
Proof.
  intros Hreg%elem_of_map_to_list%list_elem_of_In.
  assert (forallb
            (fun kv : string * MetricConfig.t =>
               (String.eqb (MetricConfig.MetricType kv.2) "timeseries"
                && (String.eqb (MetricConfig.Field kv.2) "last"
                    || String.eqb (MetricConfig.Field kv.2) "avg"
                    || String.eqb (MetricConfig.Field kv.2) "total"))
               || String.eqb (MetricConfig.MetricType kv.2) "simple")
            (map_to_list metricRegistry) = true) as Hall by (vm_compute; reflexivity).
  rewrite forallb_forall in Hall. specialize (Hall _ Hreg). simpl in Hall.
  apply orb_true_iff in Hall as [[Hts Hfield]%andb_true_iff|Hsimple].
  - left. split; [by apply String.eqb_eq|].
    apply orb_true_iff in Hfield as [[Hl|Ha]%orb_true_iff|Ht].
    + left. by apply String.eqb_eq.
    + right. left. by apply String.eqb_eq.
    + right. right. by apply String.eqb_eq.
  - right. by apply String.eqb_eq.
Qed.

Lemma registered_type_is_plain type_ config :
  metricRegistry !! type_ = Some config ->
  String.eqb type_ "sleep" = false /\ String.eqb type_ "motion" = false.
Proof.
  intros Hreg. split; apply String.eqb_neq; intros ->.
  - rewrite registry_sleep in Hreg. discriminate.
  - rewrite registry_motion in Hreg. discriminate.
Qed.

(** ** getMetricValue *)

Lemma getMetricValue_skip m rest type_ :
  Metric.Type_ m <> type_ -> getMetricValue (m :: rest) type_ = getMetricValue rest type_.
Proof.
  intros Hne%String.eqb_neq. cbn [getMetricValue]. by rewrite Hne.
Qed.

(** The first envelope of the requested type decides the answer. *)
Lemma getMetricValue_decided m rest rest' type_ :
  Metric.Type_ m = type_ ->
  getMetricValue (m :: rest) type_ = getMetricValue (m :: rest') type_.
Proof.
  intros Htype. cbn [getMetricValue]. rewrite Htype, String.eqb_refl. cbn [negb].
  destruct (String.eqb type_ "sleep"); [reflexivity|].
  destruct (String.eqb type_ "motion"); [reflexivity|].
  destruct (metricRegistry !! type_) as [config|] eqn:Hreg; [|reflexivity].
  destruct (registry_kinds type_ config Hreg) as [[-> _]| ->]; reflexivity.
Qed.

(** X10.  [getMetricValue] answers for the first envelope of the requested
    type and never looks at the envelopes after it; it answers "not found"
    when the list has no envelope of that type, and, for a type other than
    ["sleep"] and ["motion"] that the registry does not know, also when it
    has one. *)
Theorem getMetricValue_first_match_or_not_found
    (before after : list Metric.t) (m : Metric.t) (type_ : string) :
  (forall m', m' ∈ before -> Metric.Type_ m' <> type_) ->
  (Metric.Type_ m = type_ ->
   getMetricValue (before ++ m :: after) type_ = getMetricValue [m] type_)
  /\ getMetricValue before type_ = Lit "not found"
  /\ (type_ <> "sleep" -> type_ <> "motion" -> metricRegistry !! type_ = None ->
      getMetricValue (before ++ m :: after) type_ = Lit "not found").
Proof.
  intros Hbefore.
  assert (forall rest, getMetricValue (before ++ rest) type_ = getMetricValue rest type_)
    as Hskip.
  { intros rest. induction before as [|m' before IH]; [reflexivity|].
    rewrite <- app_comm_cons, getMetricValue_skip.
    - apply IH. intros m'' Hm''. apply Hbefore, elem_of_cons. by right.
    - apply Hbefore, elem_of_cons. by left. }
  split; [|split].
  - intros Htype. rewrite Hskip. by apply getMetricValue_decided.
  - specialize (Hskip []). rewrite app_nil_r in Hskip. exact Hskip.
  - intros Hsleep%String.eqb_neq Hmotion%String.eqb_neq Hreg. rewrite Hskip.
    clear Hskip Hbefore. generalize (m :: after). clear m after.
    intros l. induction l as [|m l IH]; [reflexivity|].
    destruct (String.eqb_spec (Metric.Type_ m) type_) as [Htype|Hne].
    + rewrite (getMetricValue_decided m l [] type_ Htype).
      cbn [getMetricValue]. rewrite Hsleep, Hmotion, Hreg. by destruct (negb _).
    + by rewrite getMetricValue_skip.
Qed.

Lemma getMetricValue_first_match_or_not_found_witness :
  let first := Samples.scalar "recovery" (Samples.integer 80) in
  let second := Samples.scalar "recovery" (Samples.integer 55) in
  let other := Samples.series "hr" [Samples.reading 70 1000] in
  getMetricValue [other; first; second] "recovery" = Sprintf "%.0f" [AFloat 80]
  /\ getMetricValue [other] "recovery" = Lit "not found".
Proof.
  intros first second other.
  assert (forall m', m' ∈ [other] -> Metric.Type_ m' <> "recovery") as Hbefore.
  { intros m' ->%list_elem_of_singleton. discriminate. }
  destruct (getMetricValue_first_match_or_not_found [other] [second] first "recovery" Hbefore)
    as (Hfirst & Hnone & _).
  split; [|exact Hnone].
  etrans; [exact (Hfirst eq_refl)|]. vm_compute. reflexivity.
Defined.

(** ** displayMetric *)

(** X11.  For a scalar of the registry the two renderers agree on what
    counts as no data: [displayMetric] prints nothing exactly when
    [getMetricValue] answers "null"; otherwise it prints two lines, the
    section header and the value. *)
Theorem scalar_renderers_agree
    (m : Metric.t) (config : MetricConfig.t) (rest : list Metric.t) :
  metricRegistry !! Metric.Type_ m = Some config ->
  MetricConfig.MetricType config = "simple" ->
  (displayMetric m = [] <-> getMetricValue (m :: rest) (Metric.Type_ m) = Lit "null")
  /\ (displayMetric m = [] \/ length (displayMetric m) = 2%nat).
Proof.
  intros Hreg Htype.
  destruct (simple_type_is_plain _ config Hreg Htype) as (Hsleep & Hmotion & Hsteps).
  cbn [getMetricValue]. unfold displayMetric.
  rewrite String.eqb_refl, Hsleep, Hmotion, Hsteps, Hreg, Htype. cbn [negb].
  change (String.eqb "simple" "timeseries") with false.
  change (String.eqb "simple" "simple") with true. cbv iota.
  destruct (unmarshalSimple (Metric.Object m)) as [v|]; [|split; [done|by left]].
  destruct (SimpleMetric.Value v) as [value|]; [|split; [done|by left]].
  split; [|by right]. split; [discriminate|].
  unfold formatDuration.
  destruct (MetricConfig.IsDuration config); [destruct (0 <? _); discriminate|].
  destruct (_ || _); discriminate.
Qed.

Lemma scalar_renderers_agree_witness :
  let m := Samples.scalar "total_sleep" (Samples.integer 431) in
  length (displayMetric m) = 2%nat
  /\ getMetricValue [m] "total_sleep" = Sprintf "%dh %dm" [AInt 7; AInt 11].
Proof.
  intros m.
  assert (metricRegistry !! Metric.Type_ m
          = Some (simple_ "TOTAL SLEEP" "" true "ultrahuman_total_sleep_minutes")) as Hreg
    by (vm_compute; reflexivity).
  destruct (scalar_renderers_agree m _ [] Hreg eq_refl) as [_ [Hempty|Htwo]].
  - exfalso. revert Hempty. vm_compute. discriminate.
  - split; [exact Htwo|]. vm_compute. reflexivity.
Defined.

(** X12.  A time series of the registry other than ["steps"] is displayed
    only when its payload has a title: then [displayMetric] prints the
    section header, one summary line and one line for every reading, in the
    order of the readings; without a title it prints nothing, readings or
    not. *)
Theorem titled_time_series_are_displayed
    (m : Metric.t) (config : MetricConfig.t) (v : TimeSeriesMetric.t) :
  metricRegistry !! Metric.Type_ m = Some config ->
  MetricConfig.MetricType config = "timeseries" ->
  Metric.Type_ m <> "steps" ->
  unmarshalTimeSeries (Metric.Object m) = Some v ->
  let unit_ :=
    if String.eqb (MetricConfig.Unit config) "" then TimeSeriesMetric.Unit v
    else MetricConfig.Unit config in
  (TimeSeriesMetric.Title v = "" -> displayMetric m = [])
  /\ (TimeSeriesMetric.Title v <> "" ->
      exists summary,
        displayMetric m
        = printSection (MetricConfig.DisplayName config) :: summary
          :: map (displayReading config (Metric.Type_ m) unit_) (TimeSeriesMetric.Values v)
        /\ length (displayMetric m) = (2 + length (TimeSeriesMetric.Values v))%nat).
Proof.
  intros Hreg Htype Hsteps%String.eqb_neq Hv unit_.
  destruct (registered_type_is_plain _ config Hreg) as [Hsleep Hmotion].
  destruct (registry_kinds _ config Hreg) as [[_ Hfield]|Hsimple];
    [|rewrite Htype in Hsimple; discriminate].
  unfold displayMetric. rewrite Hsleep, Hmotion, Hsteps, Hreg, Htype, Hv.
  change (String.eqb "timeseries" "timeseries") with true. cbv iota.
  split.
  - intros ->. reflexivity.
  - intros Htitle%String.eqb_neq. rewrite Htitle. fold unit_.
    assert (forall summary readings,
              length (printSection (MetricConfig.DisplayName config) :: summary
                      :: map (displayReading config (Metric.Type_ m) unit_) readings)
              = (2 + length readings)%nat) as Hlen.
    { intros summary readings. simpl. by rewrite length_map. }
    destruct Hfield as [->|[->| ->]].
    + change (String.eqb "last" "last") with true. cbv iota.
      destruct (String.eqb (MetricConfig.Unit config) degreesCelsius);
        eexists; (split; [reflexivity|apply Hlen]).
    + change (String.eqb "avg" "last") with false.
      change (String.eqb "avg" "avg") with true. cbv iota.
      eexists; (split; [reflexivity|apply Hlen]).
    + change (String.eqb "total" "last") with false.
      change (String.eqb "total" "avg") with false.
      change (String.eqb "total" "total") with true. cbv iota.
      eexists; (split; [reflexivity|apply Hlen]).
Qed.

Lemma titled_time_series_are_displayed_witness :
  let m := Metric.mk "hr" (Some (JObject [("values", JArray [Samples.reading 70 1000])])) in
  let v := TimeSeriesMetric.mk 0 "" [TimeValue.mk 70 1000] 0 "" "" 0 0 in
  unmarshalTimeSeries (Metric.Object m) = Some v
  /\ TimeSeriesMetric.Title v = ""
  /\ displayMetric m = [].
Proof.
  intros m v.
  assert (metricRegistry !! Metric.Type_ m = Some Samples.hr_config) as Hreg
    by (vm_compute; reflexivity).
  assert (unmarshalTimeSeries (Metric.Object m) = Some v) as Hv
    by (vm_compute; reflexivity).
  assert (Metric.Type_ m <> "steps") as Hsteps by discriminate.
  split; [exact Hv|]. split; [reflexivity|].
  exact (proj1 (titled_time_series_are_displayed m Samples.hr_config v Hreg eq_refl Hsteps Hv)
           eq_refl).
Defined.

(** ** Payloads without data *)

Lemma unmarshal_null :
  unmarshalTimeSeries (Some JNull) = Some TimeSeriesMetric.zero
  /\ unmarshalSimple (Some JNull) = Some SimpleMetric.zero
  /\ unmarshalSleep (Some JNull) = Some SleepMetric.zero.
Proof. vm_compute. done. Qed.

Lemma unmarshal_empty_object :
  unmarshalTimeSeries (Some (JObject [])) = Some TimeSeriesMetric.zero
  /\ unmarshalSimple (Some (JObject [])) = Some SimpleMetric.zero
  /\ unmarshalSleep (Some (JObject [])) = Some SleepMetric.zero.
Proof. vm_compute. done. Qed.

Lemma displayMetric_zero type_ raw :
  unmarshalTimeSeries raw = Some TimeSeriesMetric.zero ->
  unmarshalSimple raw = Some SimpleMetric.zero ->
  unmarshalSleep raw = Some SleepMetric.zero ->
  displayMetric (Metric.mk type_ raw) = [].
Proof.
  intros Hts Hsimple Hsleep. unfold displayMetric. cbn [Metric.Type_ Metric.Object].
  rewrite Hts, Hsimple, Hsleep.
  destruct (String.eqb type_ "sleep"); [reflexivity|].
  destruct (String.eqb type_ "motion"); [reflexivity|].
  destruct (String.eqb type_ "steps"); [reflexivity|].
  destruct (metricRegistry !! type_) as [config|]; [|reflexivity].
  destruct (String.eqb (MetricConfig.MetricType config) "timeseries"); [reflexivity|].
  destruct (String.eqb (MetricConfig.MetricType config) "simple"); reflexivity.
Qed.

(** X13.  Whatever its type, an envelope is not displayed when its payload
    carries no data: [displayMetric] prints nothing for a payload that
    decodes into none of the three record shapes, for the payload [null]
    and for the empty object. *)
Theorem payloads_without_data_are_not_displayed (type_ : string) (raw : RawMessage) :
  (unmarshalTimeSeries raw = None /\ unmarshalSimple raw = None /\ unmarshalSleep raw = None)
  \/ raw = Some JNull \/ raw = Some (JObject []) ->
  displayMetric (Metric.mk type_ raw) = [].
Proof.
  intros [(Hts & Hsimple & Hsleep)|[->| ->]].
  - unfold displayMetric. cbn [Metric.Type_ Metric.Object].
    rewrite Hts, Hsimple, Hsleep.
    destruct (String.eqb type_ "sleep"); [reflexivity|].
    destruct (String.eqb type_ "motion"); [reflexivity|].
    destruct (String.eqb type_ "steps"); [reflexivity|].
    destruct (metricRegistry !! type_) as [config|]; [|reflexivity].
    destruct (String.eqb (MetricConfig.MetricType config) "timeseries"); [reflexivity|].
    destruct (String.eqb (MetricConfig.MetricType config) "simple"); reflexivity.
  - destruct unmarshal_null as (Hts & Hsimple & Hsleep). by apply displayMetric_zero.
  - destruct unmarshal_empty_object as (Hts & Hsimple & Hsleep). by apply displayMetric_zero.
Qed.

Lemma payloads_without_data_are_not_displayed_witness :
  let raw := Some (JArray [JNumber {| asFloat := Some 72%float; asInt := Some 72 |}]) in
  (unmarshalTimeSeries raw = None /\ unmarshalSimple raw = None /\ unmarshalSleep raw = None)
  /\ displayMetric (Metric.mk "hr" raw) = [].
Proof.
  intros raw.
  assert (unmarshalTimeSeries raw = None /\ unmarshalSimple raw = None
          /\ unmarshalSleep raw = None) as Hnone by (vm_compute; done).
  split; [exact Hnone|].
  exact (payloads_without_data_are_not_displayed "hr" raw (or_introl Hnone)).
Defined.

(** X14.  Asked for a time series whose first envelope has the payload
    [null] or the empty object, [getMetricValue] answers the number zero,
    formatted as any other value of that series, and not "null": the
    summary field it reads is the zero of the fresh record. *)
Theorem time_series_without_data_answer_zero
    (type_ : string) (config : MetricConfig.t) (raw : RawMessage) (rest : list Metric.t) :
  metricRegistry !! type_ = Some config ->
  MetricConfig.MetricType config = "timeseries" ->
  raw = Some JNull \/ raw = Some (JObject []) ->
  getMetricValue (Metric.mk type_ raw :: rest) type_
  = Sprintf (if String.eqb (MetricConfig.Unit config) degreesCelsius then "%.1f" else "%.0f")
      [AFloat 0].
Proof.
  intros Hreg Htype Hraw.
  destruct (registered_type_is_plain _ config Hreg) as [Hsleep Hmotion].
  assert (unmarshalTimeSeries raw = Some TimeSeriesMetric.zero) as Hv.
  { destruct Hraw as [->| ->]; [apply unmarshal_null|apply unmarshal_empty_object]. }
  cbn [getMetricValue Metric.Type_ Metric.Object].
  rewrite String.eqb_refl, Hsleep, Hmotion, Hreg, Htype, Hv. cbn [negb].
  change (String.eqb "timeseries" "timeseries") with true. cbv iota.
  cbn [TimeSeriesMetric.LastReading TimeSeriesMetric.Avg TimeSeriesMetric.Total
       TimeSeriesMetric.zero].
  destruct (String.eqb (MetricConfig.Field config) "last");
    [|destruct (String.eqb (MetricConfig.Field config) "avg");
      [|destruct (String.eqb (MetricConfig.Field config) "total")]];
    destruct (String.eqb (MetricConfig.Unit config) degreesCelsius); reflexivity.
Qed.

Lemma time_series_without_data_answer_zero_witness :
  getMetricValue [Metric.mk "temp" (Some JNull)] "temp" = Sprintf "%.1f" [AFloat 0].
Proof.
  assert (metricRegistry !! "temp"
          = Some (timeseries_ "last" "SKIN TEMPERATURE" degreesCelsius
                    "ultrahuman_skin_temperature_celsius")) as Hreg
    by (vm_compute; reflexivity).
  exact (time_series_without_data_answer_zero "temp" _ (Some JNull) [] Hreg eq_refl
           (or_introl eq_refl)).
Defined.

(** ** formatDuration *)

(** X15.  [formatDuration] splits the whole minutes [n] of its argument
    into hours and minutes.  From 60 minutes on it prints both, with the
    minutes below 60 and [60 * h + m = n]; below 60 it prints the minutes
    alone.  For a negative [n] the hour test fails and only the remainder of
    the division by 60 is printed, a number between -59 and 0: the hours of
    a negative duration are dropped. *)
Theorem formatDuration_splits_minutes (minutes : float) :
  let n := intOfFloat64 minutes in
  (60 <= n ->
   exists h m,
     formatDuration minutes = Sprintf "%dh %dm" [AInt h; AInt m]
     /\ 0 < h /\ 0 <= m < 60 /\ n = 60 * h + m)
  /\ (0 <= n < 60 -> formatDuration minutes = Sprintf "%dm" [AInt n])
  /\ (n < 0 ->
      exists h m,
        formatDuration minutes = Sprintf "%dm" [AInt m]
        /\ h <= 0 /\ -60 < m <= 0 /\ n = 60 * h + m).
Proof.
  intros n. unfold formatDuration. fold n.
  pose proof (Z.quot_rem' n 60) as Hsplit.
  split; [|split].
  - intros Hn. exists (Z.quot n 60), (Z.rem n 60).
    pose proof (Z.rem_bound_pos n 60 ltac:(lia) ltac:(lia)) as Hrem.
    assert (0 < Z.quot n 60) as Hq by (apply Z.quot_str_pos; lia).
    destruct (Z.ltb_spec 0 (Z.quot n 60)); [|lia].
    repeat split; lia.
  - intros Hn. rewrite Z.quot_small, Z.rem_small by lia. reflexivity.
  - intros Hn. exists (Z.quot n 60), (Z.rem n 60).
    pose proof (Z.rem_nonpos n 60 ltac:(lia) ltac:(lia)) as Hrem.
    pose proof (Z.rem_bound_abs n 60 ltac:(lia)) as Habs.
    destruct (Z.ltb_spec 0 (Z.quot n 60)); [lia|].
    repeat split; lia.
Qed.

Lemma formatDuration_splits_minutes_witness :
  intOfFloat64 (-90)%float = -90
  /\ formatDuration (-90)%float = Sprintf "%dm" [AInt (-30)].
Proof.
  assert (intOfFloat64 (-90)%float = -90) as Hn by (vm_compute; reflexivity).
  split; [exact Hn|].
  destruct (proj2 (proj2 (formatDuration_splits_minutes (-90)%float)))
    as (h & m & Heq & Hh & Hm & Hsum); [rewrite Hn; lia|].
  rewrite Hn in Hsum. assert (m = -30) as -> by lia. exact Heq.
Defined.

(** * Properties of the server and of the commands *)

(** ** Polls *)






(** The actions of the server, by kind. *)
Lemma served_kinds token port interval remoteWriteURL host st :
  let actions := served (startMetricsPusher token port interval remoteWriteURL host st) in
  (forall url date sent,
     Request url date sent ∈ actions -> url = baseURL /\ sent = token /\ remoteWriteURL <> "")
  /\ (forall code, Exit code ∉ actions)
  /\ (forall line, Print line ∉ actions)
  /\ (forall message,
        Fatal message ∈ actions -> exists before, actions = before ++ [Fatal message])
  /\ (Panic ∈ actions ->
      remoteWriteURL <> "" /\ tickerStarted host = true /\ tickerPeriod interval <= 0
      /\ exists before, actions = before ++ [Panic]).
Proof.
  intros actions. subst actions. unfold startMetricsPusher.
  destruct (String.eqb_spec remoteWriteURL "") as [->|Hurl].
  { cbn [served]. split; [|split; [|split; [|split]]].
    - intros url date sent Hin. apply list_elem_of_singleton in Hin. discriminate Hin.
    - intros code Hin. apply list_elem_of_singleton in Hin. discriminate Hin.
    - intros line Hin. apply list_elem_of_singleton in Hin. discriminate Hin.
    - intros message Hin. apply list_elem_of_singleton in Hin. injection Hin as ->.
      by exists [].
    - intros Hin. apply list_elem_of_singleton in Hin. discriminate Hin. }
  set (listened := match ListenAndServe host (Sprintf ":%d" [AInt port]) with
                   | Some err => [Fatal (Lit err)]
                   | None => []
                   end).
  assert (forall a, a ∈ listened -> exists err, a = Fatal (Lit err) /\ listened = [a])
    as Hlistened.
  { intros a Hin. subst listened. destruct (ListenAndServe host _) as [err|].
    - apply list_elem_of_singleton in Hin as ->. by exists err.
    - inversion Hin. }
  set (requests := map (fun p : string * poll => Request baseURL p.1 token) (tickPolls host)).
  assert (forall a, a ∈ requests -> exists date, a = Request baseURL date token) as Hrequests.
  { intros a (p & -> & _)%list_elem_of_fmap. by eexists. }
  destruct (tickerStarted host); [destruct (Z.leb_spec (tickerPeriod interval) 0)|];
    cbn [served].
  - split; [|split; [|split; [|split]]].
    + intros url date sent Hin. apply elem_of_cons in Hin as [Hin|Hin].
      * by injection Hin as -> _ ->.
      * apply list_elem_of_singleton in Hin. discriminate Hin.
    + intros code Hin. apply elem_of_cons in Hin as [Hin|Hin]; [discriminate Hin|].
      apply list_elem_of_singleton in Hin. discriminate Hin.
    + intros line Hin. apply elem_of_cons in Hin as [Hin|Hin]; [discriminate Hin|].
      apply list_elem_of_singleton in Hin. discriminate Hin.
    + intros message Hin. apply elem_of_cons in Hin as [Hin|Hin]; [discriminate Hin|].
      apply list_elem_of_singleton in Hin. discriminate Hin.
    + intros _. do 3 (split; [done|]). by eexists [_].
  - split; [|split; [|split; [|split]]].
    + intros url date sent Hin. apply elem_of_cons in Hin as [Hin|Hin].
      { by injection Hin as -> _ ->. }
      apply elem_of_app in Hin as [Hin|Hin].
      * apply Hrequests in Hin as (date' & Hin). by injection Hin as -> _ ->.
      * apply Hlistened in Hin as (err & Hin & _). discriminate Hin.
    + intros code Hin. apply elem_of_cons in Hin as [Hin|Hin]; [discriminate Hin|].
      apply elem_of_app in Hin as [Hin|Hin].
      * apply Hrequests in Hin as (date' & Hin). discriminate Hin.
      * apply Hlistened in Hin as (err & Hin & _). discriminate Hin.
    + intros line Hin. apply elem_of_cons in Hin as [Hin|Hin]; [discriminate Hin|].
      apply elem_of_app in Hin as [Hin|Hin].
      * apply Hrequests in Hin as (date' & Hin). discriminate Hin.
      * apply Hlistened in Hin as (err & Hin & _). discriminate Hin.
    + intros message Hin. apply elem_of_cons in Hin as [Hin|Hin]; [discriminate Hin|].
      apply elem_of_app in Hin as [Hin|Hin].
      * apply Hrequests in Hin as (date' & Hin). discriminate Hin.
      * apply Hlistened in Hin as (err & _ & ->). by eexists (_ :: requests).
    + intros Hin. apply elem_of_cons in Hin as [Hin|Hin]; [discriminate Hin|].
      apply elem_of_app in Hin as [Hin|Hin].
      * apply Hrequests in Hin as (date' & Hin). discriminate Hin.
      * apply Hlistened in Hin as (err & Hin & _). discriminate Hin.
  - split; [|split; [|split; [|split]]].
    + intros url date sent Hin. apply elem_of_cons in Hin as [Hin|Hin].
      { by injection Hin as -> _ ->. }
      apply Hlistened in Hin as (err & Hin & _). discriminate Hin.
    + intros code Hin. apply elem_of_cons in Hin as [Hin|Hin]; [discriminate Hin|].
      apply Hlistened in Hin as (err & Hin & _). discriminate Hin.
    + intros line Hin. apply elem_of_cons in Hin as [Hin|Hin]; [discriminate Hin|].
      apply Hlistened in Hin as (err & Hin & _). discriminate Hin.
    + intros message Hin. apply elem_of_cons in Hin as [Hin|Hin]; [discriminate Hin|].
      apply Hlistened in Hin as (err & _ & ->). by eexists [_].
    + intros Hin. apply elem_of_cons in Hin as [Hin|Hin]; [discriminate Hin|].
      apply Hlistened in Hin as (err & Hin & _). discriminate Hin.
Qed.

(** X17.  [startMetricsPusher] refuses to start without a remote-write URL:
    it ends in [log.Fatal] before any poll and without listening.  With a
    URL it polls once, with the token, and then starts the ticker and the
    listener on the port.  When the ticker is reached and the interval is
    from -9223372036 to 0 seconds, or from 9223372037 to 18446744073
    seconds, whose period in nanoseconds wraps around to a negative
    [int64], the period is not positive and the ticker panics after the
    initial poll.  For an interval from 1 to 9223372036 seconds the period
    is the interval in nanoseconds, the polls of the ticks follow the
    initial one, and the server ends in [log.Fatal] with the listener's
    error when the listener returns one.  When the listener fails before
    the ticker is reached, the server ends in [log.Fatal] after the initial
    poll alone, whatever the interval.  A panic is only ever that of a
    period that is not positive. *)
Theorem serve_needs_url_and_positive_period
    (token : string) (port interval : Z) (remoteWriteURL : string) (host : Host)
    (st : State) :
  let started := startMetricsPusher token port interval remoteWriteURL host st in
  let initial := Request baseURL (initialPoll host).1 token in
  let polled := pollOnce remoteWriteURL st (initialPoll host).2 in
  let listened :=
    match ListenAndServe host (Sprintf ":%d" [AInt port]) with
    | Some err => [Fatal (Lit err)]
    | None => []
    end in
  (remoteWriteURL = "" ->
   started
   = mkServing [Fatal (Lit "--remote-write-url is required for serve mode")] st)
  /\ (remoteWriteURL <> "" -> tickerStarted host = true ->
      (-9223372036 <= interval <= 0 \/ 9223372037 <= interval <= 18446744073) ->
      tickerPeriod interval <= 0
      /\ started = mkServing [initial; Panic] polled)
  /\ (remoteWriteURL <> "" -> tickerStarted host = true ->
      1 <= interval <= 9223372036 ->
      tickerPeriod interval = interval * 1000000000
      /\ started
         = mkServing
             (initial :: map (fun p => Request baseURL p.1 token) (tickPolls host)
              ++ listened)
             (foldl (pollOnce remoteWriteURL) polled (tickPolls host).*2))
  /\ (remoteWriteURL <> "" -> tickerStarted host = false ->
      started = mkServing (initial :: listened) polled)
  /\ (Panic ∈ served started -> tickerPeriod interval <= 0).
Proof.
  intros started initial polled listened.
  split; [|split; [|split; [|split]]].
  - intros ->. reflexivity.
  - intros Hurl%String.eqb_neq Hstarted Hinterval.
    assert (tickerPeriod interval <= 0) as Hperiod.
    { unfold tickerPeriod, mul64, wrap64. destruct Hinterval as [Hneg|Hbig].
      - rewrite Z.mod_small by lia. lia.
      - replace ((interval * 1000000000 + 2 ^ 63) mod 2 ^ 64)
          with (interval * 1000000000 + 2 ^ 63 - 2 ^ 64); [lia|].
        apply Z.mod_unique with (q := 1); lia. }
    split; [exact Hperiod|].
    subst started. unfold startMetricsPusher. rewrite Hurl, Hstarted.
    destruct (Z.leb_spec (tickerPeriod interval) 0); [reflexivity|lia].
  - intros Hurl%String.eqb_neq Hstarted Hinterval.
    assert (tickerPeriod interval = interval * 1000000000) as Hperiod.
    { unfold tickerPeriod, mul64, wrap64. rewrite Z.mod_small by lia. lia. }
    split; [exact Hperiod|].
    subst started. unfold startMetricsPusher. rewrite Hurl, Hstarted.
    destruct (Z.leb_spec (tickerPeriod interval) 0); [lia|reflexivity].
  - intros Hurl%String.eqb_neq Hstarted.
    subst started. unfold startMetricsPusher. rewrite Hurl, Hstarted. reflexivity.
  - intros Hin.
    by destruct (proj2 (proj2 (proj2 (proj2
         (served_kinds token port interval remoteWriteURL host st)))) Hin)
      as (_ & _ & Hperiod & _).
Qed.

Lemma serve_needs_url_and_positive_period_witness :
  startMetricsPusher "secret" 8080 0 "http://localhost:9090/api/v1/write"
    Hosts.listening initialState
  = mkServing [Request baseURL "2024-05-02" "secret"; Panic]
      (pollOnce "http://localhost:9090/api/v1/write" initialState Hosts.ok)
  /\ startMetricsPusher "secret" 8080 60 "http://localhost:9090/api/v1/write"
       Hosts.taken initialState
     = mkServing
         [Request baseURL "2024-05-02" "secret";
          Fatal (Lit "listen tcp :8080: bind: address already in use")]
         (pollOnce "http://localhost:9090/api/v1/write" initialState Hosts.ok).
Proof.
  assert ("http://localhost:9090/api/v1/write" <> "") as Hurl by discriminate.
  assert (-9223372036 <= 0 <= 0 \/ 9223372037 <= 0 <= 18446744073) as Hinterval
    by (left; lia).
  split.
  - exact (proj2 (proj1 (proj2 (serve_needs_url_and_positive_period
                                  "secret" 8080 0 "http://localhost:9090/api/v1/write"
                                  Hosts.listening initialState))
                    Hurl eq_refl Hinterval)).
  - exact (proj1 (proj2 (proj2 (proj2 (serve_needs_url_and_positive_period
                                  "secret" 8080 60 "http://localhost:9090/api/v1/write"
                                  Hosts.taken initialState))))
             Hurl eq_refl).
Defined.

(** ** main *)




(** X19.  Asked for one metric, with a token and a response without an API
    error, [main] makes its request and prints one line: the answer of
    [getMetricValue] on the metrics of the date that [range] yields first,
    which is a date of the response; when the response has no date the line
    is "not found". *)
Theorem main_answers_from_one_date
    (flags : Flags.t) (arg : string) (args : list string) (env today : string)
    (resp : APIResponse.t) (yielded displayed : list (string * list Metric.t))
    (host : Host) :
  let token := if String.eqb (Flags.apiToken flags) "" then env else Flags.apiToken flags in
  let actions := main flags (arg :: args) env today (inr resp) yielded displayed host in
  arg <> "help" -> arg <> "serve" -> token <> "" ->
  APIResponse.Error resp = None ->
  rangeOrder (Data.Metrics (APIResponse.Data_ resp)) yielded ->
  (Data.Metrics (APIResponse.Data_ resp) = ∅ ->
   actions = [Request baseURL today token; Print (Sprintf "%v\n" [AText (Lit "not found")])])
  /\ (forall date metrics rest,
        yielded = (date, metrics) :: rest ->
        actions = [Request baseURL today token;
                   Print (Sprintf "%v\n" [AText (getMetricValue metrics arg)])]
        /\ Data.Metrics (APIResponse.Data_ resp) !! date = Some metrics).
Proof.
  intros token actions Hhelp%String.eqb_neq Hserve%String.eqb_neq Htoken%String.eqb_neq
    Herr Horder.
  subst actions. unfold main. cbn [firstArgIs]. fold token.
  rewrite Hhelp, Htoken, Hserve, Herr. unfold rangeOrder in Horder. split.
  - intros Hempty. rewrite Hempty, map_to_list_empty in Horder.
    symmetry in Horder. apply Permutation_nil in Horder as ->. reflexivity.
  - intros date metrics rest ->. split; [reflexivity|].
    apply elem_of_map_to_list. rewrite <- Horder. apply elem_of_cons. by left.
Qed.

Lemma main_answers_from_one_date_witness :
  let flags := Flags.mk "secret" 8080 60 "" in
  let resp := APIResponse.mk (Data.mk (<["2024-05-02" := TwoDates.today]> ∅) "UTC") None 200 in
  main flags ["hr"] "" "2024-05-02" (inr resp) [("2024-05-02", TwoDates.today)] []
    Hosts.listening
  = [Request baseURL "2024-05-02" "secret";
     Print (Sprintf "%v\n" [AText (Sprintf "%.0f" [AFloat 0])])].
Proof.
  intros flags resp.
  assert (rangeOrder (Data.Metrics (APIResponse.Data_ resp)) [("2024-05-02", TwoDates.today)])
    as Horder by (unfold rangeOrder; vm_compute; reflexivity).
  destruct (proj2 (main_answers_from_one_date flags "hr" [] "" "2024-05-02" resp
                     [("2024-05-02", TwoDates.today)] [] Hosts.listening
                     ltac:(discriminate) ltac:(discriminate) ltac:(discriminate)
                     eq_refl Horder) "2024-05-02" TwoDates.today [] eq_refl)
    as [Heq _].
  etrans; [exact Heq|]. vm_compute. reflexivity.
Defined.

(** ** displayMetrics *)

(** X20.  Whatever order [range] yields the dates in, [displayMetrics]
    prints the same lines, up to the order of the dates: two outcomes are
    permutations of each other and have the same length.  Every outcome
    opens with the three header lines, closes with the rule, and holds, for
    each date of the response, the date line, a rule and what
    [displayMetric] prints for its envelopes, in their order.  Without dates
    it prints the header and the closing rule only. *)
Theorem displayMetrics_is_order_independent
    (resp : APIResponse.t) (out out' : list text) :
  displayMetrics resp out ->
  displayMetrics resp out' ->
  out ≡ₚ out'
  /\ length out = length out'
  /\ (exists body,
        out = [println doubleRule;
               Sprintf "  ULTRAHUMAN METRICS | Timezone: %s\n"
                 [AText (Lit (Data.LatestTimeZone (APIResponse.Data_ resp)))];
               println doubleRule] ++ body ++ [println closingRule]
        /\ forall date metrics,
             Data.Metrics (APIResponse.Data_ resp) !! date = Some metrics ->
             exists before after,
               body = before ++ displayDate (date, metrics) ++ after)
  /\ (Data.Metrics (APIResponse.Data_ resp) = ∅ -> length out = 4%nat).
Proof.
  intros (order & Horder & ->) (order' & Horder' & ->).
  unfold rangeOrder in *.
  assert (order ≡ₚ order') as Hperm by (by rewrite Horder, Horder').
  assert (displayMetricsIn order resp ≡ₚ displayMetricsIn order' resp) as Hout.
  { unfold displayMetricsIn. apply Permutation_app_head, Permutation_app_tail.
    by apply Permutation_flat_map. }
  split; [exact Hout|]. split; [by apply Permutation_length|]. split.
  - exists (flat_map displayDate order). split; [reflexivity|].
    intros date metrics Hdate.
    apply elem_of_map_to_list in Hdate. rewrite <- Horder in Hdate.
    apply list_elem_of_split in Hdate as (l1 & l2 & ->).
    exists (flat_map displayDate l1), (flat_map displayDate l2).
    rewrite flat_map_app. reflexivity.
  - intros Hempty. rewrite Hempty, map_to_list_empty in Horder.
    symmetry in Horder. apply Permutation_nil in Horder as ->. reflexivity.
Qed.

Lemma displayMetrics_is_order_independent_witness :
  let first := displayMetricsIn
                 [("2024-05-01", TwoDates.yesterday); ("2024-05-02", TwoDates.today)]
                 TwoDates.resp in
  let second := displayMetricsIn
                  [("2024-05-02", TwoDates.today); ("2024-05-01", TwoDates.yesterday)]
                  TwoDates.resp in
  displayMetrics TwoDates.resp first
  /\ displayMetrics TwoDates.resp second
  /\ first ≡ₚ second
  /\ first <> second.
Proof.
  intros first second.
  assert (displayMetrics TwoDates.resp first) as H1.
  { eexists. split; [|reflexivity]. unfold rangeOrder. vm_compute.
    apply perm_swap || reflexivity. }
  assert (displayMetrics TwoDates.resp second) as H2.
  { eexists. split; [|reflexivity]. unfold rangeOrder. vm_compute.
    reflexivity || apply perm_swap. }
  split; [exact H1|]. split; [exact H2|].
  split; [exact (proj1 (displayMetrics_is_order_independent TwoDates.resp first second H1 H2))|].
  vm_compute. discriminate.
Defined.

(** ** Write *)

Lemma status_is_2xx code : Z.quot code 100 = 2 <-> 200 <= code <= 299.
Proof.
  pose proof (Z.quot_rem' code 100) as Hsplit.
  pose proof (Z.rem_bound_abs code 100 ltac:(lia)) as Habs.
  split.
  - intros Hq. rewrite Hq in Hsplit.
    destruct (Z.le_gt_cases 0 code) as [Hpos|Hneg].
    + pose proof (Z.rem_nonneg code 100 ltac:(lia) Hpos). lia.
    + pose proof (Z.rem_nonpos code 100 ltac:(lia) ltac:(lia)). lia.
  - intros Hcode. pose proof (Z.rem_nonneg code 100 ltac:(lia) ltac:(lia)). lia.
Qed.

(** X21.  [Write] returns nil exactly when the batch marshals, the request
    can be built, the endpoint is reached and it answers with a status from
    200 to 299; a status of 199 or less and of 300 or more is an error that
    carries the status and the body.  It sends at most one request, none
    when marshalling or building the request fails: a POST to the client's
    URL whose body is the compressed marshalled batch, with the content
    type, the content encoding and the remote-write version set. *)
Theorem write_succeeds_exactly_on_2xx
    (net : Transport) (url : string) (timeseries : list TimeSeries.t) :
  let result := Write net url timeseries in
  (writeError result = None <->
   exists data req resp,
     Marshal net timeseries = inr data
     /\ NewRequestError net "POST" url = None
     /\ sent result = [req]
     /\ Do net req = inr resp
     /\ 200 <= HTTP.StatusCode resp <= 299)
  /\ (forall req, req ∈ sent result ->
        sent result = [req]
        /\ HTTP.Method req = "POST" /\ HTTP.URL req = url
        /\ (exists data, Marshal net timeseries = inr data
                         /\ HTTP.Body req = SnappyEncode net data)
        /\ HTTP.Header req !! "Content-Type" = Some ["application/x-protobuf"]
        /\ HTTP.Header req !! "Content-Encoding" = Some ["snappy"]
        /\ HTTP.Header req !! "X-Prometheus-Remote-Write-Version" = Some ["0.1.0"])
  /\ (forall req resp,
        sent result = [req] -> Do net req = inr resp ->
        ~ 200 <= HTTP.StatusCode resp <= 299 ->
        writeError result
        = Some (Sprintf "remote write failed with status %d: %s"
                  [AInt (HTTP.StatusCode resp); AText (Lit (HTTP.ResponseBody resp))])).
Proof.
  intros result. subst result. unfold Write.
  destruct (Marshal net timeseries) as [err|data] eqn:Hmarshal.
  { split; [split; [discriminate|intros (? & ? & ? & ? & _); discriminate]|].
    split; [intros req Hin; inversion Hin|]. intros req resp Hsent. discriminate Hsent. }
  destruct (NewRequestError net "POST" url) as [err|] eqn:Hnew.
  { split; [split; [discriminate|intros (? & ? & ? & _ & ? & _); discriminate]|].
    split; [intros req Hin; inversion Hin|]. intros req resp Hsent. discriminate Hsent. }
  set (httpReq := HTTP.mkRequest _ _ _ _).
  assert (forall result : WriteResult,
            sent result = [httpReq] ->
            forall req, req ∈ sent result ->
              sent result = [req]
              /\ HTTP.Method req = "POST" /\ HTTP.URL req = url
              /\ (exists data', @inr string string data = inr data'
                                /\ HTTP.Body req = SnappyEncode net data')
              /\ HTTP.Header req !! "Content-Type" = Some ["application/x-protobuf"]
              /\ HTTP.Header req !! "Content-Encoding" = Some ["snappy"]
              /\ HTTP.Header req !! "X-Prometheus-Remote-Write-Version" = Some ["0.1.0"])
    as Hsent.
  { intros result -> req ->%list_elem_of_singleton.
    split; [reflexivity|]. split; [reflexivity|]. split; [reflexivity|].
    split; [by exists data|]. subst httpReq. cbn [HTTP.Header].
    split; [|split]; by simplify_map_eq. }
  destruct (Do net httpReq) as [err|resp] eqn:Hdo.
  { split; [split; [discriminate|]|split; [by apply Hsent|]].
    - intros (? & req & ? & _ & _ & [= <-] & Hdo' & _). rewrite Hdo in Hdo'. discriminate.
    - intros req resp [= <-] Hdo'. rewrite Hdo in Hdo'. discriminate. }
  destruct (Z.eqb_spec (Z.quot (HTTP.StatusCode resp) 100) 2) as [Hq|Hq]; cbn [negb].
  - apply status_is_2xx in Hq.
    split; [split; [intros _; by exists data, httpReq, resp|done]|].
    split; [by apply Hsent|].
    intros req resp' [= <-] Hdo'. rewrite Hdo in Hdo'. injection Hdo' as <-. done.
  - split; [split; [discriminate|]|split; [by apply Hsent|]].
    + intros (? & req & resp' & _ & _ & [= <-] & Hdo' & Hcode).
      rewrite Hdo in Hdo'. injection Hdo' as <-. by apply status_is_2xx in Hcode.
    + intros req resp' [= <-] Hdo'. rewrite Hdo in Hdo'. by injection Hdo' as <-.
Qed.

Lemma write_succeeds_exactly_on_2xx_witness :
  let net (code : Z) :=
    {| Marshal := fun _ => inr "bytes";
       SnappyEncode := fun data => data;
       NewRequestError := fun _ _ => None;
       Do := fun _ => inr (HTTP.mkResponse code "out of order sample") |} in
  writeError (Write (net 204) "http://localhost:9090/api/v1/write" []) = None
  /\ writeError (Write (net 300) "http://localhost:9090/api/v1/write" [])
     = Some (Sprintf "remote write failed with status %d: %s"
               [AInt 300; AText (Lit "out of order sample")]).
Proof.
  intros net. split.
  - apply (proj1 (write_succeeds_exactly_on_2xx (net 204) _ [])).
    eexists _, _, _. repeat split; try reflexivity; simpl; lia.
  - refine (proj2 (proj2 (write_succeeds_exactly_on_2xx (net 300)
                            "http://localhost:9090/api/v1/write" []))
              _ (HTTP.mkResponse 300 "out of order sample") eq_refl eq_refl _).
    simpl. lia.
Defined.

(** * Properties of the decoders *)

#[local] Transparent unmarshalTimeSeries.

Lemma names_fold key tag : names key tag = true -> foldName key = foldName tag.
Proof.
  unfold names. intros [Heq|Heq]%orb_true_iff.
  - apply String.eqb_eq in Heq. by subst.
  - by apply String.eqb_eq in Heq.
Qed.

(** A key names at most one of two tags that differ after folding. *)
Lemma names_exclusive key tag tag' :
  names key tag = true -> foldName tag <> foldName tag' -> names key tag' = false.
Proof.
  intros Htag%names_fold Hne. destruct (names key tag') eqn:Htag'; [|reflexivity].
  apply names_fold in Htag'. congruence.
Qed.

Lemma storeTimeSeriesField_keeps_values key j a a' :
  names key "values" = false ->
  storeTimeSeriesField key j a = Some a' ->
  TimeSeriesMetric.Values a'.1 = TimeSeriesMetric.Values a.1 /\ a'.2 = a.2.
Proof.
  intros Hkey. destruct a as [[ds ti vs lr un su av to] mem]. unfold storeTimeSeriesField.
  destruct (names key "day_start_timestamp").
  { destruct (storeInt64 j ds); [|discriminate]. by intros [= <-]. }
  destruct (names key "title").
  { destruct (storeString j ti); [|discriminate]. by intros [= <-]. }
  rewrite Hkey.
  destruct (names key "last_reading").
  { destruct (storeFloat64 j lr); [|discriminate]. by intros [= <-]. }
  destruct (names key "unit").
  { destruct (storeString j un); [|discriminate]. by intros [= <-]. }
  destruct (names key "subtitle").
  { destruct (storeString j su); [|discriminate]. by intros [= <-]. }
  destruct (names key "avg").
  { destruct (storeFloat64 j av); [|discriminate]. by intros [= <-]. }
  destruct (names key "total").
  { destruct (storeFloat64 j to); [|discriminate]. by intros [= <-]. }
  by intros [= <-].
Qed.

Lemma storeTimeSeries_others members a a' :
  Forall (fun kv => names kv.1 "values" = false) members ->
  storeMembers storeTimeSeriesField members a = Some a' ->
  TimeSeriesMetric.Values a'.1 = TimeSeriesMetric.Values a.1 /\ a'.2 = a.2.
Proof.
  intros Hall. revert a. induction Hall as [|kv members Hkv _ IH]; intros a.
  - by intros [= <-].
  - rewrite storeMembers_cons.
    destruct (storeTimeSeriesField kv.1 kv.2 a) as [mid|] eqn:Hmid; [|discriminate].
    simpl. intros Hrest. destruct (IH _ Hrest) as [-> ->].
    by eapply storeTimeSeriesField_keeps_values.
Qed.

Lemma storeElems_fresh elems vs :
  storeElems elems [] = Some vs ->
  Forall2 (fun j r => storeTimeValue j TimeValue.zero = Some r) elems vs.
Proof.
  revert vs. induction elems as [|j elems IH]; intros vs; simpl.
  - intros [= <-]. constructor.
  - destruct (storeTimeValue j TimeValue.zero) as [v|] eqn:Hv; [|discriminate]. simpl.
    destruct (storeElems elems []) as [vs'|]; [|discriminate].
    intros [= <-]. constructor; [exact Hv|by apply IH].
Qed.

Lemma unmarshalTimeSeries_values_array
    (before after : list (string * json)) (key : string) (elems : list json)
    (v : TimeSeriesMetric.t) :
  names key "values" = true ->
  Forall (fun kv => names kv.1 "values" = false) before ->
  Forall (fun kv => names kv.1 "values" = false) after ->
  unmarshalTimeSeries (Some (JObject (before ++ (key, JArray elems) :: after))) = Some v ->
  Forall2 (fun j r => storeTimeValue j TimeValue.zero = Some r)
    elems (TimeSeriesMetric.Values v).
Proof.
  intros Hkey Hbefore Hafter. unfold unmarshalTimeSeries, storeStruct. simpl.
  rewrite storeMembers_app.
  destruct (storeMembers storeTimeSeriesField before (TimeSeriesMetric.zero, []))
    as [[v1 mem1]|] eqn:H1; [|discriminate].
  destruct (storeTimeSeries_others _ _ _ Hbefore H1) as [Hv1 Hmem1]. simpl in Hv1, Hmem1.
  simpl. rewrite storeMembers_cons.
  destruct (storeTimeSeriesField (key, JArray elems).1 (key, JArray elems).2 (v1, mem1))
    as [[v2 mem2]|] eqn:H2; [|discriminate].
  simpl. destruct (storeMembers storeTimeSeriesField after (v2, mem2)) as [[v3 mem3]|] eqn:H3;
    [|discriminate].
  intros [= <-]. destruct (storeTimeSeries_others _ _ _ Hafter H3) as [Hv3 _].
  cbn [fst snd] in Hv3. rewrite Hv3.
  assert (Forall2 (fun j r => storeTimeValue j TimeValue.zero = Some r)
            elems (TimeSeriesMetric.Values v2)) as Hall.
  { revert H2. unfold storeTimeSeriesField. destruct v1 as [ds ti vs lr un su av to].
    simpl in Hv1. subst vs mem1. cbn [fst snd].
    rewrite (names_exclusive key "values" "day_start_timestamp" Hkey) by (vm_compute; discriminate).
    rewrite (names_exclusive key "values" "title" Hkey) by (vm_compute; discriminate).
    rewrite Hkey. unfold storeSlice. cbn [backing].
    destruct elems as [|j elems]; [intros [= <- _]; constructor|].
    destruct (storeElems (j :: elems) []) as [vs|] eqn:Hvs; [|discriminate].
    intros [= <- _]. simpl. by apply storeElems_fresh. }
  exact Hall.
Qed.

(** X22.  A time-series payload with one ["values"] member that is an
    array decodes, when it decodes, to as many readings as the array has
    elements, in the order of the array: the reading at each position is the
    decoding of the element at that position.  None is dropped, repeated or
    moved, whatever the other members are. *)
Theorem decoded_readings_follow_the_array
    (before after : list (string * json)) (key : string) (elems : list json)
    (v : TimeSeriesMetric.t) :
  names key "values" = true ->
  Forall (fun kv => names kv.1 "values" = false) before ->
  Forall (fun kv => names kv.1 "values" = false) after ->
  unmarshalTimeSeries (Some (JObject (before ++ (key, JArray elems) :: after))) = Some v ->
  length (TimeSeriesMetric.Values v) = length elems
  /\ Forall2 (fun j r => storeTimeValue j TimeValue.zero = Some r)
       elems (TimeSeriesMetric.Values v).
Proof.
  intros Hkey Hbefore Hafter Hv.
  pose proof (unmarshalTimeSeries_values_array before after key elems v
                Hkey Hbefore Hafter Hv) as Hall.
  split; [symmetry; by eapply Forall2_length|exact Hall].
Qed.

Lemma decoded_readings_follow_the_array_witness :
  let elems := [Samples.reading 70 1005; JNull; Samples.reading 72 1000] in
  let raw := Some (JObject [("title", JString "HR"); ("Values", JArray elems);
                            ("unit", JString "BPM")]) in
  (TimeSeriesMetric.Values <$> unmarshalTimeSeries raw)
  = Some [TimeValue.mk 70 1005; TimeValue.mk 0 0; TimeValue.mk 72 1000]
  /\ forall v, unmarshalTimeSeries raw = Some v -> length (TimeSeriesMetric.Values v) = 3%nat.
Proof.
  intros elems raw. split; [vm_compute; reflexivity|].
  intros v Hv.
  refine (proj1 (decoded_readings_follow_the_array [("title", JString "HR")]
                   [("unit", JString "BPM")] "Values" elems v _ _ _ Hv)).
  - vm_compute. reflexivity.
  - repeat constructor.
  - repeat constructor.
Defined.

(** X24.  For ["motion"] both renderers count the elements of the
    ["values"] array of the payload: when the payload decodes,
    [getMetricValue] answers the number of elements, and [displayMetric]
    prints the section with that number, or nothing when the array is
    empty. *)
Theorem motion_counts_the_array
    (before after : list (string * json)) (key : string) (elems : list json)
    (rest : list Metric.t) :
  let m := Metric.mk "motion" (Some (JObject (before ++ (key, JArray elems) :: after))) in
  names key "values" = true ->
  Forall (fun kv => names kv.1 "values" = false) before ->
  Forall (fun kv => names kv.1 "values" = false) after ->
  unmarshalTimeSeries (Metric.Object m) <> None ->
  getMetricValue (m :: rest) "motion" = Sprintf "%d" [AInt (Z.of_nat (length elems))]
  /\ (elems <> [] ->
      displayMetric m
      = [printSection "MOTION";
         Sprintf "      Readings: %d\n" [AInt (Z.of_nat (length elems))]])
  /\ (elems = [] -> displayMetric m = []).
Proof.
  intros m Hkey Hbefore Hafter Hdecodes. subst m. cbn [Metric.Object] in Hdecodes.
  destruct (unmarshalTimeSeries (Some (JObject (before ++ (key, JArray elems) :: after))))
    as [v|] eqn:Hv; [clear Hdecodes|done].
  pose proof (unmarshalTimeSeries_values_array before after key elems v
                Hkey Hbefore Hafter Hv) as Hall.
  apply Forall2_length in Hall.
  split; [|split].
  - cbn [getMetricValue Metric.Type_ Metric.Object].
    change (String.eqb "motion" "motion") with true.
    change (String.eqb "motion" "sleep") with false. cbn [negb]. cbv iota.
    rewrite Hv, Hall. reflexivity.
  - intros Hne. unfold displayMetric. cbn [Metric.Type_ Metric.Object].
    change (String.eqb "motion" "motion") with true.
    change (String.eqb "motion" "sleep") with false. cbv iota.
    rewrite Hv, <- Hall. destruct elems as [|j elems]; [done|]. reflexivity.
  - intros ->. unfold displayMetric. cbn [Metric.Type_ Metric.Object].
    change (String.eqb "motion" "motion") with true.
    change (String.eqb "motion" "sleep") with false. cbv iota.
    rewrite Hv, <- Hall. reflexivity.
Qed.

Lemma motion_counts_the_array_witness :
  let elems := [Samples.reading 3 1000; Samples.reading 5 1060] in
  let m := Metric.mk "motion" (Some (JObject [("values", JArray elems)])) in
  getMetricValue [m] "motion" = Sprintf "%d" [AInt 2]
  /\ displayMetric m = [printSection "MOTION"; Sprintf "      Readings: %d\n" [AInt 2]].
Proof.
  intros elems m.
  assert (unmarshalTimeSeries (Metric.Object m) <> None) as Hdecodes
    by (vm_compute; discriminate).
  assert (names "values" "values" = true) as Hkey by (vm_compute; reflexivity).
  destruct (motion_counts_the_array [] [] "values" elems [] Hkey
              (Forall_nil_2 _) (Forall_nil_2 _) Hdecodes) as (Hvalue & Hshown & _).
  split; [exact Hvalue|]. apply Hshown. discriminate.
Defined.

#[local] Opaque unmarshalTimeSeries.

(** ** The response body *)

Lemma storeMetric_encode m : storeStruct storeMetricField (encodeMetric m) zeroMetric = Some m.
Proof. destruct m as [type_ [j|]]; vm_compute; reflexivity. Qed.

Lemma storeMetricElems_encode metrics :
  storeMetricElems (encodeMetric <$> metrics) = Some metrics.
Proof.
  induction metrics as [|m metrics IH]; [reflexivity|].
  rewrite fmap_cons. cbn [storeMetricElems]. rewrite storeMetric_encode, IH. reflexivity.
Qed.

Lemma storeMetricsMap_encode dates old :
  storeMetricsMap (JObject (encodeDate <$> dates)) old
  = Some (foldl (fun m entry => <[entry.1 := entry.2]> m) old dates).
Proof.
  unfold storeMetricsMap. revert old. induction dates as [|[date metrics] dates IH];
    intros old; [reflexivity|].
  rewrite fmap_cons.
  change (foldl ?f ?a (encodeDate (date, metrics) :: ?l))
    with (foldl f (f a (encodeDate (date, metrics))) l).
  cbn [encodeDate fst snd mbind option_bind storeMetricSlice].
  rewrite storeMetricElems_encode. cbn [mbind option_bind]. apply IH.
Qed.

Lemma foldl_insert_lookup
    (dates : list (string * list Metric.t)) (old : gmap string (list Metric.t)) date :
  (date ∉ dates.*1 ->
   foldl (fun m entry => <[entry.1 := entry.2]> m) old dates !! date = old !! date)
  /\ (forall metrics,
        NoDup dates.*1 -> (date, metrics) ∈ dates ->
        foldl (fun m entry => <[entry.1 := entry.2]> m) old dates !! date = Some metrics).
Proof.
  revert old. induction dates as [|[d ms] dates IH]; intros old.
  - split; [done|]. intros metrics _ Hin. inversion Hin.
  - change (foldl ?f old ((d, ms) :: dates)) with (foldl f (<[d := ms]> old) dates).
    rewrite fmap_cons. cbn [fst]. split.
    + intros Hnotin. apply not_elem_of_cons in Hnotin as [Hne Hnotin].
      rewrite (proj1 (IH _) Hnotin). by rewrite lookup_insert_ne.
    + intros metrics [Hd Hnodup]%NoDup_cons Hin.
      apply elem_of_cons in Hin as [[= -> ->]|Hin].
      * rewrite (proj1 (IH _) Hd). by rewrite lookup_insert_eq.
      * by apply (proj2 (IH _)).
Qed.

Lemma storeDataField_metrics j d :
  storeDataField "metrics" j d
  = (fun x => Data.mk x (Data.LatestTimeZone d)) <$> storeMetricsMap j (Data.Metrics d).
Proof. reflexivity. Qed.

Lemma storeDataField_latest_time_zone j d :
  storeDataField "latest_time_zone" j d
  = (fun x => Data.mk (Data.Metrics d) x) <$> storeString j (Data.LatestTimeZone d).
Proof. reflexivity. Qed.

Lemma storeAPIResponseField_data j da er st :
  storeAPIResponseField "data" j (APIResponse.mk da er st)
  = (fun x => APIResponse.mk x er st) <$> storeStruct storeDataField j da.
Proof. reflexivity. Qed.

Lemma storeAPIResponseField_error j da er st :
  storeAPIResponseField "error" j (APIResponse.mk da er st)
  = (fun x => APIResponse.mk da x st) <$> storeStringPtr j er.
Proof. reflexivity. Qed.

Lemma storeAPIResponseField_status j da er st :
  storeAPIResponseField "status" j (APIResponse.mk da er st)
  = (fun x => APIResponse.mk da er x) <$> storeInt64 j st.
Proof. reflexivity. Qed.

Lemma storeData_encode dates timeZone :
  storeStruct storeDataField
    (JObject [("metrics", JObject (encodeDate <$> dates));
              ("latest_time_zone", JString timeZone)]) (Data.mk ∅ "")
  = Some (Data.mk (datesMap dates) timeZone).
Proof.
  unfold storeStruct. rewrite !storeMembers_cons. cbn [fst snd].
  rewrite storeDataField_metrics. cbn [Data.Metrics Data.LatestTimeZone].
  rewrite storeMetricsMap_encode.
  cbn [fmap option_fmap option_map mbind option_bind].
  rewrite storeMembers_cons. cbn [fst snd].
  rewrite storeDataField_latest_time_zone. reflexivity.
Qed.

(** X23.  A response body in the form the API sends decodes to the
    response it describes: the time zone, the error (none for [null]), the
    status, and for the dates the map they fill, in which each date holds
    its envelopes in the order of the body, each with its type and its
    payload untouched.  With distinct dates, every date of the body is a key
    of the map, and the map has no other key. *)
Theorem response_decodes_to_its_metrics
    (dates : list (string * list Metric.t)) (timeZone : string) (error : option string)
    (status : number) (code : Z) :
  asInt status = Some code ->
  in_int64 code = true ->
  unmarshalAPIResponse (Some (encodeResponse dates timeZone error status))
  = Some (APIResponse.mk (Data.mk (datesMap dates) timeZone) error code)
  /\ (forall date metrics,
        NoDup dates.*1 -> (date, metrics) ∈ dates ->
        datesMap dates !! date = Some metrics)
  /\ (forall date, date ∉ dates.*1 -> datesMap dates !! date = None).
Proof.
  intros Hcode Hrange. split; [|split].
  - unfold unmarshalAPIResponse, encodeResponse. cbn [mbind option_bind].
    unfold storeStruct at 1. rewrite !storeMembers_cons. cbn [fst snd].
    unfold zeroAPIResponse. rewrite storeAPIResponseField_data, storeData_encode.
    cbn [fmap option_fmap option_map mbind option_bind].
    rewrite storeMembers_cons. cbn [fst snd].
    rewrite storeAPIResponseField_error.
    assert (storeStringPtr match error with Some e => JString e | None => JNull end None
            = Some error) as -> by (by destruct error).
    cbn [fmap option_fmap option_map mbind option_bind].
    rewrite storeMembers_cons. cbn [fst snd].
    rewrite storeAPIResponseField_status.
    unfold storeInt64. rewrite Hcode. cbn [mbind option_bind]. rewrite Hrange.
    reflexivity.
  - intros date metrics. apply (proj2 (foldl_insert_lookup dates ∅ date)).
  - intros date Hnotin. unfold datesMap.
    rewrite (proj1 (foldl_insert_lookup dates ∅ date) Hnotin). apply lookup_empty.
Qed.

Lemma response_decodes_to_its_metrics_witness :
  let status := {| asFloat := Some 200%float; asInt := Some 200 |} in
  let dates := [("2024-05-01", TwoDates.yesterday); ("2024-05-02", TwoDates.today)] in
  unmarshalAPIResponse (Some (encodeResponse dates "UTC" None status))
  = Some (APIResponse.mk (Data.mk (datesMap dates) "UTC") None 200)
  /\ datesMap dates !! "2024-05-02" = Some TwoDates.today.
Proof.
  intros status dates.
  destruct (response_decodes_to_its_metrics dates "UTC" None status 200 eq_refl eq_refl)
    as (Hdecode & Hlookup & _).
  split; [exact Hdecode|].
  apply Hlookup.
  - vm_compute. repeat constructor; intros Hin; repeat (apply elem_of_cons in Hin as [Hin|Hin];
      [discriminate Hin|]); inversion Hin.
  - apply elem_of_cons. right. apply elem_of_cons. by left.
Defined.
